(** * bcm2835-codec: format negotiation and buffer exchange

    A shallow embedding of the geometry calculator, the try/set format
    negotiation, the selection handling, the buffer-header conversion, the
    format-changed handler and the start-streaming buffer-count logic of
    [drivers/staging/vc04_services/bcm2835-codec/bcm2835-v4l2-codec.c].

    C integers are modelled as [Z] together with the explicit wrap-around of
    their type: [u32] for [unsigned int]/[u32], [s32] for [int].  The kernel
    is built with [-fno-strict-overflow], so signed arithmetic wraps. *)

From Stdlib Require Import ZArith List Bool Lia Ascii.
Import ListNotations.
Local Open Scope Z_scope.

(** ** Machine integers *)

Module CInt.

Definition u32 (x : Z) : Z := x mod 2 ^ 32.
Definition s32 (x : Z) : Z := (x + 2 ^ 31) mod 2 ^ 32 - 2 ^ 31.
Definition u64 (x : Z) : Z := x mod 2 ^ 64.
Definition s64 (x : Z) : Z := (x + 2 ^ 63) mod 2 ^ 64 - 2 ^ 63.

Definition u32_range (x : Z) : Prop := 0 <= x < 2 ^ 32.
Definition s32_range (x : Z) : Prop := - 2 ^ 31 <= x < 2 ^ 31.
Definition u64_range (x : Z) : Prop := 0 <= x < 2 ^ 64.

(** [int] arithmetic: the mathematical result, wrapped to 32 bits. *)
Definition mul_int (a b : Z) : Z := s32 (a * b).
Definition add_int (a b : Z) : Z := s32 (a + b).
(** [>>] on an [int] is an arithmetic shift, which is [Z.shiftr]. *)
Definition shr_int (a n : Z) : Z := Z.shiftr a n.

(** [unsigned int] arithmetic. *)
Definition add_uint (a b : Z) : Z := u32 (a + b).
Definition shl_uint (a n : Z) : Z := u32 (Z.shiftl a n).

(** include/linux/align.h:
    [ALIGN(x, a)] is [__ALIGN_KERNEL_MASK(x, (typeof(x))(a) - 1)], that is
    [((x) + (mask)) & ~(mask)], computed in the type of [x]. *)
Definition ALIGN_int (x a : Z) : Z :=
  let mask := s32 (s32 a - 1) in
  Z.land (s32 (x + mask)) (Z.lnot mask).

Definition ALIGN_uint (x a : Z) : Z :=
  let mask := u32 (u32 a - 1) in
  Z.land (u32 (x + mask)) (u32 (Z.lnot mask)).

(** [min] on two [unsigned int]s. *)
Definition min_uint (a b : Z) : Z := if a <? b then a else b.

End CInt.
Import CInt.

(** ** Constants of the driver and of the V4L2 / MMAL headers *)

Definition BIT (n : Z) : Z := Z.shiftl 1 n.

(** [x & flag] used as a truth value. *)
Definition has_flag (x flag : Z) : bool := negb (Z.land x flag =? 0).

Definition MIN_W : Z := 32.
Definition MIN_H : Z := 32.
Definition MAX_W_CODEC : Z := 1920.
Definition MAX_H_CODEC : Z := 1920.
Definition MAX_W_ISP : Z := 16384.
Definition MAX_H_ISP : Z := 16384.
Definition BPL_ALIGN : Z := 32.
Definition DEFAULT_WIDTH : Z := 32.
Definition DEFAULT_HEIGHT : Z := 32.

Definition DEF_COMP_BUF_SIZE_GREATER_720P : Z := Z.shiftl 768 10.
Definition DEF_COMP_BUF_SIZE_720P_OR_LESS : Z := Z.shiftl 512 10.
Definition DEF_COMP_BUF_SIZE_JPEG : Z := Z.shiftl 4096 10.

(** [HZ] is a build-time constant of the kernel; the timeout is kept
    symbolic in it. *)
Definition COMPLETE_TIMEOUT (HZ : Z) : Z := 2 * HZ.

Definition EINVAL : Z := 22.
Definition EBUSY : Z := 16.

(** include/uapi/linux/videodev2.h *)
Definition v4l2_fourcc (a b c d : ascii) : Z :=
  let z (ch : ascii) := Z.of_nat (nat_of_ascii ch) in
  Z.lor (Z.lor (Z.lor (z a) (Z.shiftl (z b) 8)) (Z.shiftl (z c) 16))
        (Z.shiftl (z d) 24).

Definition V4L2_FMT_FLAG_COMPRESSED : Z := 1.

Definition V4L2_PIX_FMT_YUV420 := v4l2_fourcc "Y" "U" "1" "2".
Definition V4L2_PIX_FMT_YVU420 := v4l2_fourcc "Y" "V" "1" "2".
Definition V4L2_PIX_FMT_NV12 := v4l2_fourcc "N" "V" "1" "2".
Definition V4L2_PIX_FMT_NV21 := v4l2_fourcc "N" "V" "2" "1".
Definition V4L2_PIX_FMT_RGB565 := v4l2_fourcc "R" "G" "B" "P".
Definition V4L2_PIX_FMT_YUYV := v4l2_fourcc "Y" "U" "Y" "V".
Definition V4L2_PIX_FMT_UYVY := v4l2_fourcc "U" "Y" "V" "Y".
Definition V4L2_PIX_FMT_YVYU := v4l2_fourcc "Y" "V" "Y" "U".
Definition V4L2_PIX_FMT_VYUY := v4l2_fourcc "V" "Y" "U" "Y".
Definition V4L2_PIX_FMT_NV12_COL128 := v4l2_fourcc "N" "C" "1" "2".
Definition V4L2_PIX_FMT_RGB24 := v4l2_fourcc "R" "G" "B" "3".
Definition V4L2_PIX_FMT_BGR24 := v4l2_fourcc "B" "G" "R" "3".
Definition V4L2_PIX_FMT_BGR32 := v4l2_fourcc "B" "G" "R" "4".
Definition V4L2_PIX_FMT_RGBA32 := v4l2_fourcc "A" "B" "2" "4".
Definition V4L2_PIX_FMT_SRGGB8 := v4l2_fourcc "R" "G" "G" "B".
Definition V4L2_PIX_FMT_SBGGR8 := v4l2_fourcc "B" "A" "8" "1".
Definition V4L2_PIX_FMT_SGRBG8 := v4l2_fourcc "G" "R" "B" "G".
Definition V4L2_PIX_FMT_SGBRG8 := v4l2_fourcc "G" "B" "R" "G".
Definition V4L2_PIX_FMT_SRGGB10P := v4l2_fourcc "p" "R" "A" "A".
Definition V4L2_PIX_FMT_SBGGR10P := v4l2_fourcc "p" "B" "A" "A".
Definition V4L2_PIX_FMT_SGRBG10P := v4l2_fourcc "p" "g" "A" "A".
Definition V4L2_PIX_FMT_SGBRG10P := v4l2_fourcc "p" "G" "A" "A".
Definition V4L2_PIX_FMT_SRGGB12P := v4l2_fourcc "p" "R" "C" "C".
Definition V4L2_PIX_FMT_SBGGR12P := v4l2_fourcc "p" "B" "C" "C".
Definition V4L2_PIX_FMT_SGRBG12P := v4l2_fourcc "p" "g" "C" "C".
Definition V4L2_PIX_FMT_SGBRG12P := v4l2_fourcc "p" "G" "C" "C".
Definition V4L2_PIX_FMT_SRGGB14P := v4l2_fourcc "p" "R" "E" "E".
Definition V4L2_PIX_FMT_SBGGR14P := v4l2_fourcc "p" "B" "E" "E".
Definition V4L2_PIX_FMT_SGRBG14P := v4l2_fourcc "p" "g" "E" "E".
Definition V4L2_PIX_FMT_SGBRG14P := v4l2_fourcc "p" "G" "E" "E".
Definition V4L2_PIX_FMT_SRGGB16 := v4l2_fourcc "R" "G" "1" "6".
Definition V4L2_PIX_FMT_SBGGR16 := v4l2_fourcc "B" "Y" "R" "2".
Definition V4L2_PIX_FMT_SGRBG16 := v4l2_fourcc "G" "R" "1" "6".
Definition V4L2_PIX_FMT_SGBRG16 := v4l2_fourcc "G" "B" "1" "6".
Definition V4L2_PIX_FMT_SRGGB10 := v4l2_fourcc "R" "G" "1" "0".
Definition V4L2_PIX_FMT_SBGGR10 := v4l2_fourcc "B" "G" "1" "0".
Definition V4L2_PIX_FMT_SGRBG10 := v4l2_fourcc "B" "A" "1" "0".
Definition V4L2_PIX_FMT_SGBRG10 := v4l2_fourcc "G" "B" "1" "0".
Definition V4L2_PIX_FMT_SRGGB12 := v4l2_fourcc "R" "G" "1" "2".
Definition V4L2_PIX_FMT_SBGGR12 := v4l2_fourcc "B" "G" "1" "2".
Definition V4L2_PIX_FMT_SGRBG12 := v4l2_fourcc "B" "A" "1" "2".
Definition V4L2_PIX_FMT_SGBRG12 := v4l2_fourcc "G" "B" "1" "2".
Definition V4L2_PIX_FMT_SRGGB14 := v4l2_fourcc "R" "G" "1" "4".
Definition V4L2_PIX_FMT_SBGGR14 := v4l2_fourcc "B" "G" "1" "4".
Definition V4L2_PIX_FMT_SGRBG14 := v4l2_fourcc "G" "R" "1" "4".
Definition V4L2_PIX_FMT_SGBRG14 := v4l2_fourcc "G" "B" "1" "4".
Definition V4L2_PIX_FMT_GREY := v4l2_fourcc "G" "R" "E" "Y".
Definition V4L2_PIX_FMT_Y10P := v4l2_fourcc "Y" "1" "0" "P".
Definition V4L2_PIX_FMT_Y12P := v4l2_fourcc "Y" "1" "2" "P".
Definition V4L2_PIX_FMT_Y14P := v4l2_fourcc "Y" "1" "4" "P".
Definition V4L2_PIX_FMT_Y16 := v4l2_fourcc "Y" "1" "6" " ".
Definition V4L2_PIX_FMT_Y10 := v4l2_fourcc "Y" "1" "0" " ".
Definition V4L2_PIX_FMT_Y12 := v4l2_fourcc "Y" "1" "2" " ".
Definition V4L2_PIX_FMT_Y14 := v4l2_fourcc "Y" "1" "4" " ".
Definition V4L2_PIX_FMT_H264 := v4l2_fourcc "H" "2" "6" "4".
Definition V4L2_PIX_FMT_JPEG := v4l2_fourcc "J" "P" "E" "G".
Definition V4L2_PIX_FMT_MJPEG := v4l2_fourcc "M" "J" "P" "G".
Definition V4L2_PIX_FMT_MPEG4 := v4l2_fourcc "M" "P" "G" "4".
Definition V4L2_PIX_FMT_H263 := v4l2_fourcc "H" "2" "6" "3".
Definition V4L2_PIX_FMT_MPEG2 := v4l2_fourcc "M" "P" "G" "2".
Definition V4L2_PIX_FMT_VC1_ANNEX_G := v4l2_fourcc "V" "C" "1" "G".

(** [enum v4l2_field] *)
Definition V4L2_FIELD_ANY : Z := 0.
Definition V4L2_FIELD_NONE : Z := 1.
Definition V4L2_FIELD_TOP : Z := 2.
Definition V4L2_FIELD_BOTTOM : Z := 3.
Definition V4L2_FIELD_INTERLACED : Z := 4.
Definition V4L2_FIELD_SEQ_TB : Z := 5.
Definition V4L2_FIELD_SEQ_BT : Z := 6.
Definition V4L2_FIELD_ALTERNATE : Z := 7.
Definition V4L2_FIELD_INTERLACED_TB : Z := 8.
Definition V4L2_FIELD_INTERLACED_BT : Z := 9.

(** [enum v4l2_colorspace] (the values the driver names) *)
Definition V4L2_COLORSPACE_SMPTE170M : Z := 1.
Definition V4L2_COLORSPACE_REC709 : Z := 3.
Definition V4L2_COLORSPACE_SRGB : Z := 8.

(** Buffer flags *)
Definition V4L2_BUF_FLAG_KEYFRAME : Z := 0x00000008.
Definition V4L2_BUF_FLAG_LAST : Z := 0x00100000.

(** Selection targets *)
Definition V4L2_SEL_TGT_CROP : Z := 0x0000.
Definition V4L2_SEL_TGT_CROP_DEFAULT : Z := 0x0001.
Definition V4L2_SEL_TGT_CROP_BOUNDS : Z := 0x0002.
Definition V4L2_SEL_TGT_COMPOSE : Z := 0x0100.
Definition V4L2_SEL_TGT_COMPOSE_DEFAULT : Z := 0x0101.
Definition V4L2_SEL_TGT_COMPOSE_BOUNDS : Z := 0x0102.

(** [enum v4l2_buf_type] *)
Inductive v4l2_buf_type : Set :=
| V4L2_BUF_TYPE_VIDEO_CAPTURE
| V4L2_BUF_TYPE_VIDEO_OUTPUT
| V4L2_BUF_TYPE_VIDEO_OVERLAY
| V4L2_BUF_TYPE_VBI_CAPTURE
| V4L2_BUF_TYPE_VBI_OUTPUT
| V4L2_BUF_TYPE_SLICED_VBI_CAPTURE
| V4L2_BUF_TYPE_SLICED_VBI_OUTPUT
| V4L2_BUF_TYPE_VIDEO_OUTPUT_OVERLAY
| V4L2_BUF_TYPE_VIDEO_CAPTURE_MPLANE
| V4L2_BUF_TYPE_VIDEO_OUTPUT_MPLANE
| V4L2_BUF_TYPE_SDR_CAPTURE
| V4L2_BUF_TYPE_SDR_OUTPUT
| V4L2_BUF_TYPE_META_CAPTURE
| V4L2_BUF_TYPE_META_OUTPUT.

Definition V4L2_TYPE_IS_OUTPUT (type : v4l2_buf_type) : bool :=
  match type with
  | V4L2_BUF_TYPE_VIDEO_OUTPUT
  | V4L2_BUF_TYPE_VIDEO_OUTPUT_MPLANE
  | V4L2_BUF_TYPE_VIDEO_OVERLAY
  | V4L2_BUF_TYPE_VIDEO_OUTPUT_OVERLAY
  | V4L2_BUF_TYPE_VBI_OUTPUT
  | V4L2_BUF_TYPE_SLICED_VBI_OUTPUT
  | V4L2_BUF_TYPE_SDR_OUTPUT
  | V4L2_BUF_TYPE_META_OUTPUT => true
  | _ => false
  end.

(** vchiq-mmal/mmal-msg.h: buffer header flags *)
Definition MMAL_BUFFER_HEADER_FLAG_EOS : Z := BIT 0.
Definition MMAL_BUFFER_HEADER_FLAG_FRAME_START : Z := BIT 1.
Definition MMAL_BUFFER_HEADER_FLAG_FRAME_END : Z := BIT 2.
Definition MMAL_BUFFER_HEADER_FLAG_KEYFRAME : Z := BIT 3.
Definition MMAL_BUFFER_HEADER_FLAG_CORRUPTED : Z := BIT 9.
Definition MMAL_BUFFER_HEADER_FLAG_FORMAT_SPECIFIC_START : Z := Z.shiftl 1 16.
Definition MMAL_BUFFER_HEADER_VIDEO_FLAG_INTERLACED : Z :=
  Z.shiftl MMAL_BUFFER_HEADER_FLAG_FORMAT_SPECIFIC_START 0.
Definition MMAL_BUFFER_HEADER_VIDEO_FLAG_TOP_FIELD_FIRST : Z :=
  Z.shiftl MMAL_BUFFER_HEADER_FLAG_FORMAT_SPECIFIC_START 1.
(** [MMAL_TIME_UNKNOWN] is bit 63, stored in a signed 64-bit field. *)
Definition MMAL_TIME_UNKNOWN : Z := BIT 63.

Definition MMAL_ES_FORMAT_FLAG_COL_FMTS_WIDTH_IS_COL_STRIDE : Z := 0x01.

(** [enum mmal_es_type] *)
Inductive mmal_es_type : Set :=
| MMAL_ES_TYPE_UNKNOWN
| MMAL_ES_TYPE_CONTROL
| MMAL_ES_TYPE_AUDIO
| MMAL_ES_TYPE_VIDEO
| MMAL_ES_TYPE_SUBPICTURE.

(** [enum mmal_interlace_type]; a value the driver does not name falls in
    the [default] arm of the switch. *)
Inductive mmal_interlace_type : Set :=
| MMAL_INTERLACE_PROGRESSIVE
| MMAL_INTERLACE_FIELD_SINGLE_UPPER_FIRST
| MMAL_INTERLACE_FIELD_SINGLE_LOWER_FIRST
| MMAL_INTERLACE_FIELDS_INTERLEAVED_UPPER_FIRST
| MMAL_INTERLACE_FIELDS_INTERLEAVED_LOWER_FIRST
| MMAL_INTERLACE_MIXED.

(** MMAL colour spaces are fourcc codes. *)
Definition MMAL_COLOR_SPACE_ITUR_BT601 := v4l2_fourcc "Y" "6" "0" "1".
Definition MMAL_COLOR_SPACE_ITUR_BT709 := v4l2_fourcc "Y" "7" "0" "9".

(** vchiq-mmal/mmal-encodings.h: the encodings are kept by name.  The
    four packed-YUV encodings have the same code as the V4L2 fourcc the
    driver compares them with in [color_mmal2v4l]; [MMAL_ENCODING_UNLISTED]
    stands for a code that the driver has no name for. *)
Inductive mmal_encoding : Set :=
| MMAL_ENCODING_I420 | MMAL_ENCODING_YV12 | MMAL_ENCODING_NV12
| MMAL_ENCODING_NV21 | MMAL_ENCODING_RGB16 | MMAL_ENCODING_YUYV
| MMAL_ENCODING_UYVY | MMAL_ENCODING_YVYU | MMAL_ENCODING_VYUY
| MMAL_ENCODING_YUVUV128 | MMAL_ENCODING_RGB24 | MMAL_ENCODING_BGR24
| MMAL_ENCODING_BGRA | MMAL_ENCODING_RGBA
| MMAL_ENCODING_BAYER_SRGGB8 | MMAL_ENCODING_BAYER_SBGGR8
| MMAL_ENCODING_BAYER_SGRBG8 | MMAL_ENCODING_BAYER_SGBRG8
| MMAL_ENCODING_BAYER_SRGGB10P | MMAL_ENCODING_BAYER_SBGGR10P
| MMAL_ENCODING_BAYER_SGRBG10P | MMAL_ENCODING_BAYER_SGBRG10P
| MMAL_ENCODING_BAYER_SRGGB12P | MMAL_ENCODING_BAYER_SBGGR12P
| MMAL_ENCODING_BAYER_SGRBG12P | MMAL_ENCODING_BAYER_SGBRG12P
| MMAL_ENCODING_BAYER_SRGGB14P | MMAL_ENCODING_BAYER_SBGGR14P
| MMAL_ENCODING_BAYER_SGRBG14P | MMAL_ENCODING_BAYER_SGBRG14P
| MMAL_ENCODING_BAYER_SRGGB16 | MMAL_ENCODING_BAYER_SBGGR16
| MMAL_ENCODING_BAYER_SGRBG16 | MMAL_ENCODING_BAYER_SGBRG16
| MMAL_ENCODING_BAYER_SRGGB10 | MMAL_ENCODING_BAYER_SBGGR10
| MMAL_ENCODING_BAYER_SGRBG10 | MMAL_ENCODING_BAYER_SGBRG10
| MMAL_ENCODING_BAYER_SRGGB12 | MMAL_ENCODING_BAYER_SBGGR12
| MMAL_ENCODING_BAYER_SGRBG12 | MMAL_ENCODING_BAYER_SGBRG12
| MMAL_ENCODING_BAYER_SRGGB14 | MMAL_ENCODING_BAYER_SBGGR14
| MMAL_ENCODING_BAYER_SGRBG14 | MMAL_ENCODING_BAYER_SGBRG14
| MMAL_ENCODING_GREY | MMAL_ENCODING_Y10P | MMAL_ENCODING_Y12P
| MMAL_ENCODING_Y14P | MMAL_ENCODING_Y16 | MMAL_ENCODING_Y10
| MMAL_ENCODING_Y12 | MMAL_ENCODING_Y14
| MMAL_ENCODING_H264 | MMAL_ENCODING_JPEG | MMAL_ENCODING_MJPEG
| MMAL_ENCODING_MP4V | MMAL_ENCODING_H263 | MMAL_ENCODING_MP2V
| MMAL_ENCODING_WVC1
| MMAL_ENCODING_UNLISTED (code : Z).

(** ** Data model *)

Inductive bcm2835_codec_role : Set :=
| DECODE | ENCODE | ISP | DEINTERLACE | ENCODE_IMAGE.

Definition role_index (role : bcm2835_codec_role) : nat :=
  match role with
  | DECODE => 0 | ENCODE => 1 | ISP => 2 | DEINTERLACE => 3
  | ENCODE_IMAGE => 4
  end%nat.

Record bcm2835_codec_fmt : Set := mk_fmt {
  fourcc : Z;
  depth : Z;
  bytesperline_align : list Z;   (* u8 [NUM_ROLES], indexed by role *)
  flags : Z;
  mmal_fmt : mmal_encoding;
  size_multiplier_x2 : Z;
  is_bayer : bool
}.

(** [fmt->bytesperline_align[role]] *)
Definition bytesperline_align_at (fmt : bcm2835_codec_fmt)
  (role : bcm2835_codec_role) : Z :=
  nth (role_index role) (bytesperline_align fmt) 0.

Definition raw_fmt (fcc d : Z) (al : list Z) (enc : mmal_encoding)
  (mult : Z) (bayer : bool) : bcm2835_codec_fmt :=
  mk_fmt fcc d al 0 enc mult bayer.

(** Entries of the table that give no [bytesperline_align],
    [size_multiplier_x2] or [is_bayer] have them zero-initialised. *)
Definition compressed_fmt (fcc : Z) (enc : mmal_encoding)
  : bcm2835_codec_fmt :=
  mk_fmt fcc 0 [0; 0; 0; 0; 0] V4L2_FMT_FLAG_COMPRESSED enc 0 false.

Definition al32 : list Z := [32; 32; 32; 32; 32].

Definition supported_formats : list bcm2835_codec_fmt :=
  [ (* YUV formats *)
    raw_fmt V4L2_PIX_FMT_YUV420 8 [32; 64; 64; 32; 32] MMAL_ENCODING_I420 3 false;
    raw_fmt V4L2_PIX_FMT_YVU420 8 [32; 64; 64; 32; 32] MMAL_ENCODING_YV12 3 false;
    raw_fmt V4L2_PIX_FMT_NV12 8 al32 MMAL_ENCODING_NV12 3 false;
    raw_fmt V4L2_PIX_FMT_NV21 8 al32 MMAL_ENCODING_NV21 3 false;
    raw_fmt V4L2_PIX_FMT_RGB565 16 al32 MMAL_ENCODING_RGB16 2 false;
    raw_fmt V4L2_PIX_FMT_YUYV 16 al32 MMAL_ENCODING_YUYV 2 false;
    raw_fmt V4L2_PIX_FMT_UYVY 16 al32 MMAL_ENCODING_UYVY 2 false;
    raw_fmt V4L2_PIX_FMT_YVYU 16 al32 MMAL_ENCODING_YVYU 2 false;
    raw_fmt V4L2_PIX_FMT_VYUY 16 al32 MMAL_ENCODING_VYUY 2 false;
    raw_fmt V4L2_PIX_FMT_NV12_COL128 8 al32 MMAL_ENCODING_YUVUV128 3 false;
    (* RGB formats *)
    raw_fmt V4L2_PIX_FMT_RGB24 24 al32 MMAL_ENCODING_RGB24 2 false;
    raw_fmt V4L2_PIX_FMT_BGR24 24 al32 MMAL_ENCODING_BGR24 2 false;
    raw_fmt V4L2_PIX_FMT_BGR32 32 al32 MMAL_ENCODING_BGRA 2 false;
    raw_fmt V4L2_PIX_FMT_RGBA32 32 al32 MMAL_ENCODING_RGBA 2 false;
    (* Bayer formats, 8 bit *)
    raw_fmt V4L2_PIX_FMT_SRGGB8 8 al32 MMAL_ENCODING_BAYER_SRGGB8 2 true;
    raw_fmt V4L2_PIX_FMT_SBGGR8 8 al32 MMAL_ENCODING_BAYER_SBGGR8 2 true;
    raw_fmt V4L2_PIX_FMT_SGRBG8 8 al32 MMAL_ENCODING_BAYER_SGRBG8 2 true;
    raw_fmt V4L2_PIX_FMT_SGBRG8 8 al32 MMAL_ENCODING_BAYER_SGBRG8 2 true;
    (* 10 bit *)
    raw_fmt V4L2_PIX_FMT_SRGGB10P 10 al32 MMAL_ENCODING_BAYER_SRGGB10P 2 true;
    raw_fmt V4L2_PIX_FMT_SBGGR10P 10 al32 MMAL_ENCODING_BAYER_SBGGR10P 2 true;
    raw_fmt V4L2_PIX_FMT_SGRBG10P 10 al32 MMAL_ENCODING_BAYER_SGRBG10P 2 true;
    raw_fmt V4L2_PIX_FMT_SGBRG10P 10 al32 MMAL_ENCODING_BAYER_SGBRG10P 2 true;
    (* 12 bit *)
    raw_fmt V4L2_PIX_FMT_SRGGB12P 12 al32 MMAL_ENCODING_BAYER_SRGGB12P 2 true;
    raw_fmt V4L2_PIX_FMT_SBGGR12P 12 al32 MMAL_ENCODING_BAYER_SBGGR12P 2 true;
    raw_fmt V4L2_PIX_FMT_SGRBG12P 12 al32 MMAL_ENCODING_BAYER_SGRBG12P 2 true;
    raw_fmt V4L2_PIX_FMT_SGBRG12P 12 al32 MMAL_ENCODING_BAYER_SGBRG12P 2 true;
    (* 14 bit *)
    raw_fmt V4L2_PIX_FMT_SRGGB14P 14 al32 MMAL_ENCODING_BAYER_SRGGB14P 2 true;
    raw_fmt V4L2_PIX_FMT_SBGGR14P 14 al32 MMAL_ENCODING_BAYER_SBGGR14P 2 true;
    raw_fmt V4L2_PIX_FMT_SGRBG14P 14 al32 MMAL_ENCODING_BAYER_SGRBG14P 2 true;
    raw_fmt V4L2_PIX_FMT_SGBRG14P 14 al32 MMAL_ENCODING_BAYER_SGBRG14P 2 true;
    (* 16 bit *)
    raw_fmt V4L2_PIX_FMT_SRGGB16 16 al32 MMAL_ENCODING_BAYER_SRGGB16 2 true;
    raw_fmt V4L2_PIX_FMT_SBGGR16 16 al32 MMAL_ENCODING_BAYER_SBGGR16 2 true;
    raw_fmt V4L2_PIX_FMT_SGRBG16 16 al32 MMAL_ENCODING_BAYER_SGRBG16 2 true;
    raw_fmt V4L2_PIX_FMT_SGBRG16 16 al32 MMAL_ENCODING_BAYER_SGBRG16 2 true;
    (* Bayer formats unpacked to 16bpp, 10 bit *)
    raw_fmt V4L2_PIX_FMT_SRGGB10 16 al32 MMAL_ENCODING_BAYER_SRGGB10 2 true;
    raw_fmt V4L2_PIX_FMT_SBGGR10 16 al32 MMAL_ENCODING_BAYER_SBGGR10 2 true;
    raw_fmt V4L2_PIX_FMT_SGRBG10 16 al32 MMAL_ENCODING_BAYER_SGRBG10 2 true;
    raw_fmt V4L2_PIX_FMT_SGBRG10 16 al32 MMAL_ENCODING_BAYER_SGBRG10 2 true;
    (* 12 bit *)
    raw_fmt V4L2_PIX_FMT_SRGGB12 16 al32 MMAL_ENCODING_BAYER_SRGGB12 2 true;
    raw_fmt V4L2_PIX_FMT_SBGGR12 16 al32 MMAL_ENCODING_BAYER_SBGGR12 2 true;
    raw_fmt V4L2_PIX_FMT_SGRBG12 16 al32 MMAL_ENCODING_BAYER_SGRBG12 2 true;
    raw_fmt V4L2_PIX_FMT_SGBRG12 16 al32 MMAL_ENCODING_BAYER_SGBRG12 2 true;
    (* 14 bit *)
    raw_fmt V4L2_PIX_FMT_SRGGB14 16 al32 MMAL_ENCODING_BAYER_SRGGB14 2 true;
    raw_fmt V4L2_PIX_FMT_SBGGR14 16 al32 MMAL_ENCODING_BAYER_SBGGR14 2 true;
    raw_fmt V4L2_PIX_FMT_SGRBG14 16 al32 MMAL_ENCODING_BAYER_SGRBG14 2 true;
    raw_fmt V4L2_PIX_FMT_SGBRG14 16 al32 MMAL_ENCODING_BAYER_SGBRG14 2 true;
    (* Monochrome MIPI formats *)
    raw_fmt V4L2_PIX_FMT_GREY 8 al32 MMAL_ENCODING_GREY 2 false;
    raw_fmt V4L2_PIX_FMT_Y10P 10 al32 MMAL_ENCODING_Y10P 2 false;
    raw_fmt V4L2_PIX_FMT_Y12P 12 al32 MMAL_ENCODING_Y12P 2 false;
    raw_fmt V4L2_PIX_FMT_Y14P 14 al32 MMAL_ENCODING_Y14P 2 false;
    raw_fmt V4L2_PIX_FMT_Y16 16 al32 MMAL_ENCODING_Y16 2 false;
    raw_fmt V4L2_PIX_FMT_Y10 16 al32 MMAL_ENCODING_Y10 2 false;
    raw_fmt V4L2_PIX_FMT_Y12 16 al32 MMAL_ENCODING_Y12 2 false;
    raw_fmt V4L2_PIX_FMT_Y14 16 al32 MMAL_ENCODING_Y14 2 false;
    (* Compressed formats *)
    compressed_fmt V4L2_PIX_FMT_H264 MMAL_ENCODING_H264;
    compressed_fmt V4L2_PIX_FMT_JPEG MMAL_ENCODING_JPEG;
    compressed_fmt V4L2_PIX_FMT_MJPEG MMAL_ENCODING_MJPEG;
    compressed_fmt V4L2_PIX_FMT_MPEG4 MMAL_ENCODING_MP4V;
    compressed_fmt V4L2_PIX_FMT_H263 MMAL_ENCODING_H263;
    compressed_fmt V4L2_PIX_FMT_MPEG2 MMAL_ENCODING_MP2V;
    compressed_fmt V4L2_PIX_FMT_VC1_ANNEX_G MMAL_ENCODING_WVC1 ].

(** ** Geometry calculator *)

(** [fmt->flags & V4L2_FMT_FLAG_COMPRESSED], as a truth value. *)
Definition is_compressed (fmt : bcm2835_codec_fmt) : bool :=
  has_flag (flags fmt) V4L2_FMT_FLAG_COMPRESSED.

(** [get_sizeimage(int bpl, int width, int height, fmt)]: the arguments
    are C [int]s, the result is an [unsigned int]. *)
Definition get_sizeimage (bpl width height : Z) (fmt : bcm2835_codec_fmt)
  : Z :=
  if is_compressed fmt then
    if fourcc fmt =? V4L2_PIX_FMT_JPEG then
      u32 DEF_COMP_BUF_SIZE_JPEG
    else if mul_int width height >? mul_int 1280 720 then
      u32 DEF_COMP_BUF_SIZE_GREATER_720P
    else
      u32 DEF_COMP_BUF_SIZE_720P_OR_LESS
  else if negb (fourcc fmt =? V4L2_PIX_FMT_NV12_COL128) then
    u32 (shr_int (mul_int (mul_int bpl height) (size_multiplier_x2 fmt)) 1)
  else
    u32 (mul_int (ALIGN_int width 128) bpl).

(** [get_bytesperline(int width, int height, fmt, role)] *)
Definition get_bytesperline (width height : Z) (fmt : bcm2835_codec_fmt)
  (role : bcm2835_codec_role) : Z :=
  if negb (fourcc fmt =? V4L2_PIX_FMT_NV12_COL128) then
    u32 (ALIGN_int (shr_int (mul_int width (depth fmt)) 3)
                   (bytesperline_align_at fmt role))
  else
    u32 (shr_int (mul_int height 3) 1).

(** ** Session, queue and port state *)

(** The part of [struct v4l2_format] the driver reads and writes: the
    buffer type and the single-plane [fmt.pix_mp] geometry record. *)
Record v4l2_format : Set := mk_v4l2_format {
  fmt_type : v4l2_buf_type;
  pix_mp_width : Z;
  pix_mp_height : Z;
  pix_mp_pixelformat : Z;
  pix_mp_field : Z;
  pix_mp_colorspace : Z;
  plane_fmt0_sizeimage : Z;
  plane_fmt0_bytesperline : Z;
  plane_fmt0_reserved : list Z;
  pix_mp_num_planes : Z;
  pix_mp_ycbcr_enc : Z;
  pix_mp_quantization : Z;
  pix_mp_xfer_func : Z
}.

(** [struct v4l2_fract]; the record also serves for [struct mmal_rational],
    which has the same two fields. *)
Record v4l2_fract : Set := mk_fract { numerator : Z; denominator : Z }.

(** [struct bcm2835_codec_q_data].  [fmt] points into the device's list of
    supported formats, which never changes once the device exists, so the
    descriptor itself is stored.  Of the embedded EOS buffer only the in-use
    flag takes part in what follows. *)
Record bcm2835_codec_q_data : Set := mk_q_data {
  bytesperline : Z;
  height : Z;
  crop_width : Z;
  crop_height : Z;
  selection_set : bool;
  aspect_ratio : v4l2_fract;
  field : Z;
  sizeimage : Z;
  sequence : Z;
  fmt : bcm2835_codec_fmt;
  eos_buffer_in_use : bool
}.

Record bcm2835_codec_dev : Set := mk_dev {
  role : bcm2835_codec_role;
  supported_fmts_0 : list bcm2835_codec_fmt;   (* supported_fmts[0] *)
  supported_fmts_1 : list bcm2835_codec_fmt;   (* supported_fmts[1] *)
  max_w : Z;
  max_h : Z
}.

(** The fields of [struct vchiq_mmal_port] the driver touches. *)
Record vchiq_mmal_port : Set := mk_port {
  enabled : bool;
  format_encoding : mmal_encoding;
  format_flags : Z;
  format_bitrate : Z;
  es_video_width : Z;
  es_video_height : Z;
  es_video_crop_x : Z;
  es_video_crop_y : Z;
  es_video_crop_width : Z;
  es_video_crop_height : Z;
  es_video_frame_rate : v4l2_fract;
  minimum_buffer_num : Z;
  minimum_buffer_size : Z;
  current_buffer_num : Z;
  current_buffer_size : Z;
  buffers_with_vpu : Z
}.

Record vchiq_mmal_component : Set := mk_component {
  input_0 : vchiq_mmal_port;    (* input[0] *)
  output_0 : vchiq_mmal_port    (* output[0] *)
}.

(** What the driver reads of a [struct vb2_queue]. *)
Record vb2_queue : Set := mk_vb2_queue {
  num_buffers : Z;
  streaming : bool;
  last_buffer_dequeued : bool
}.

Inductive v4l2_event : Set :=
| V4L2_EVENT_SOURCE_CHANGE_RESOLUTION
| V4L2_EVENT_EOS.

(** [struct bcm2835_codec_ctx], with the two vb2 queues of its m2m context
    ([out_q_ctx.q], [cap_q_ctx.q]) and the events queued on its file
    handle. *)
Record bcm2835_codec_ctx : Set := mk_ctx {
  dev : bcm2835_codec_dev;
  component : option vchiq_mmal_component;
  component_enabled : bool;
  colorspace : Z;
  ycbcr_enc : Z;
  xfer_func : Z;
  quant : Z;
  hflip : Z;
  vflip : Z;
  q_data_SRC : bcm2835_codec_q_data;   (* q_data[V4L2_M2M_SRC] *)
  q_data_DST : bcm2835_codec_q_data;   (* q_data[V4L2_M2M_DST] *)
  bitrate : Z;
  framerate_num : Z;
  framerate_denom : Z;
  aborting : bool;
  num_ip_buffers : Z;
  num_op_buffers : Z;
  out_q : vb2_queue;
  cap_q : vb2_queue;
  fh_events : list v4l2_event
}.

Inductive m2m_index : Set := V4L2_M2M_SRC | V4L2_M2M_DST.

Definition q_data (ctx : bcm2835_codec_ctx) (i : m2m_index)
  : bcm2835_codec_q_data :=
  match i with
  | V4L2_M2M_SRC => q_data_SRC ctx
  | V4L2_M2M_DST => q_data_DST ctx
  end.

(** *** Field updates *)

Definition set_q_data (ctx : bcm2835_codec_ctx) (i : m2m_index)
  (q : bcm2835_codec_q_data) : bcm2835_codec_ctx :=
  match i with
  | V4L2_M2M_SRC =>
      mk_ctx (dev ctx) (component ctx) (component_enabled ctx)
        (colorspace ctx) (ycbcr_enc ctx) (xfer_func ctx) (quant ctx)
        (hflip ctx) (vflip ctx) q (q_data_DST ctx) (bitrate ctx)
        (framerate_num ctx) (framerate_denom ctx) (aborting ctx)
        (num_ip_buffers ctx) (num_op_buffers ctx) (out_q ctx) (cap_q ctx)
        (fh_events ctx)
  | V4L2_M2M_DST =>
      mk_ctx (dev ctx) (component ctx) (component_enabled ctx)
        (colorspace ctx) (ycbcr_enc ctx) (xfer_func ctx) (quant ctx)
        (hflip ctx) (vflip ctx) (q_data_SRC ctx) q (bitrate ctx)
        (framerate_num ctx) (framerate_denom ctx) (aborting ctx)
        (num_ip_buffers ctx) (num_op_buffers ctx) (out_q ctx) (cap_q ctx)
        (fh_events ctx)
  end.

Definition set_colorimetry (ctx : bcm2835_codec_ctx)
  (cs enc xfer qnt : Z) : bcm2835_codec_ctx :=
  mk_ctx (dev ctx) (component ctx) (component_enabled ctx)
    cs enc xfer qnt
    (hflip ctx) (vflip ctx) (q_data_SRC ctx) (q_data_DST ctx) (bitrate ctx)
    (framerate_num ctx) (framerate_denom ctx) (aborting ctx)
    (num_ip_buffers ctx) (num_op_buffers ctx) (out_q ctx) (cap_q ctx)
    (fh_events ctx).

Definition set_component (ctx : bcm2835_codec_ctx)
  (c : option vchiq_mmal_component) : bcm2835_codec_ctx :=
  mk_ctx (dev ctx) c (component_enabled ctx)
    (colorspace ctx) (ycbcr_enc ctx) (xfer_func ctx) (quant ctx)
    (hflip ctx) (vflip ctx) (q_data_SRC ctx) (q_data_DST ctx) (bitrate ctx)
    (framerate_num ctx) (framerate_denom ctx) (aborting ctx)
    (num_ip_buffers ctx) (num_op_buffers ctx) (out_q ctx) (cap_q ctx)
    (fh_events ctx).

Definition set_component_enabled (ctx : bcm2835_codec_ctx) (b : bool)
  : bcm2835_codec_ctx :=
  mk_ctx (dev ctx) (component ctx) b
    (colorspace ctx) (ycbcr_enc ctx) (xfer_func ctx) (quant ctx)
    (hflip ctx) (vflip ctx) (q_data_SRC ctx) (q_data_DST ctx) (bitrate ctx)
    (framerate_num ctx) (framerate_denom ctx) (aborting ctx)
    (num_ip_buffers ctx) (num_op_buffers ctx) (out_q ctx) (cap_q ctx)
    (fh_events ctx).

Definition set_cap_q (ctx : bcm2835_codec_ctx) (q : vb2_queue)
  : bcm2835_codec_ctx :=
  mk_ctx (dev ctx) (component ctx) (component_enabled ctx)
    (colorspace ctx) (ycbcr_enc ctx) (xfer_func ctx) (quant ctx)
    (hflip ctx) (vflip ctx) (q_data_SRC ctx) (q_data_DST ctx) (bitrate ctx)
    (framerate_num ctx) (framerate_denom ctx) (aborting ctx)
    (num_ip_buffers ctx) (num_op_buffers ctx) (out_q ctx) q
    (fh_events ctx).

(** [v4l2_event_queue_fh(&ctx->fh, ev)] *)
Definition v4l2_event_queue_fh (ctx : bcm2835_codec_ctx) (ev : v4l2_event)
  : bcm2835_codec_ctx :=
  mk_ctx (dev ctx) (component ctx) (component_enabled ctx)
    (colorspace ctx) (ycbcr_enc ctx) (xfer_func ctx) (quant ctx)
    (hflip ctx) (vflip ctx) (q_data_SRC ctx) (q_data_DST ctx) (bitrate ctx)
    (framerate_num ctx) (framerate_denom ctx) (aborting ctx)
    (num_ip_buffers ctx) (num_op_buffers ctx) (out_q ctx) (cap_q ctx)
    (fh_events ctx ++ [ev]).

Definition set_q_geometry (q : bcm2835_codec_q_data)
  (bpl h cw ch : Z) (sel : bool) (size : Z) : bcm2835_codec_q_data :=
  mk_q_data bpl h cw ch sel (aspect_ratio q) (field q) size (sequence q)
    (fmt q) (eos_buffer_in_use q).

Definition set_q_fmt (q : bcm2835_codec_q_data) (d : bcm2835_codec_fmt)
  : bcm2835_codec_q_data :=
  mk_q_data (bytesperline q) (height q) (crop_width q) (crop_height q)
    (selection_set q) (aspect_ratio q) (field q) (sizeimage q) (sequence q)
    d (eos_buffer_in_use q).

Definition set_q_field (q : bcm2835_codec_q_data) (fld : Z)
  : bcm2835_codec_q_data :=
  mk_q_data (bytesperline q) (height q) (crop_width q) (crop_height q)
    (selection_set q) (aspect_ratio q) fld (sizeimage q) (sequence q)
    (fmt q) (eos_buffer_in_use q).

Definition set_q_aspect_ratio (q : bcm2835_codec_q_data) (ar : v4l2_fract)
  : bcm2835_codec_q_data :=
  mk_q_data (bytesperline q) (height q) (crop_width q) (crop_height q)
    (selection_set q) ar (field q) (sizeimage q) (sequence q)
    (fmt q) (eos_buffer_in_use q).

Definition set_q_sequence (q : bcm2835_codec_q_data) (n : Z)
  : bcm2835_codec_q_data :=
  mk_q_data (bytesperline q) (height q) (crop_width q) (crop_height q)
    (selection_set q) (aspect_ratio q) (field q) (sizeimage q) n
    (fmt q) (eos_buffer_in_use q).

Definition set_q_eos_buffer_in_use (q : bcm2835_codec_q_data) (b : bool)
  : bcm2835_codec_q_data :=
  mk_q_data (bytesperline q) (height q) (crop_width q) (crop_height q)
    (selection_set q) (aspect_ratio q) (field q) (sizeimage q) (sequence q)
    (fmt q) b.

Definition set_current_buffer_num (p : vchiq_mmal_port) (n : Z)
  : vchiq_mmal_port :=
  mk_port (enabled p) (format_encoding p) (format_flags p) (format_bitrate p)
    (es_video_width p) (es_video_height p) (es_video_crop_x p)
    (es_video_crop_y p) (es_video_crop_width p) (es_video_crop_height p)
    (es_video_frame_rate p) (minimum_buffer_num p) (minimum_buffer_size p)
    n (current_buffer_size p) (buffers_with_vpu p).

(** ** Format catalog lookups *)

Definition get_format_list (d : bcm2835_codec_dev) (capture : bool)
  : list bcm2835_codec_fmt :=
  if capture then supported_fmts_1 d else supported_fmts_0 d.

(** [&list[0]]; [None] stands for an empty list, where the C code reads
    past the end of the array. *)
Definition get_default_format (d : bcm2835_codec_dev) (capture : bool)
  : option bcm2835_codec_fmt :=
  hd_error (get_format_list d capture).

(** The scan of [find_format_pix_fmt] stops at the first entry whose
    fourcc matches; [None] is the NULL result. *)
Fixpoint find_format_scan (pix_fmt : Z) (fmts : list bcm2835_codec_fmt)
  : option bcm2835_codec_fmt :=
  match fmts with
  | [] => None
  | d :: rest =>
      if fourcc d =? pix_fmt then Some d else find_format_scan pix_fmt rest
  end.

Definition find_format_pix_fmt (pix_fmt : Z) (d : bcm2835_codec_dev)
  (capture : bool) : option bcm2835_codec_fmt :=
  find_format_scan pix_fmt (get_format_list d capture).

Definition find_format (f : v4l2_format) (d : bcm2835_codec_dev)
  (capture : bool) : option bcm2835_codec_fmt :=
  find_format_pix_fmt (pix_mp_pixelformat f) d capture.

Definition get_q_data (type : v4l2_buf_type) : option m2m_index :=
  match type with
  | V4L2_BUF_TYPE_VIDEO_OUTPUT_MPLANE => Some V4L2_M2M_SRC
  | V4L2_BUF_TYPE_VIDEO_CAPTURE_MPLANE => Some V4L2_M2M_DST
  | _ => None
  end.

Inductive port_id : Set := INPUT_0 | OUTPUT_0.

Definition port_of (c : vchiq_mmal_component) (p : port_id)
  : vchiq_mmal_port :=
  match p with INPUT_0 => input_0 c | OUTPUT_0 => output_0 c end.

Definition set_port (c : vchiq_mmal_component) (p : port_id)
  (v : vchiq_mmal_port) : vchiq_mmal_component :=
  match p with
  | INPUT_0 => mk_component v (output_0 c)
  | OUTPUT_0 => mk_component (input_0 c) v
  end.

(** [get_port_data]: which port of the component, if there is a component
    and the type is one of the two multi-planar ones. *)
Definition get_port_data (ctx : bcm2835_codec_ctx) (type : v4l2_buf_type)
  : option port_id :=
  match component ctx with
  | None => None
  | Some _ =>
      match type with
      | V4L2_BUF_TYPE_VIDEO_OUTPUT_MPLANE => Some INPUT_0
      | V4L2_BUF_TYPE_VIDEO_CAPTURE_MPLANE => Some OUTPUT_0
      | _ => None
      end
  end.

(** [v4l2_m2m_get_vq]: the queue context is chosen by
    [V4L2_TYPE_IS_OUTPUT]; the result is never NULL. *)
Definition v4l2_m2m_get_vq (ctx : bcm2835_codec_ctx) (type : v4l2_buf_type)
  : vb2_queue :=
  if V4L2_TYPE_IS_OUTPUT type then out_q ctx else cap_q ctx.

(** [vb2_is_busy(q)] is [q->num_buffers > 0]. *)
Definition vb2_is_busy (q : vb2_queue) : bool := 0 <? num_buffers q.

(** ** Buffer exchange: client buffer to accelerator header *)

Record vb2_v4l2_buffer : Set := mk_vb2_v4l2_buffer {
  vb2_flags : Z;               (* vb2->flags *)
  vb2_field : Z;               (* vb2->field *)
  vb2_timestamp : Z;           (* vb2->vb2_buf.timestamp, u64 nanoseconds *)
  planes0_bytesused : Z        (* vb2->vb2_buf.planes[0].bytesused *)
}.

Record mmal_buffer : Set := mk_mmal_buffer {
  cmd : Z;
  mmal_flags : Z;
  mmal_length : Z;             (* length *)
  pts : Z;
  dts : Z
}.

(** [field_override] is a module parameter (an [int], 0 unless set). *)
Definition vb2_to_mmal_buffer (field_override : Z) (buf : mmal_buffer)
  (vb2 : vb2_v4l2_buffer) : mmal_buffer :=
  let fl := 0 in
  let fl :=
    if has_flag (vb2_flags vb2) V4L2_BUF_FLAG_KEYFRAME
    then Z.lor fl MMAL_BUFFER_HEADER_FLAG_KEYFRAME else fl in
  let fl := Z.lor fl MMAL_BUFFER_HEADER_FLAG_FRAME_END in
  let len := planes0_bytesused vb2 in
  let fl :=
    if (len =? 0) || has_flag (vb2_flags vb2) V4L2_BUF_FLAG_LAST
    then Z.lor fl MMAL_BUFFER_HEADER_FLAG_EOS else fl in
  (* do_div(pts, 1000) on a u64 *)
  let p := vb2_timestamp vb2 / 1000 in
  let sel := if field_override =? 0 then vb2_field vb2
             else u32 field_override in
  let fl :=
    if sel =? V4L2_FIELD_INTERLACED_BT then
      Z.lor fl MMAL_BUFFER_HEADER_VIDEO_FLAG_INTERLACED
    else if sel =? V4L2_FIELD_INTERLACED_TB then
      Z.lor fl (Z.lor MMAL_BUFFER_HEADER_VIDEO_FLAG_INTERLACED
                      MMAL_BUFFER_HEADER_VIDEO_FLAG_TOP_FIELD_FIRST)
    else fl in
  mk_mmal_buffer (cmd buf) fl len (s64 p) (s64 MMAL_TIME_UNKNOWN).

(** ** Try-format negotiation *)

Definition set_pixelformat (f : v4l2_format) (pf : Z) : v4l2_format :=
  mk_v4l2_format (fmt_type f) (pix_mp_width f) (pix_mp_height f) pf
    (pix_mp_field f) (pix_mp_colorspace f) (plane_fmt0_sizeimage f)
    (plane_fmt0_bytesperline f) (plane_fmt0_reserved f)
    (pix_mp_num_planes f) (pix_mp_ycbcr_enc f) (pix_mp_quantization f)
    (pix_mp_xfer_func f).

Definition set_colorspace (f : v4l2_format) (cs : Z) : v4l2_format :=
  mk_v4l2_format (fmt_type f) (pix_mp_width f) (pix_mp_height f)
    (pix_mp_pixelformat f) (pix_mp_field f) cs (plane_fmt0_sizeimage f)
    (plane_fmt0_bytesperline f) (plane_fmt0_reserved f)
    (pix_mp_num_planes f) (pix_mp_ycbcr_enc f) (pix_mp_quantization f)
    (pix_mp_xfer_func f).

(** The [switch] on [f->fmt.pix_mp.field] for the decode and deinterlace
    roles. *)
Definition try_fmt_field (fld : Z) : Z :=
  if fld =? V4L2_FIELD_INTERLACED then V4L2_FIELD_INTERLACED
  else if (fld =? V4L2_FIELD_TOP) || (fld =? V4L2_FIELD_BOTTOM)
          || (fld =? V4L2_FIELD_INTERLACED_TB)
       then V4L2_FIELD_INTERLACED_TB
  else if fld =? V4L2_FIELD_INTERLACED_BT then V4L2_FIELD_INTERLACED_BT
  else V4L2_FIELD_NONE.

Definition role_eqb (a b : bcm2835_codec_role) : bool :=
  match a, b with
  | DECODE, DECODE | ENCODE, ENCODE | ISP, ISP
  | DEINTERLACE, DEINTERLACE | ENCODE_IMAGE, ENCODE_IMAGE => true
  | _, _ => false
  end.

(** [vidioc_try_fmt(ctx, f, fmt)]: only [ctx->dev] is read.  [width],
    [height], [bytesperline] and [sizeimage] of [f] are [__u32]; they are
    converted to [int] where they are passed to the geometry functions. *)
Definition vidioc_try_fmt (d : bcm2835_codec_dev) (f : v4l2_format)
  (fm : bcm2835_codec_fmt) : Z * v4l2_format :=
  let w := pix_mp_width f in
  let h := pix_mp_height f in
  let w := if w >? max_w d then max_w d else w in
  let h := if h >? max_h d then max_h d else h in
  let raw := negb (is_compressed fm) in
  let w := if raw && (w <? MIN_W) then MIN_W else w in
  let h := if raw && (h <? MIN_H) then MIN_H else h in
  let h := if raw && (role_eqb (role d) DECODE
                      || role_eqb (role d) ENCODE_IMAGE)
           then ALIGN_uint h 16 else h in
  let min_bytesperline := get_bytesperline (s32 w) (s32 h) fm (role d) in
  let bpl := plane_fmt0_bytesperline f in
  let bpl := if bpl <? min_bytesperline then min_bytesperline else bpl in
  let bpl := ALIGN_uint bpl (bytesperline_align_at fm (role d)) in
  let size := get_sizeimage (s32 bpl) (s32 w) (s32 h) fm in
  let size' :=
    if raw || (plane_fmt0_sizeimage f <? size) then size
    else plane_fmt0_sizeimage f in
  let fld :=
    if role_eqb (role d) DECODE || role_eqb (role d) DEINTERLACE
    then try_fmt_field (pix_mp_field f) else V4L2_FIELD_NONE in
  (0, mk_v4l2_format (fmt_type f) w h (pix_mp_pixelformat f) fld
        (pix_mp_colorspace f) size' bpl
        (repeat 0 (length (plane_fmt0_reserved f)))
        1 (pix_mp_ycbcr_enc f) (pix_mp_quantization f)
        (pix_mp_xfer_func f)).

(** The two ioctl entry points.  [None] is the fault the C code runs into
    when the list of supported formats of the direction is empty (the
    default format is then read from outside the list and the NULL
    descriptor is dereferenced in [vidioc_try_fmt]). *)
Definition vidioc_try_fmt_vid_cap (ctx : bcm2835_codec_ctx)
  (f : v4l2_format) : option (Z * v4l2_format) :=
  match find_format f (dev ctx) true with
  | Some fm => Some (vidioc_try_fmt (dev ctx) f fm)
  | None =>
      match get_default_format (dev ctx) true with
      | None => None
      | Some dflt =>
          let f := set_pixelformat f (fourcc dflt) in
          match find_format f (dev ctx) true with
          | None => None
          | Some fm => Some (vidioc_try_fmt (dev ctx) f fm)
          end
      end
  end.

Definition vidioc_try_fmt_vid_out (ctx : bcm2835_codec_ctx)
  (f : v4l2_format) : option (Z * v4l2_format) :=
  let colour (f : v4l2_format) :=
    if pix_mp_colorspace f =? 0 then set_colorspace f (colorspace ctx)
    else f in
  match find_format f (dev ctx) false with
  | Some fm => Some (vidioc_try_fmt (dev ctx) (colour f) fm)
  | None =>
      match get_default_format (dev ctx) false with
      | None => None
      | Some dflt =>
          let f := set_pixelformat f (fourcc dflt) in
          match find_format f (dev ctx) false with
          | None => None
          | Some fm => Some (vidioc_try_fmt (dev ctx) (colour f) fm)
          end
      end
  end.

(** ** The accelerator port service and the calls made to it *)

Inductive buffer_cb : Set := ip_buffer_cb | op_buffer_cb.

Inductive mmal_call : Set :=
| call_component_enable
| call_port_disable (p : port_id)
| call_port_set_format (p : port_id) (pushed : vchiq_mmal_port)
| call_port_enable (p : port_id) (cb : buffer_cb)
| call_port_parameter_get_interlace (p : port_id)
| call_wait_for_completion_timeout (timeout : Z).

(** [struct mmal_msg_event_format_changed], the payload of a
    format-changed event. *)
Record mmal_msg_event_format_changed : Set := mk_format_changed {
  buffer_size_min : Z;
  buffer_size_recommended : Z;
  buffer_num_min : Z;
  buffer_num_recommended : Z;
  ev_format_type : mmal_es_type;         (* format.type *)
  ev_format_encoding : mmal_encoding;    (* format.encoding *)
  ev_video_width : Z;                    (* es.video.width, u32 *)
  ev_video_height : Z;                   (* es.video.height, u32 *)
  ev_video_crop_width : Z;               (* es.video.crop.width, s32 *)
  ev_video_crop_height : Z;              (* es.video.crop.height, s32 *)
  ev_video_color_space : Z;              (* es.video.color_space *)
  ev_video_par : v4l2_fract              (* es.video.par, s32 / s32 *)
}.

Record v4l2_selection : Set := mk_selection {
  sel_type : v4l2_buf_type;
  target : Z;
  r_left : Z;
  r_top : Z;
  r_width : Z;
  r_height : Z
}.

Section Driver.

(** The accelerator service lives outside the driver; its operations are
    parameters.  Each returns its status and the port as the service
    leaves it (disable, enable and set-format all re-read the port
    description from the accelerator). *)
Variable vchiq_mmal_port_disable :
  port_id -> vchiq_mmal_port -> Z * vchiq_mmal_port.
Variable vchiq_mmal_port_enable :
  port_id -> buffer_cb -> vchiq_mmal_port -> Z * vchiq_mmal_port.
Variable vchiq_mmal_port_set_format :
  port_id -> vchiq_mmal_port -> Z * vchiq_mmal_port.
Variable vchiq_mmal_component_enable : vchiq_mmal_component -> Z.
Variable vchiq_mmal_port_parameter_get_interlace :
  vchiq_mmal_port -> Z * mmal_interlace_type.

(** Kernel tick rate, and the colorimetry defaulting macros of
    videodev2.h. *)
Variable HZ : Z.
Variable V4L2_MAP_XFER_FUNC_DEFAULT : Z -> Z.
Variable V4L2_MAP_YCBCR_ENC_DEFAULT : Z -> Z.
Variable V4L2_MAP_QUANTIZATION_DEFAULT : bool -> Z -> Z -> Z.

(** *** Port format *)

(** [setup_mmal_port_format(ctx, q_data, port)].  [None] is the division
    by a zero [depth]. *)
Definition setup_mmal_port_format (ctx : bcm2835_codec_ctx)
  (q : bcm2835_codec_q_data) (port : vchiq_mmal_port)
  : option vchiq_mmal_port :=
  let rate := mk_fract (s32 (framerate_num ctx)) (s32 (framerate_denom ctx)) in
  let mk enc fl br w h cw ch fr :=
    mk_port (enabled port) enc fl br w h 0 0 cw ch fr
      (minimum_buffer_num port) (minimum_buffer_size port)
      (current_buffer_num port) (sizeimage q) (buffers_with_vpu port) in
  let enc := mmal_fmt (fmt q) in
  if negb (is_compressed (fmt q)) then
    match enc with
    | MMAL_ENCODING_YUVUV128 =>
        Some (mk enc MMAL_ES_FORMAT_FLAG_COL_FMTS_WIDTH_IS_COL_STRIDE
                (format_bitrate port) (bytesperline q) (height q)
                (s32 (crop_width q)) (s32 (crop_height q)) rate)
    | _ =>
        if u32 (depth (fmt q)) =? 0 then None
        else
          Some (mk enc 0 (format_bitrate port)
                  (shl_uint (bytesperline q) 3 / u32 (depth (fmt q)))
                  (height q)
                  (s32 (crop_width q)) (s32 (crop_height q)) rate)
    end
  else
    match role (dev ctx) with
    | DECODE =>
        Some (mk enc 0 (format_bitrate port) 0 0 0 0
                (es_video_frame_rate port))
    | _ =>
        Some (mk enc 0 (u32 (bitrate ctx)) (crop_width q) (height q)
                (s32 (crop_width q)) (s32 (crop_height q)) rate)
    end.

(** *** Dynamic format change *)

Definition queue_res_chg_event (ctx : bcm2835_codec_ctx)
  : bcm2835_codec_ctx :=
  v4l2_event_queue_fh ctx V4L2_EVENT_SOURCE_CHANGE_RESOLUTION.

(** [color_mmal2v4l].  The four [V4L2_PIX_FMT_*] labels of the switch carry
    the codes of the MMAL encodings of the same name. *)
Definition color_mmal2v4l (ctx : bcm2835_codec_ctx)
  (encoding : mmal_encoding) (color_space : Z) : bcm2835_codec_ctx :=
  let cs :=
    match encoding with
    | MMAL_ENCODING_I420 | MMAL_ENCODING_YV12 | MMAL_ENCODING_NV12
    | MMAL_ENCODING_NV21 | MMAL_ENCODING_YUYV | MMAL_ENCODING_YVYU
    | MMAL_ENCODING_UYVY | MMAL_ENCODING_VYUY =>
        if color_space =? MMAL_COLOR_SPACE_ITUR_BT601
        then V4L2_COLORSPACE_SMPTE170M
        else if color_space =? MMAL_COLOR_SPACE_ITUR_BT709
        then V4L2_COLORSPACE_REC709
        else colorspace ctx
    | _ => V4L2_COLORSPACE_SRGB
    end in
  let xf := V4L2_MAP_XFER_FUNC_DEFAULT cs in
  let enc := V4L2_MAP_YCBCR_ENC_DEFAULT cs in
  let is_rgb := cs =? V4L2_COLORSPACE_SRGB in
  set_colorimetry ctx cs enc xf (V4L2_MAP_QUANTIZATION_DEFAULT is_rgb cs enc).

(** [handle_fmt_changed(ctx, mmal_buf)], on the event carried by the
    buffer.  The handler runs from the output port's callback, so the
    component exists; the interlace query is made on [output[0]]. *)
Definition handle_fmt_changed (ctx : bcm2835_codec_ctx)
  (format : mmal_msg_event_format_changed)
  : bcm2835_codec_ctx * list mmal_call :=
  match ev_format_type format with
  | MMAL_ES_TYPE_VIDEO =>
      let q := q_data ctx V4L2_M2M_DST in
      let q :=
        set_q_geometry q
          (get_bytesperline (s32 (ev_video_width format))
             (s32 (ev_video_height format)) (fmt q) (role (dev ctx)))
          (ev_video_height format)
          (u32 (ev_video_crop_width format))
          (u32 (ev_video_crop_height format))
          true
          (buffer_size_min format) in
      let ctx := set_q_data ctx V4L2_M2M_DST q in
      let ctx :=
        if negb (ev_video_color_space format =? 0)
        then color_mmal2v4l ctx (ev_format_encoding format)
               (ev_video_color_space format)
        else ctx in
      let q := q_data ctx V4L2_M2M_DST in
      let q :=
        set_q_aspect_ratio q
          (mk_fract (u32 (numerator (ev_video_par format)))
                    (u32 (denominator (ev_video_par format)))) in
      let '(fld, calls) :=
        match component ctx with
        | None => (V4L2_FIELD_NONE, [])
        | Some c =>
            let '(ret, mode) :=
              vchiq_mmal_port_parameter_get_interlace (output_0 c) in
            (if ret =? 0 then
               match mode with
               | MMAL_INTERLACE_FIELDS_INTERLEAVED_UPPER_FIRST =>
                   V4L2_FIELD_INTERLACED_TB
               | MMAL_INTERLACE_FIELDS_INTERLEAVED_LOWER_FIRST =>
                   V4L2_FIELD_INTERLACED_BT
               | _ => V4L2_FIELD_NONE
               end
             else V4L2_FIELD_NONE,
             [call_port_parameter_get_interlace OUTPUT_0])
        end in
      let ctx := set_q_data ctx V4L2_M2M_DST (set_q_field q fld) in
      let vq := cap_q ctx in
      let ctx :=
        if streaming vq
        then set_cap_q ctx (mk_vb2_queue (num_buffers vq) (streaming vq) true)
        else ctx in
      (queue_res_chg_event ctx, calls)
  | _ => (ctx, [])
  end.

(** *** Set-format *)

Definition put_port (ctx : bcm2835_codec_ctx) (pid : port_id)
  (p : vchiq_mmal_port) : bcm2835_codec_ctx :=
  match component ctx with
  | None => ctx
  | Some c => set_component ctx (Some (set_port c pid p))
  end.

Definition is_capture_mplane (type : v4l2_buf_type) : bool :=
  match type with
  | V4L2_BUF_TYPE_VIDEO_CAPTURE_MPLANE => true
  | _ => false
  end.

(** The block of [vidioc_s_fmt] that replicates a compressed input
    resolution on [q_data[V4L2_M2M_DST]].  [qi] is the queue being set; it
    may be [V4L2_M2M_DST] itself, in which case both names denote the same
    record, which is why everything is read back from [ctx]. *)
Definition s_fmt_replicate_on_dst (ctx : bcm2835_codec_ctx)
  (qi : m2m_index) (f : v4l2_format) : bcm2835_codec_ctx :=
  let q := q_data ctx qi in
  let q_dst := q_data ctx V4L2_M2M_DST in
  let h := ALIGN_uint (crop_height q) 16 in
  let bpl := get_bytesperline (s32 (pix_mp_width f)) (s32 (pix_mp_height f))
               (fmt q_dst) (role (dev ctx)) in
  let size := get_sizeimage (s32 bpl) (s32 (crop_width q)) (s32 h)
                (fmt q_dst) in
  set_q_data ctx V4L2_M2M_DST
    (set_q_geometry q_dst bpl h (crop_width q) (crop_height q)
       (selection_set q_dst) size).

(** [vidioc_s_fmt(ctx, f, requested_height)].  The result is the return
    value, the session afterwards and the calls made to the accelerator.
    [None] is what this model has no state for: the division by a zero
    depth in [setup_mmal_port_format], and a format that [find_format]
    does not find.  In the latter case the C code stores a NULL
    [q_data->fmt];
    it dereferences it at once when [selection_set] is set, on a decoder
    or image encoder, and when the session has a component, and
    otherwise returns 0 and leaves the NULL descriptor in the session,
    which [bcm2835_codec_q_data] cannot hold here.  So [None] says
    nothing of the return value in that case.  The two ioctl entry
    points call this function after the try phase, which hands over a
    listed format. *)
Definition vidioc_s_fmt (ctx : bcm2835_codec_ctx) (f : v4l2_format)
  (requested_height : Z)
  : option (Z * bcm2835_codec_ctx * list mmal_call) :=
  let vq := v4l2_m2m_get_vq ctx (fmt_type f) in
  match get_q_data (fmt_type f) with
  | None => Some (- EINVAL, ctx, [])
  | Some qi =>
  if vb2_is_busy vq then Some (- EBUSY, ctx, []) else
  match find_format f (dev ctx) (is_capture_mplane (fmt_type f)) with
  | None => None
  | Some fm =>
  let q := q_data ctx qi in
  let ch := if negb (selection_set q) || is_compressed fm
            then requested_height else crop_height q in
  let q := mk_q_data (plane_fmt0_bytesperline f) (pix_mp_height f)
             (pix_mp_width f) ch (selection_set q) (aspect_ratio q)
             (pix_mp_field f) (plane_fmt0_sizeimage f) (sequence q) fm
             (eos_buffer_in_use q) in
  let ctx := set_q_data ctx qi q in
  let ctx := set_colorimetry ctx (pix_mp_colorspace f) (pix_mp_ycbcr_enc f)
               (pix_mp_xfer_func f) (pix_mp_quantization f) in
  let update_capture_port :=
    (role_eqb (role (dev ctx)) DECODE
     || role_eqb (role (dev ctx)) ENCODE_IMAGE)
    && is_compressed fm
    && negb (crop_width q =? 0) && negb (height q =? 0) in
  let ctx := if update_capture_port then s_fmt_replicate_on_dst ctx qi f
             else ctx in
  match get_port_data ctx (fmt_type f), component ctx with
  | Some pid, Some c =>
      let port := port_of c pid in
      (* if (port->enabled): disable, keeping the buffer count *)
      let '(port, reenable_port, calls) :=
        if enabled port then
          let num_buffers := current_buffer_num port in
          let '(_, port) := vchiq_mmal_port_disable pid port in
          (set_current_buffer_num port num_buffers, true,
           [call_port_disable pid])
        else (port, false, []) in
      match setup_mmal_port_format ctx (q_data ctx qi) port with
      | None => None
      | Some port =>
      let '(r, port') := vchiq_mmal_port_set_format pid port in
      let calls := calls ++ [call_port_set_format pid port] in
      let ret := if r =? 0 then 0 else - EINVAL in
      let '(ret, port', calls) :=
        if reenable_port then
          let '(r, p) := vchiq_mmal_port_enable pid op_buffer_cb port' in
          (r, p, calls ++ [call_port_enable pid op_buffer_cb])
        else (ret, port', calls) in
      let ctx := put_port ctx pid port' in
      if update_capture_port then
        match component ctx with
        | None => None
        | Some c =>
        match setup_mmal_port_format ctx (q_data ctx V4L2_M2M_DST)
                (output_0 c) with
        | None => None
        | Some port_dst =>
            let '(r, port_dst') :=
              vchiq_mmal_port_set_format OUTPUT_0 port_dst in
            Some (if r =? 0 then 0 else - EINVAL,
                  put_port ctx OUTPUT_0 port_dst',
                  calls ++ [call_port_set_format OUTPUT_0 port_dst])
        end
        end
      else Some (ret, ctx, calls)
      end
  | _, _ => Some (0, ctx, [])
  end
  end
  end.

(** [vidioc_s_fmt_vid_cap] and [vidioc_s_fmt_vid_out]: try, then set with
    the height as the client asked for it.  The format as corrected by the
    try phase is part of the result. *)
Definition vidioc_s_fmt_vid_cap (ctx : bcm2835_codec_ctx) (f : v4l2_format)
  : option (Z * v4l2_format * bcm2835_codec_ctx * list mmal_call) :=
  let height := pix_mp_height f in
  match vidioc_try_fmt_vid_cap ctx f with
  | None => None
  | Some (ret, f') =>
      if negb (ret =? 0) then Some (ret, f', ctx, [])
      else
        match vidioc_s_fmt ctx f' height with
        | None => None
        | Some (ret, ctx', calls) => Some (ret, f', ctx', calls)
        end
  end.

Definition vidioc_s_fmt_vid_out (ctx : bcm2835_codec_ctx) (f : v4l2_format)
  : option (Z * v4l2_format * bcm2835_codec_ctx * list mmal_call) :=
  let height := pix_mp_height f in
  match vidioc_try_fmt_vid_out ctx f with
  | None => None
  | Some (ret, f') =>
      if negb (ret =? 0) then Some (ret, f', ctx, [])
      else
        match vidioc_s_fmt ctx f' height with
        | None => None
        | Some (ret, ctx', calls) => Some (ret, f', ctx', calls)
        end
  end.

(** *** Selection *)

(** The assignment block shared by the four accepting arms of
    [vidioc_s_selection]. *)
Definition accept_selection (s : v4l2_selection) (q : bcm2835_codec_q_data)
  : v4l2_selection * bcm2835_codec_q_data :=
  let w := min_uint (r_width s) (crop_width q) in
  let h := min_uint (r_height s) (height q) in
  (mk_selection (sel_type s) (target s) 0 0 w h,
   mk_q_data (bytesperline q) (height q) w h true (aspect_ratio q) (field q)
     (sizeimage q) (sequence q) (fmt q) (eos_buffer_in_use q)).

Definition vidioc_s_selection (ctx : bcm2835_codec_ctx) (s : v4l2_selection)
  : option (Z * v4l2_selection * bcm2835_codec_ctx * list mmal_call) :=
  let rl := role (dev ctx) in
  let chosen : option (m2m_index * port_id) :=
    match sel_type s with
    | V4L2_BUF_TYPE_VIDEO_CAPTURE =>
        if role_eqb rl ENCODE || role_eqb rl ENCODE_IMAGE then None
        else Some (V4L2_M2M_DST, OUTPUT_0)
    | V4L2_BUF_TYPE_VIDEO_OUTPUT =>
        if role_eqb rl DECODE then None
        else Some (V4L2_M2M_SRC, INPUT_0)
    | _ => None
    end in
  match chosen with
  | None => Some (- EINVAL, s, ctx, [])
  | Some (qi, pid) =>
  let wanted :=
    match rl with
    | DECODE => V4L2_SEL_TGT_COMPOSE
    | ENCODE | ENCODE_IMAGE => V4L2_SEL_TGT_CROP
    | ISP | DEINTERLACE =>
        match sel_type s with
        | V4L2_BUF_TYPE_VIDEO_CAPTURE => V4L2_SEL_TGT_COMPOSE
        | _ => V4L2_SEL_TGT_CROP
        end
    end in
  if negb (target s =? wanted) then Some (- EINVAL, s, ctx, [])
  else
    let '(s, q) := accept_selection s (q_data ctx qi) in
    let ctx := set_q_data ctx qi q in
    match component ctx with
    | None => Some (0, s, ctx, [])
    | Some c =>
        match setup_mmal_port_format ctx q (port_of c pid) with
        | None => None
        | Some port =>
            let '(r, port') := vchiq_mmal_port_set_format pid port in
            Some (if r =? 0 then 0 else - EINVAL, s,
                  put_port ctx pid port',
                  [call_port_set_format pid port])
        end
    end
  end.

(** *** Start streaming *)

(** [bcm2835_codec_flush_buffers]: waits, for at most [COMPLETE_TIMEOUT],
    only if the port still has buffers out.  The outcome of the wait is
    logged and otherwise ignored. *)
Definition bcm2835_codec_flush_buffers (port : vchiq_mmal_port)
  : list mmal_call :=
  if negb (buffers_with_vpu port =? 0)
  then [call_wait_for_completion_timeout (COMPLETE_TIMEOUT HZ)]
  else [].

(** Lines 3145-3171: a port found enabled is disabled and flushed, and
    keeps its buffer count. *)
Definition start_streaming_disable (pid : port_id) (port : vchiq_mmal_port)
  : Z * vchiq_mmal_port * list mmal_call :=
  let num_buffers := current_buffer_num port in
  let '(ret, port) := vchiq_mmal_port_disable pid port in
  (ret, set_current_buffer_num port num_buffers,
   call_port_disable pid :: bcm2835_codec_flush_buffers port).

(** Lines 3173-3185: the buffer count is raised to [count + 1], where
    [count] is first raised to the port's minimum. *)
Definition start_streaming_buffer_count (pid : port_id)
  (port : vchiq_mmal_port) (count ret : Z)
  : Z * vchiq_mmal_port * list mmal_call :=
  let count := if count <? minimum_buffer_num port
               then minimum_buffer_num port else count in
  if current_buffer_num port <? add_uint count 1 then
    let port := set_current_buffer_num port (add_uint count 1) in
    let '(r, port') := vchiq_mmal_port_set_format pid port in
    (r, port', [call_port_set_format pid port])
  else (ret, port, []).

(** Lines 3145-3185 as a whole. *)
Definition start_streaming_port_setup (pid : port_id)
  (port : vchiq_mmal_port) (count ret : Z)
  : Z * vchiq_mmal_port * list mmal_call :=
  let '(ret, port, calls) :=
    if enabled port then start_streaming_disable pid port
    else (ret, port, []) in
  let '(ret, port, calls') :=
    start_streaming_buffer_count pid port count ret in
  (ret, port, calls ++ calls').

Definition bcm2835_codec_start_streaming (ctx : bcm2835_codec_ctx)
  (q_type : v4l2_buf_type) (count : Z)
  : option (Z * bcm2835_codec_ctx * list mmal_call) :=
  match get_q_data q_type, get_port_data ctx q_type, component ctx with
  | Some qi, Some pid, Some c =>
      let ctx := set_q_data ctx qi (set_q_sequence (q_data ctx qi) 0) in
      let ret := 0 in
      let '(ret, ctx, calls) :=
        if negb (component_enabled ctx) then
          (vchiq_mmal_component_enable c,
           set_component_enabled ctx true, [call_component_enable])
        else (ret, ctx, []) in
      let '(ret, port, calls) :=
        let '(r, p, cs) :=
          start_streaming_port_setup pid (port_of c pid) count ret in
        (r, p, calls ++ cs) in
      let c := set_port c pid port in
      let '(ret, c, calls) :=
        match role (dev ctx), q_type with
        | DECODE, V4L2_BUF_TYPE_VIDEO_OUTPUT_MPLANE =>
            if negb (enabled (output_0 c)) then
              let '(r, p) :=
                vchiq_mmal_port_enable OUTPUT_0 op_buffer_cb (output_0 c) in
              (r, set_port c OUTPUT_0 p,
               calls ++ [call_port_enable OUTPUT_0 op_buffer_cb])
            else (ret, c, calls)
        | _, _ => (ret, c, calls)
        end in
      let '(ret, c, ctx, calls) :=
        match q_type with
        | V4L2_BUF_TYPE_VIDEO_OUTPUT_MPLANE =>
            let ctx :=
              set_q_data ctx qi
                (set_q_eos_buffer_in_use (q_data ctx qi) false) in
            let '(r, p) :=
              vchiq_mmal_port_enable pid ip_buffer_cb (port_of c pid) in
            (r, set_port c pid p, ctx,
             calls ++ [call_port_enable pid ip_buffer_cb])
        | _ =>
            if negb (enabled (port_of c pid)) then
              let '(r, p) :=
                vchiq_mmal_port_enable pid op_buffer_cb (port_of c pid) in
              (r, set_port c pid p, ctx,
               calls ++ [call_port_enable pid op_buffer_cb])
            else (ret, c, ctx, calls)
        end in
      Some (ret, set_component ctx (Some c), calls)
  | _, _, _ => None
  end.

End Driver.

(** ** The geometry rules in the words of the specification

    These two definitions follow the specification, in unbounded integer
    arithmetic; they are compared with [get_bytesperline] and
    [get_sizeimage] below. *)

Definition alignUp (x a : Z) : Z := a * ((x + a - 1) / a).

Definition strideFor (width height : Z) (fmt : bcm2835_codec_fmt)
  (role : bcm2835_codec_role) : Z :=
  if fourcc fmt =? V4L2_PIX_FMT_NV12_COL128 then height * 3 / 2
  else alignUp (width * depth fmt / 8) (bytesperline_align_at fmt role).


(** [get_bytesperline] followed by [get_sizeimage]: the stride, an
    [unsigned int], is passed on as the [int] argument [bpl]. *)
Definition stride_then_size (width height : Z) (fmt : bcm2835_codec_fmt)
  (role : bcm2835_codec_role) : Z :=
  get_sizeimage (s32 (get_bytesperline width height fmt role))
    width height fmt.



Definition stride_fits (width height : Z) (fmt : bcm2835_codec_fmt)
  (role : bcm2835_codec_role) : Prop :=
  0 <= width /\ 0 <= height /\ 0 <= depth fmt /\
  width * depth fmt < 2 ^ 31 /\ height * 3 < 2 ^ 31 /\
  (bytesperline_align_at fmt role = 0 \/
   exists k, 0 <= k <= 7 /\ bytesperline_align_at fmt role = 2 ^ k /\
             width * depth fmt / 8 + 2 ^ k < 2 ^ 31).

(** Some entries of the catalog, by name. *)
Definition fmt_YUV420 : bcm2835_codec_fmt :=
  raw_fmt V4L2_PIX_FMT_YUV420 8 [32; 64; 64; 32; 32] MMAL_ENCODING_I420 3 false.
Definition fmt_NV12_COL128 : bcm2835_codec_fmt :=
  raw_fmt V4L2_PIX_FMT_NV12_COL128 8 al32 MMAL_ENCODING_YUVUV128 3 false.
Definition fmt_BGR32 : bcm2835_codec_fmt :=
  raw_fmt V4L2_PIX_FMT_BGR32 32 al32 MMAL_ENCODING_BGRA 2 false.
Definition fmt_H264 : bcm2835_codec_fmt :=
  compressed_fmt V4L2_PIX_FMT_H264 MMAL_ENCODING_H264.

(** An operation of the accelerator service that hands the port back with
    the buffer count it was given. *)
Definition keeps_buffer_num (op : vchiq_mmal_port -> Z * vchiq_mmal_port)
  : Prop :=
  forall p, current_buffer_num (snd (op p)) = current_buffer_num p.

Definition is_port_enable_call (x : mmal_call) : Prop :=
  exists p cb, x = call_port_enable p cb.

(** A pixel format is supported on a direction when the direction's list
    has a descriptor with that fourcc. *)
Definition fourcc_supported (pix_fmt : Z) (fmts : list bcm2835_codec_fmt)
  : Prop :=
  exists d, In d fmts /\ fourcc d = pix_fmt.

(** What try-format promises for one direction: it returns 0, the
    resulting pixel format is a supported one, a listed request keeps its
    pixel format and an unlisted one gets the first listed format. *)
Definition try_fmt_outcome (fmts : list bcm2835_codec_fmt)
  (f : v4l2_format) (result : option (Z * v4l2_format)) : Prop :=
  exists f',
    result = Some (0, f') /\
    fourcc_supported (pix_mp_pixelformat f') fmts /\
    (fourcc_supported (pix_mp_pixelformat f) fmts ->
     pix_mp_pixelformat f' = pix_mp_pixelformat f) /\
    (~ fourcc_supported (pix_mp_pixelformat f) fmts ->
     option_map fourcc (hd_error fmts) = Some (pix_mp_pixelformat f')).

(** A decoder as [bcm2835_codec_create] sets it up, with compressed
    formats on the input side and raw formats on the output side. *)
Definition example_decoder : bcm2835_codec_dev :=
  mk_dev DECODE [fmt_H264] [fmt_YUV420; fmt_NV12_COL128]
    MAX_W_CODEC MAX_H_CODEC.

Definition example_q_data (d : bcm2835_codec_fmt) : bcm2835_codec_q_data :=
  mk_q_data (get_bytesperline DEFAULT_WIDTH DEFAULT_HEIGHT d DECODE)
    DEFAULT_HEIGHT DEFAULT_WIDTH DEFAULT_HEIGHT false (mk_fract 1 1)
    V4L2_FIELD_NONE
    (get_sizeimage (get_bytesperline DEFAULT_WIDTH DEFAULT_HEIGHT d DECODE)
       DEFAULT_WIDTH DEFAULT_HEIGHT d)
    0 d false.

(** The session of [example_decoder] right after open: no component yet,
    no buffers allocated. *)
Definition example_ctx : bcm2835_codec_ctx :=
  mk_ctx example_decoder None false V4L2_COLORSPACE_REC709 0 0 0 0 0
    (example_q_data fmt_H264) (example_q_data fmt_YUV420)
    (10 * 1000 * 1000) 30 1 false 0 0
    (mk_vb2_queue 0 false false) (mk_vb2_queue 0 false false) [].

Definition example_format (type : v4l2_buf_type) (pix_fmt w h bpl : Z)
  : v4l2_format :=
  mk_v4l2_format type w h pix_fmt V4L2_FIELD_ANY 0 0 bpl [0; 0; 0; 0; 0; 0]
    0 0 0 0.

(** What every entry of [supported_formats] satisfies: a compressed entry
    has depth and all alignments 0; a raw entry has a depth of 1 to 32
    bits, a size multiplier of 2 or 3 with [depth * multiplier <= 64], and
    alignments of 32 or 64 bytes. *)
Definition fmt_wf (d : bcm2835_codec_fmt) : bool :=
  (length (bytesperline_align d) =? 5)%nat &&
  if is_compressed d then
    (depth d =? 0) && forallb (fun a => a =? 0) (bytesperline_align d)
  else
    (1 <=? depth d) && (depth d <=? 32) &&
    ((size_multiplier_x2 d =? 2) || (size_multiplier_x2 d =? 3)) &&
    (depth d * size_multiplier_x2 d <=? 64) &&
    forallb (fun a => (a =? 32) || (a =? 64)) (bytesperline_align d).

(** An accelerator service for the examples: every call succeeds; disable
    re-reads the port and comes back with one buffer, none in flight. *)
Definition example_port_disable (p : port_id) (port : vchiq_mmal_port)
  : Z * vchiq_mmal_port :=
  (0, mk_port false (format_encoding port) (format_flags port)
        (format_bitrate port) (es_video_width port) (es_video_height port)
        (es_video_crop_x port) (es_video_crop_y port)
        (es_video_crop_width port) (es_video_crop_height port)
        (es_video_frame_rate port) (minimum_buffer_num port)
        (minimum_buffer_size port) 1 (current_buffer_size port) 0).

Definition example_port_enable (p : port_id) (cb : buffer_cb)
  (port : vchiq_mmal_port) : Z * vchiq_mmal_port :=
  (0, mk_port true (format_encoding port) (format_flags port)
        (format_bitrate port) (es_video_width port) (es_video_height port)
        (es_video_crop_x port) (es_video_crop_y port)
        (es_video_crop_width port) (es_video_crop_height port)
        (es_video_frame_rate port) (minimum_buffer_num port)
        (minimum_buffer_size port) (current_buffer_num port)
        (current_buffer_size port) (buffers_with_vpu port)).

Definition example_port_set_format (p : port_id) (port : vchiq_mmal_port)
  : Z * vchiq_mmal_port := (0, port).

Definition example_interlace (port : vchiq_mmal_port)
  : Z * mmal_interlace_type := (0, MMAL_INTERLACE_PROGRESSIVE).

Definition example_port (en : bool) (min_num cur_num : Z)
  : vchiq_mmal_port :=
  mk_port en MMAL_ENCODING_I420 0 0 32 32 0 0 32 32 (mk_fract 30 1)
    min_num 0 cur_num 0 0.

(** [example_ctx] after a 1920x1080 stream was recognised: the capture
    queue holds the padded 1920x1088 geometry with a 1920x1080 crop. *)
Definition example_q_data_1080p : bcm2835_codec_q_data :=
  mk_q_data 1920 1088 1920 1080 true (mk_fract 1 1) V4L2_FIELD_NONE
    3133440 0 fmt_YUV420 false.

Definition example_ctx_1080p : bcm2835_codec_ctx :=
  set_q_data example_ctx V4L2_M2M_DST example_q_data_1080p.

(** The same session with four capture buffers allocated. *)
Definition example_ctx_busy : bcm2835_codec_ctx :=
  set_cap_q example_ctx_1080p (mk_vb2_queue 4 false false).

Definition example_format_changed : mmal_msg_event_format_changed :=
  mk_format_changed 3133440 3133440 1 1 MMAL_ES_TYPE_VIDEO
    MMAL_ENCODING_I420 1920 1088 1920 1080 0 (mk_fract 1 1).

(** [(int)p >> 1] read back as an [unsigned int], for [0 <= p <= 2^31]:
    the one value of that range that does not fit an [int], [2^31], wraps
    to the most negative [int]. *)
Definition half_of_int_product (p : Z) : Z :=
  if p <? 2 ^ 31 then p / 2 else 3 * 2 ^ 30.

(** The fields [vidioc_try_fmt] computes, one at a time. *)
Definition try_fmt_width (d : bcm2835_codec_dev) (fm : bcm2835_codec_fmt)
  (w : Z) : Z :=
  let w := if w >? max_w d then max_w d else w in
  if negb (is_compressed fm) && (w <? MIN_W) then MIN_W else w.

Definition try_fmt_height (d : bcm2835_codec_dev) (fm : bcm2835_codec_fmt)
  (h : Z) : Z :=
  let h := if h >? max_h d then max_h d else h in
  let h := if negb (is_compressed fm) && (h <? MIN_H) then MIN_H else h in
  if negb (is_compressed fm)
     && (role_eqb (role d) DECODE || role_eqb (role d) ENCODE_IMAGE)
  then ALIGN_uint h 16 else h.

Definition try_fmt_bytesperline (d : bcm2835_codec_dev)
  (fm : bcm2835_codec_fmt) (w h bpl : Z) : Z :=
  let min_bytesperline := get_bytesperline (s32 w) (s32 h) fm (role d) in
  ALIGN_uint (if bpl <? min_bytesperline then min_bytesperline else bpl)
    (bytesperline_align_at fm (role d)).

Definition try_fmt_sizeimage (fm : bcm2835_codec_fmt) (w h bpl size : Z)
  : Z :=
  let computed := get_sizeimage (s32 bpl) (s32 w) (s32 h) fm in
  if negb (is_compressed fm) || (size <? computed) then computed else size.

(** An ISP, whose bounds are the largest of the five roles. *)
Definition example_isp : bcm2835_codec_dev :=
  mk_dev ISP [fmt_YUV420; fmt_BGR32] [fmt_YUV420; fmt_BGR32]
    MAX_W_ISP MAX_H_ISP.

(** A decoder session with its component: the MMAL output port is already
    enabled (it is kept so to deliver resolution changes) with three buffers
    configured and a minimum of one. *)
Definition example_component : vchiq_mmal_component :=
  mk_component (example_port false 1 1) (example_port true 1 3).

Definition example_ctx_streaming : bcm2835_codec_ctx :=
  set_component example_ctx_1080p (Some example_component).

Definition example_compose (w h : Z) : v4l2_selection :=
  mk_selection V4L2_BUF_TYPE_VIDEO_CAPTURE V4L2_SEL_TGT_COMPOSE 8 8 w h.

(** * Further entry points of the driver *)

(** ** The format lists of a device *)

(** Equality of MMAL encoding codes, [mmal_encoding_beq]. *)
Scheme Equality for mmal_encoding.

(** [get_fmt(mmal_fmt)]: the first entry of the table with that MMAL
    encoding; with the module parameter [disable_bayer] set, Bayer entries
    are passed over. *)
Fixpoint get_fmt_scan (disable_bayer : bool) (mmal : mmal_encoding)
  (table : list bcm2835_codec_fmt) : option bcm2835_codec_fmt :=
  match table with
  | [] => None
  | d :: rest =>
      if mmal_encoding_beq (mmal_fmt d) mmal
         && (negb disable_bayer || negb (is_bayer d))
      then Some d
      else get_fmt_scan disable_bayer mmal rest
  end.

Definition get_fmt (disable_bayer : bool) (mmal : mmal_encoding)
  : option bcm2835_codec_fmt :=
  get_fmt_scan disable_bayer mmal supported_formats.

Definition MAX_SUPPORTED_ENCODINGS : Z := 70.
Definition MMAL_MSG_STATUS_ENOSPC : Z := 2.
Definition ENOMEM : Z := 12.
Definition ENOIOCTLCMD : Z := 515.

(** What a [MMAL_PARAMETER_SUPPORTED_ENCODINGS] query leaves behind: the
    status, [param_size] in bytes and the [fourccs] array. *)
Record supported_encodings : Set := mk_supported_encodings {
  get_ret : Z;
  param_size : Z;
  fourccs : list mmal_encoding
}.

(** [num_encodings]; [None] is the exit through [destroy_component] with
    -EINVAL. *)
Definition num_encodings_of (r : supported_encodings) : option Z :=
  if negb (get_ret r =? 0) then
    if get_ret r =? MMAL_MSG_STATUS_ENOSPC
    then Some MAX_SUPPORTED_ENCODINGS
    else None
  else Some (u32 (param_size r) / 4).

(** The copy loop [for (i = 0, j = 0; i < num_encodings; i++)] over the
    slots it reads. *)
Fixpoint copy_known_formats (disable_bayer : bool)
  (slots : list mmal_encoding) : list bcm2835_codec_fmt :=
  match slots with
  | [] => []
  | e :: rest =>
      match get_fmt disable_bayer e with
      | Some d => d :: copy_known_formats disable_bayer rest
      | None => copy_known_formats disable_bayer rest
      end
  end.

(** One of the two lists; [None] stands for a read past the end of
    [fourccs]. *)
Definition port_format_list (disable_bayer : bool)
  (r : supported_encodings) (num_encodings : Z)
  : option (list bcm2835_codec_fmt) :=
  if Z.of_nat (length (fourccs r)) <? num_encodings then None
  else Some (copy_known_formats disable_bayer
               (firstn (Z.to_nat num_encodings) (fourccs r))).

(** [bcm2835_codec_get_supported_fmts(dev)].  The accelerator's answers
    are arguments: the status of creating the component, the two encoding
    queries, and whether each [devm_kzalloc] returned memory. *)
Definition bcm2835_codec_get_supported_fmts (disable_bayer : bool)
  (d : bcm2835_codec_dev) (component_init_ret : Z)
  (input_0_encodings : supported_encodings) (input_0_alloc : bool)
  (output_0_encodings : supported_encodings) (output_0_alloc : bool)
  : option (Z * bcm2835_codec_dev) :=
  if component_init_ret <? 0 then Some (- ENOMEM, d) else
  match num_encodings_of input_0_encodings with
  | None => Some (- EINVAL, d)
  | Some n0 =>
  if negb input_0_alloc then Some (- ENOMEM, d) else
  match port_format_list disable_bayer input_0_encodings n0 with
  | None => None
  | Some l0 =>
  let d := mk_dev (role d) l0 (supported_fmts_1 d) (max_w d) (max_h d) in
  match num_encodings_of output_0_encodings with
  | None => Some (- EINVAL, d)
  | Some n1 =>
  if negb output_0_alloc then Some (- ENOMEM, d) else
  match port_format_list disable_bayer output_0_encodings n1 with
  | None => None
  | Some l1 =>
      Some (0, mk_dev (role d) (supported_fmts_0 d) l1 (max_w d) (max_h d))
  end
  end
  end
  end.

(** The size limits [bcm2835_codec_create] stores for a role. *)
Definition bcm2835_codec_create_max (r : bcm2835_codec_role) : Z * Z :=
  match r with
  | ISP => (MAX_W_ISP, MAX_H_ISP)
  | _ => (MAX_W_CODEC, MAX_H_CODEC)
  end.

(** ** Format and frame size enumeration *)

Record v4l2_fmtdesc : Set := mk_fmtdesc {
  fd_index : Z;
  fd_flags : Z;
  fd_pixelformat : Z
}.

(** [enum_fmt(f, ctx, capture)]; [f->index] is a [__u32]. *)
Definition enum_fmt (f : v4l2_fmtdesc) (ctx : bcm2835_codec_ctx)
  (capture : bool) : Z * v4l2_fmtdesc :=
  let fmts := get_format_list (dev ctx) capture in
  if fd_index f <? Z.of_nat (length fmts) then
    match nth_error fmts (Z.to_nat (fd_index f)) with
    | Some fmt => (0, mk_fmtdesc (fd_index f) (flags fmt) (fourcc fmt))
    | None => (- EINVAL, f)
    end
  else (- EINVAL, f).

Definition vidioc_enum_fmt_vid_cap (ctx : bcm2835_codec_ctx)
  (f : v4l2_fmtdesc) : Z * v4l2_fmtdesc := enum_fmt f ctx true.

Definition vidioc_enum_fmt_vid_out (ctx : bcm2835_codec_ctx)
  (f : v4l2_fmtdesc) : Z * v4l2_fmtdesc := enum_fmt f ctx false.

Definition V4L2_FRMSIZE_TYPE_STEPWISE : Z := 3.

Record v4l2_frmsizeenum : Set := mk_frmsizeenum {
  fs_index : Z;
  fs_pixel_format : Z;
  fs_type : Z;
  stepwise_min_width : Z;
  stepwise_max_width : Z;
  stepwise_step_width : Z;
  stepwise_min_height : Z;
  stepwise_max_height : Z;
  stepwise_step_height : Z
}.

Definition vidioc_enum_framesizes (ctx : bcm2835_codec_ctx)
  (fsize : v4l2_frmsizeenum) : Z * v4l2_frmsizeenum :=
  let fmt :=
    match find_format_pix_fmt (fs_pixel_format fsize) (dev ctx) true with
    | Some d => Some d
    | None => find_format_pix_fmt (fs_pixel_format fsize) (dev ctx) false
    end in
  match fmt with
  | None => (- EINVAL, fsize)
  | Some _ =>
      if negb (fs_index fsize =? 0) then (- EINVAL, fsize)
      else
        (0, mk_frmsizeenum (fs_index fsize) (fs_pixel_format fsize)
              V4L2_FRMSIZE_TYPE_STEPWISE
              MIN_W (max_w (dev ctx)) 2 MIN_H (max_h (dev ctx)) 2)
  end.

(** ** Reading the negotiated state back *)

(** [vidioc_g_fmt(ctx, f)].  The queue lookup cannot fail
    ([v4l2_m2m_get_vq] returns the address of a member); [None] is the
    dereference of the NULL [q_data] of a type that is neither of the two
    multi-planar ones. *)
Definition vidioc_g_fmt (ctx : bcm2835_codec_ctx) (f : v4l2_format)
  : option (Z * v4l2_format) :=
  match get_q_data (fmt_type f) with
  | None => None
  | Some qi =>
      let q := q_data ctx qi in
      Some (0, mk_v4l2_format (fmt_type f) (crop_width q) (height q)
                 (fourcc (fmt q)) (field q) (colorspace ctx) (sizeimage q)
                 (bytesperline q)
                 (repeat 0 (length (plane_fmt0_reserved f)))
                 1 (ycbcr_enc ctx) (quant ctx) (xfer_func ctx))
  end.

Definition vidioc_g_fmt_vid_out (ctx : bcm2835_codec_ctx) (f : v4l2_format)
  : option (Z * v4l2_format) := vidioc_g_fmt ctx f.

Definition vidioc_g_fmt_vid_cap (ctx : bcm2835_codec_ctx) (f : v4l2_format)
  : option (Z * v4l2_format) := vidioc_g_fmt ctx f.

(** [vidioc_g_selection].  [None] is the division by a zero [depth] in
    the decoder's crop-bounds arm. *)
Definition vidioc_g_selection (ctx : bcm2835_codec_ctx) (s : v4l2_selection)
  : option (Z * v4l2_selection) :=
  let rl := role (dev ctx) in
  let chosen : option m2m_index :=
    match sel_type s with
    | V4L2_BUF_TYPE_VIDEO_CAPTURE =>
        if role_eqb rl ENCODE || role_eqb rl ENCODE_IMAGE then None
        else Some V4L2_M2M_DST
    | V4L2_BUF_TYPE_VIDEO_OUTPUT =>
        if role_eqb rl DECODE then None else Some V4L2_M2M_SRC
    | _ => None
    end in
  match chosen with
  | None => Some (- EINVAL, s)
  | Some qi =>
  let q := q_data ctx qi in
  let t := target s in
  let rect (w h : Z) :=
    Some (0, mk_selection (sel_type s) (target s) 0 0 w h) in
  let compose_arms :=
    if (t =? V4L2_SEL_TGT_COMPOSE_DEFAULT) || (t =? V4L2_SEL_TGT_COMPOSE)
    then rect (crop_width q) (crop_height q)
    else if t =? V4L2_SEL_TGT_COMPOSE_BOUNDS
    then rect (crop_width q) (crop_height q)
    else Some (- EINVAL, s) in
  let crop_arms :=
    if (t =? V4L2_SEL_TGT_CROP_DEFAULT) || (t =? V4L2_SEL_TGT_CROP_BOUNDS)
    then rect (bytesperline q) (height q)
    else if t =? V4L2_SEL_TGT_CROP
    then rect (crop_width q) (crop_height q)
    else Some (- EINVAL, s) in
  match rl with
  | DECODE =>
      if (t =? V4L2_SEL_TGT_COMPOSE_DEFAULT) || (t =? V4L2_SEL_TGT_COMPOSE)
      then rect (crop_width q) (crop_height q)
      else if t =? V4L2_SEL_TGT_COMPOSE_BOUNDS
      then rect (crop_width q) (crop_height q)
      else if (t =? V4L2_SEL_TGT_CROP_BOUNDS)
              || (t =? V4L2_SEL_TGT_CROP_DEFAULT)
      then
        if u32 (depth (fmt q)) =? 0 then None
        else rect (shl_uint (bytesperline q) 3 / u32 (depth (fmt q)))
                  (height q)
      else Some (- EINVAL, s)
  | ENCODE | ENCODE_IMAGE => crop_arms
  | ISP | DEINTERLACE =>
      match sel_type s with
      | V4L2_BUF_TYPE_VIDEO_CAPTURE => compose_arms
      | _ => crop_arms
      end
  end
  end.

(** [vidioc_g_pixelaspect(file, fh, type, f)] *)
Definition vidioc_g_pixelaspect (ctx : bcm2835_codec_ctx)
  (type : v4l2_buf_type) (f : v4l2_fract) : Z * v4l2_fract :=
  if negb (role_eqb (role (dev ctx)) DECODE) then (- ENOIOCTLCMD, f)
  else
    match type with
    | V4L2_BUF_TYPE_VIDEO_CAPTURE =>
        (0, aspect_ratio (q_data ctx V4L2_M2M_DST))
    | _ => (- EINVAL, f)
    end.

(** ** Frame interval *)

Definition V4L2_CAP_TIMEPERFRAME : Z := 0x1000.

(** The part of [struct v4l2_streamparm] the driver uses:
    [parm.output.capability] and [parm.output.timeperframe]. *)
Record v4l2_streamparm : Set := mk_streamparm {
  parm_type : v4l2_buf_type;
  output_capability : Z;
  output_timeperframe : v4l2_fract
}.

Definition set_framerate (ctx : bcm2835_codec_ctx) (num denom : Z)
  : bcm2835_codec_ctx :=
  mk_ctx (dev ctx) (component ctx) (component_enabled ctx)
    (colorspace ctx) (ycbcr_enc ctx) (xfer_func ctx) (quant ctx)
    (hflip ctx) (vflip ctx) (q_data_SRC ctx) (q_data_DST ctx) (bitrate ctx)
    num denom (aborting ctx)
    (num_ip_buffers ctx) (num_op_buffers ctx) (out_q ctx) (cap_q ctx)
    (fh_events ctx).

Definition vidioc_s_parm (ctx : bcm2835_codec_ctx) (parm : v4l2_streamparm)
  : Z * v4l2_streamparm * bcm2835_codec_ctx :=
  match parm_type parm with
  | V4L2_BUF_TYPE_VIDEO_OUTPUT_MPLANE =>
      let t := output_timeperframe parm in
      if (denominator t =? 0) || (numerator t =? 0)
      then (- EINVAL, parm, ctx)
      else
        (0, mk_streamparm (parm_type parm) V4L2_CAP_TIMEPERFRAME t,
         set_framerate ctx (denominator t) (numerator t))
  | _ => (- EINVAL, parm, ctx)
  end.

Definition vidioc_g_parm (ctx : bcm2835_codec_ctx) (parm : v4l2_streamparm)
  : Z * v4l2_streamparm :=
  match parm_type parm with
  | V4L2_BUF_TYPE_VIDEO_OUTPUT_MPLANE =>
      (0, mk_streamparm (parm_type parm) V4L2_CAP_TIMEPERFRAME
            (mk_fract (framerate_denom ctx) (framerate_num ctx)))
  | _ => (- EINVAL, parm)
  end.

(** An ISP being probed with [disable_bayer] set: the input port reports
    four encodings, one of them a Bayer one and one the driver has no
    descriptor for; the output port reports one. *)
Definition example_probe_input : supported_encodings :=
  mk_supported_encodings 0 16
    [MMAL_ENCODING_I420; MMAL_ENCODING_BAYER_SRGGB8;
     MMAL_ENCODING_UNLISTED 7; MMAL_ENCODING_BGRA].

Definition example_probe_output : supported_encodings :=
  mk_supported_encodings 0 4 [MMAL_ENCODING_I420].

Definition example_probed_isp : bcm2835_codec_dev :=
  mk_dev ISP [fmt_YUV420; fmt_BGR32] [fmt_YUV420] 0 0.

(** What the format, selection and pixel-aspect getters read of a
    session. *)
Definition negotiated_state (ctx : bcm2835_codec_ctx) :=
  (dev ctx, (colorspace ctx, ycbcr_enc ctx, xfer_func ctx, quant ctx),
   q_data_SRC ctx, q_data_DST ctx).

(** The condition [update_capture_port] of [vidioc_s_fmt] for a request
    [f] resolved to the descriptor [fm]. *)
Definition s_fmt_updates_capture_port (d : bcm2835_codec_dev)
  (fm : bcm2835_codec_fmt) (f : v4l2_format) : bool :=
  (role_eqb (role d) DECODE || role_eqb (role d) ENCODE_IMAGE)
  && is_compressed fm
  && negb (pix_mp_width f =? 0) && negb (pix_mp_height f =? 0).

(** ** Buffer traffic *)

Inductive vb2_buffer_state : Set :=
| VB2_BUF_STATE_DEQUEUED | VB2_BUF_STATE_IN_REQUEST
| VB2_BUF_STATE_PREPARING | VB2_BUF_STATE_QUEUED | VB2_BUF_STATE_ACTIVE
| VB2_BUF_STATE_DONE | VB2_BUF_STATE_ERROR.

(** [struct m2m_mmal_buffer]: a client buffer with the accelerator header
    that travels with it. *)
Record m2m_mmal_buffer : Set := mk_m2m_mmal_buffer {
  m2m_vb : vb2_v4l2_buffer;    (* m2m.vb *)
  mmal : mmal_buffer
}.

(** What the driver does to the world around it: calls on the accelerator
    ports, buffers handed back to videobuf2 or on to the accelerator, and
    the completion the flush waits on. *)
Inductive driver_action : Set :=
| act_mmal (c : mmal_call)
| act_vb2_buffer_done (vb : vb2_v4l2_buffer) (state : vb2_buffer_state)
| act_submit_buffer (p : port_id) (b : mmal_buffer)
| act_init_completion
| act_complete
| act_component_disable
| act_buffer_cleanup_eos
| act_job_finish.

Definition MMAL_EVENT_FORMAT_CHANGED : Z := v4l2_fourcc "E" "F" "C" "H".

Definition set_num_ip_buffers (ctx : bcm2835_codec_ctx) (n : Z)
  : bcm2835_codec_ctx :=
  mk_ctx (dev ctx) (component ctx) (component_enabled ctx)
    (colorspace ctx) (ycbcr_enc ctx) (xfer_func ctx) (quant ctx)
    (hflip ctx) (vflip ctx) (q_data_SRC ctx) (q_data_DST ctx) (bitrate ctx)
    (framerate_num ctx) (framerate_denom ctx) (aborting ctx)
    n (num_op_buffers ctx) (out_q ctx) (cap_q ctx) (fh_events ctx).

Definition set_num_op_buffers (ctx : bcm2835_codec_ctx) (n : Z)
  : bcm2835_codec_ctx :=
  mk_ctx (dev ctx) (component ctx) (component_enabled ctx)
    (colorspace ctx) (ycbcr_enc ctx) (xfer_func ctx) (quant ctx)
    (hflip ctx) (vflip ctx) (q_data_SRC ctx) (q_data_DST ctx) (bitrate ctx)
    (framerate_num ctx) (framerate_denom ctx) (aborting ctx)
    (num_ip_buffers ctx) n (out_q ctx) (cap_q ctx) (fh_events ctx).

Definition set_aborting (ctx : bcm2835_codec_ctx) (b : bool)
  : bcm2835_codec_ctx :=
  mk_ctx (dev ctx) (component ctx) (component_enabled ctx)
    (colorspace ctx) (ycbcr_enc ctx) (xfer_func ctx) (quant ctx)
    (hflip ctx) (vflip ctx) (q_data_SRC ctx) (q_data_DST ctx) (bitrate ctx)
    (framerate_num ctx) (framerate_denom ctx) b
    (num_ip_buffers ctx) (num_op_buffers ctx) (out_q ctx) (cap_q ctx)
    (fh_events ctx).

Definition send_eos_event (ctx : bcm2835_codec_ctx) : bcm2835_codec_ctx :=
  v4l2_event_queue_fh ctx V4L2_EVENT_EOS.

(** [vb2_set_plane_payload(vb, 0, size)] stores the size in
    [planes[0].bytesused], an [unsigned int]. *)
Definition vb2_set_plane_payload (vb2 : vb2_v4l2_buffer) (size : Z)
  : vb2_v4l2_buffer :=
  mk_vb2_v4l2_buffer (vb2_flags vb2) (vb2_field vb2) (vb2_timestamp vb2)
    (u32 size).

(** The [switch] of [op_buffer_cb] on the two interlace flags. *)
Definition field_of_mmal_flags (fl current : Z) : Z :=
  let m := Z.land fl (Z.lor MMAL_BUFFER_HEADER_VIDEO_FLAG_INTERLACED
                        MMAL_BUFFER_HEADER_VIDEO_FLAG_TOP_FIELD_FIRST) in
  if (m =? 0) || (m =? MMAL_BUFFER_HEADER_VIDEO_FLAG_TOP_FIELD_FIRST)
  then V4L2_FIELD_NONE
  else if m =? MMAL_BUFFER_HEADER_VIDEO_FLAG_INTERLACED
  then V4L2_FIELD_INTERLACED_BT
  else if m =? Z.lor MMAL_BUFFER_HEADER_VIDEO_FLAG_INTERLACED
                 MMAL_BUFFER_HEADER_VIDEO_FLAG_TOP_FIELD_FIRST
  then V4L2_FIELD_INTERLACED_TB
  else current.

(** The buffer an input callback is about: the session's own EOS buffer or
    one of the client's. *)
Inductive input_buffer : Set :=
| EOS_BUFFER
| CLIENT_BUFFER (b : m2m_mmal_buffer).

(** [job_ready]: the two arguments are the numbers of ready source and
    destination buffers. *)
Definition job_ready (num_src_bufs_ready num_dst_bufs_ready : Z) : Z :=
  if (num_src_bufs_ready =? 0) && (num_dst_bufs_ready =? 0) then 0 else 1.

Definition job_abort (ctx : bcm2835_codec_ctx) : bcm2835_codec_ctx :=
  set_aborting ctx true.

(** [device_run]: [src_rdy] and [dst_rdy] are the ready queues of the m2m
    context, oldest buffer first.  [None] is the dereference of a NULL
    component on the way to submitting a buffer. *)
Definition device_run (field_override : Z) (ctx : bcm2835_codec_ctx)
  (src_rdy dst_rdy : list m2m_mmal_buffer)
  : option (list m2m_mmal_buffer * list m2m_mmal_buffer
            * list driver_action) :=
  let take (q : vb2_queue) (pid : port_id) (rdy : list m2m_mmal_buffer)
    : option (list m2m_mmal_buffer * list driver_action) :=
    if streaming q then
      match rdy with
      | [] => Some ([], [])
      | b :: rest =>
          match component ctx with
          | None => None
          | Some _ =>
              Some (rest,
                    [act_submit_buffer pid
                       (vb2_to_mmal_buffer field_override (mmal b)
                          (m2m_vb b))])
          end
      end
    else Some (rdy, []) in
  match take (out_q ctx) INPUT_0 src_rdy with
  | None => None
  | Some (src_rdy, a_src) =>
      match take (cap_q ctx) OUTPUT_0 dst_rdy with
      | None => None
      | Some (dst_rdy, a_dst) =>
          Some (src_rdy, dst_rdy, a_src ++ a_dst ++ [act_job_finish])
      end
  end.

Module Callbacks.

Section Callbacks.

Variable vchiq_mmal_port_parameter_get_interlace :
  vchiq_mmal_port -> Z * mmal_interlace_type.
Variable V4L2_MAP_XFER_FUNC_DEFAULT : Z -> Z.
Variable V4L2_MAP_YCBCR_ENC_DEFAULT : Z -> Z.
Variable V4L2_MAP_QUANTIZATION_DEFAULT : bool -> Z -> Z -> Z.

(** [ip_buffer_cb(instance, port, status, mmal_buf)] *)
Definition ip_buffer_cb (ctx : bcm2835_codec_ctx) (port : vchiq_mmal_port)
  (status : Z) (buf : input_buffer)
  : bcm2835_codec_ctx * list driver_action :=
  match buf with
  | EOS_BUFFER =>
      (set_q_data ctx V4L2_M2M_SRC
         (set_q_eos_buffer_in_use (q_data ctx V4L2_M2M_SRC) false), [])
  | CLIENT_BUFFER b =>
      if negb (status =? 0) then
        (ctx, [act_vb2_buffer_done (m2m_vb b) VB2_BUF_STATE_ERROR])
      else
        (set_num_ip_buffers ctx (add_int (num_ip_buffers ctx) 1),
         act_vb2_buffer_done (m2m_vb b)
           (if enabled port then VB2_BUF_STATE_DONE
            else VB2_BUF_STATE_QUEUED)
         :: (if negb (enabled port) && negb (buffers_with_vpu port =? 0)
             then [act_complete] else []))
  end.

(** [op_buffer_cb(instance, port, status, mmal_buf)].  [format] is the
    event payload the buffer carries when [cmd] says it is an event.  The
    result is the session, the client buffer and the actions; [None] is
    the dereference of a NULL component when an empty buffer is sent
    back to the accelerator. *)
Definition op_buffer_cb (ctx : bcm2835_codec_ctx) (port : vchiq_mmal_port)
  (status : Z) (buf : m2m_mmal_buffer)
  (format : mmal_msg_event_format_changed)
  : option (bcm2835_codec_ctx * vb2_v4l2_buffer * list driver_action) :=
  let mmal_buf := mmal buf in
  let vb2 := m2m_vb buf in
  let fl := mmal_flags mmal_buf in
  let completes :=
    if negb (enabled port) && negb (buffers_with_vpu port =? 0)
    then [act_complete] else [] in
  if negb (status =? 0) then
    Some (ctx, vb2, [act_vb2_buffer_done vb2 VB2_BUF_STATE_ERROR])
  else if negb (cmd mmal_buf =? 0) then
    if cmd mmal_buf =? MMAL_EVENT_FORMAT_CHANGED then
      let '(ctx, calls) :=
        handle_fmt_changed vchiq_mmal_port_parameter_get_interlace
          V4L2_MAP_XFER_FUNC_DEFAULT V4L2_MAP_YCBCR_ENC_DEFAULT
          V4L2_MAP_QUANTIZATION_DEFAULT ctx format in
      Some (ctx, vb2, map act_mmal calls)
    else Some (ctx, vb2, [])
  else if (mmal_length mmal_buf =? 0)
          && negb (has_flag fl MMAL_BUFFER_HEADER_FLAG_EOS) then
    if negb (enabled port) then
      Some (ctx, vb2,
            act_vb2_buffer_done vb2 VB2_BUF_STATE_QUEUED
            :: (if negb (buffers_with_vpu port =? 0)
                then [act_complete] else []))
    else
      match component ctx with
      | None => None
      | Some _ => Some (ctx, vb2, [act_submit_buffer OUTPUT_0 mmal_buf])
      end
  else
    let eos := has_flag fl MMAL_BUFFER_HEADER_FLAG_EOS in
    let ctx := if eos then send_eos_event ctx else ctx in
    let flags1 :=
      if eos then Z.lor (vb2_flags vb2) V4L2_BUF_FLAG_LAST
      else vb2_flags vb2 in
    let buf_state :=
      if has_flag fl MMAL_BUFFER_HEADER_FLAG_CORRUPTED
      then VB2_BUF_STATE_ERROR else VB2_BUF_STATE_DONE in
    let vb2 :=
      mk_vb2_v4l2_buffer flags1 (vb2_field vb2)
        (u64 (s64 (pts mmal_buf * 1000))) (planes0_bytesused vb2) in
    let vb2 := vb2_set_plane_payload vb2 (mmal_length mmal_buf) in
    let vb2 :=
      mk_vb2_v4l2_buffer (vb2_flags vb2)
        (field_of_mmal_flags fl (vb2_field vb2))
        (vb2_timestamp vb2) (planes0_bytesused vb2) in
    let vb2 :=
      if has_flag fl MMAL_BUFFER_HEADER_FLAG_KEYFRAME
      then mk_vb2_v4l2_buffer (Z.lor (vb2_flags vb2) V4L2_BUF_FLAG_KEYFRAME)
             (vb2_field vb2) (vb2_timestamp vb2) (planes0_bytesused vb2)
      else vb2 in
    Some (set_num_op_buffers ctx (add_int (num_op_buffers ctx) 1), vb2,
          act_vb2_buffer_done vb2 buf_state :: completes).

End Callbacks.

End Callbacks.

(** ** Decoder and encoder commands *)

Definition V4L2_DEC_CMD_START : Z := 0.
Definition V4L2_DEC_CMD_STOP : Z := 1.
Definition V4L2_DEC_CMD_STOP_TO_BLACK : Z := Z.shiftl 1 0.
Definition V4L2_ENC_CMD_START : Z := 0.
Definition V4L2_ENC_CMD_STOP : Z := 1.

Record v4l2_decoder_cmd : Set := mk_decoder_cmd {
  dec_cmd : Z;
  dec_flags : Z
}.

Definition vidioc_try_decoder_cmd (ctx : bcm2835_codec_ctx)
  (c : v4l2_decoder_cmd) : Z :=
  if negb (role_eqb (role (dev ctx)) DECODE) then - EINVAL
  else if dec_cmd c =? V4L2_DEC_CMD_STOP then
    if has_flag (dec_flags c) V4L2_DEC_CMD_STOP_TO_BLACK then - EINVAL
    else 0
  else if dec_cmd c =? V4L2_DEC_CMD_START then 0
  else - EINVAL.

(** The header the stop commands write into the session's EOS buffer: no
    payload, the EOS flag, time stamps 0. *)
Definition eos_buffer_header : mmal_buffer :=
  mk_mmal_buffer 0 MMAL_BUFFER_HEADER_FLAG_EOS 0 0 0.

(** The [STOP] arm shared by [vidioc_decoder_cmd] and
    [vidioc_encoder_cmd]; the status of the submission is logged and
    dropped. *)
Definition cmd_stop (ctx : bcm2835_codec_ctx)
  : bcm2835_codec_ctx * list driver_action :=
  let ctx :=
    set_q_data ctx V4L2_M2M_SRC
      (set_q_eos_buffer_in_use (q_data ctx V4L2_M2M_SRC) true) in
  match component ctx with
  | None => (ctx, [])
  | Some _ => (ctx, [act_submit_buffer INPUT_0 eos_buffer_header])
  end.

Definition vidioc_decoder_cmd (ctx : bcm2835_codec_ctx)
  (c : v4l2_decoder_cmd) : Z * bcm2835_codec_ctx * list driver_action :=
  let ret := vidioc_try_decoder_cmd ctx c in
  if negb (ret =? 0) then (ret, ctx, [])
  else if dec_cmd c =? V4L2_DEC_CMD_STOP then
    let '(ctx, acts) := cmd_stop ctx in (0, ctx, acts)
  else if dec_cmd c =? V4L2_DEC_CMD_START then
    (* vb2_clear_last_buffer_dequeued on the capture queue *)
    (0, set_cap_q ctx
          (mk_vb2_queue (num_buffers (cap_q ctx)) (streaming (cap_q ctx))
             false), [])
  else (- EINVAL, ctx, []).

Definition vidioc_try_encoder_cmd (enc_cmd : Z) : Z :=
  if (enc_cmd =? V4L2_ENC_CMD_STOP) || (enc_cmd =? V4L2_ENC_CMD_START)
  then 0 else - EINVAL.

Definition vidioc_encoder_cmd (ctx : bcm2835_codec_ctx) (enc_cmd : Z)
  : Z * bcm2835_codec_ctx * list driver_action :=
  let ret := vidioc_try_encoder_cmd enc_cmd in
  if negb (ret =? 0) then (ret, ctx, [])
  else if enc_cmd =? V4L2_ENC_CMD_STOP then
    let '(ctx, acts) := cmd_stop ctx in (0, ctx, acts)
  else if enc_cmd =? V4L2_ENC_CMD_START then (0, ctx, [])
  else (- EINVAL, ctx, []).

(** ** Queue set-up and stop *)

Section Queues.

Variable vchiq_mmal_port_disable :
  port_id -> vchiq_mmal_port -> Z * vchiq_mmal_port.
Variable vchiq_mmal_port_enable :
  port_id -> buffer_cb -> vchiq_mmal_port -> Z * vchiq_mmal_port.
Variable HZ : Z.

(** [bcm2835_codec_create_component], which builds the component through
    the accelerator service and the control framework the first time a
    queue is set up, is a parameter here: its status and the session it
    leaves. *)
Variable bcm2835_codec_create_component :
  bcm2835_codec_ctx -> Z * bcm2835_codec_ctx.

(** [bcm2835_codec_queue_setup(vq, nbuffers, nplanes, sizes, alloc_devs)]:
    the result carries [*nbuffers], [*nplanes] and [sizes[0]] as they are
    left.  [None] is the dereference of a NULL port. *)
Definition bcm2835_codec_queue_setup (ctx : bcm2835_codec_ctx)
  (q_type : v4l2_buf_type) (nbuffers nplanes sizes_0 : Z)
  : option (Z * bcm2835_codec_ctx * (Z * Z * Z)) :=
  match get_q_data q_type with
  | None => Some (- EINVAL, ctx, (nbuffers, nplanes, sizes_0))
  | Some qi =>
      let '(created, ctx) :=
        match component ctx with
        | None => bcm2835_codec_create_component ctx
        | Some _ => (0, ctx)
        end in
      if negb (created =? 0)
      then Some (- EINVAL, ctx, (nbuffers, nplanes, sizes_0))
      else
        let size := sizeimage (q_data ctx qi) in
        if negb (nplanes =? 0) then
          Some (if sizes_0 <? size then - EINVAL else 0, ctx,
                (nbuffers, nplanes, sizes_0))
        else
          match get_port_data ctx q_type, component ctx with
          | Some pid, Some c =>
              let port := port_of c pid in
              let nbuffers :=
                if nbuffers <? minimum_buffer_num port
                then minimum_buffer_num port else nbuffers in
              let port :=
                mk_port (enabled port) (format_encoding port)
                  (format_flags port) (format_bitrate port)
                  (es_video_width port) (es_video_height port)
                  (es_video_crop_x port) (es_video_crop_y port)
                  (es_video_crop_width port) (es_video_crop_height port)
                  (es_video_frame_rate port) (minimum_buffer_num port)
                  (minimum_buffer_size port) (add_uint nbuffers 1) size
                  (buffers_with_vpu port) in
              Some (0, put_port ctx pid port, (nbuffers, 1, size))
          | _, _ => None
          end
  end.

(** [bcm2835_codec_stop_streaming(q)], with the ready queues of the m2m
    context.  [None] is the NULL port handed to the accelerator when the
    session has no component. *)
Definition bcm2835_codec_stop_streaming (ctx : bcm2835_codec_ctx)
  (q_type : v4l2_buf_type) (src_rdy dst_rdy : list m2m_mmal_buffer)
  : option (bcm2835_codec_ctx * list m2m_mmal_buffer
            * list m2m_mmal_buffer * list driver_action) :=
  match get_port_data ctx q_type, component ctx with
  | Some pid, Some c =>
      let is_output := V4L2_TYPE_IS_OUTPUT q_type in
      let held := if is_output then src_rdy else dst_rdy in
      let acts :=
        act_init_completion
        :: map (fun b => act_vb2_buffer_done (m2m_vb b) VB2_BUF_STATE_QUEUED)
             held in
      let '(_, port) := vchiq_mmal_port_disable pid (port_of c pid) in
      let c := set_port c pid port in
      let acts :=
        acts ++ act_mmal (call_port_disable pid)
             :: map act_mmal (bcm2835_codec_flush_buffers HZ port) in
      let '(c, acts) :=
        match role (dev ctx), q_type with
        | DECODE, V4L2_BUF_TYPE_VIDEO_CAPTURE_MPLANE =>
            if enabled (input_0 c) then
              let '(_, p) :=
                vchiq_mmal_port_enable OUTPUT_0 op_buffer_cb (output_0 c) in
              (set_port c OUTPUT_0 p,
               acts ++ [act_mmal (call_port_enable OUTPUT_0 op_buffer_cb)])
            else (c, acts)
        | _, _ => (c, acts)
        end in
      let '(ctx, acts) :=
        if component_enabled ctx && negb (enabled (input_0 c))
           && negb (enabled (output_0 c))
        then (set_component_enabled ctx false,
              acts ++ [act_component_disable])
        else (ctx, acts) in
      let acts :=
        if is_output then acts ++ [act_buffer_cleanup_eos] else acts in
      Some (set_component ctx (Some c),
            if is_output then [] else src_rdy,
            if is_output then dst_rdy else [],
            acts)
  | _, _ => None
  end.

End Queues.

(** ** A fresh session *)

(** The session [bcm2835_codec_open] builds when it succeeds: the zeroed
    allocation with both queues at the default format and the 32x32
    default size.  The control defaults the handler set-up then applies
    write the same bit rate and zero flips; the videobuf2 queues start
    without buffers.  [None] stands for a direction without formats, where
    the default descriptor is read from outside its list. *)
Definition bcm2835_codec_open (d : bcm2835_codec_dev)
  : option bcm2835_codec_ctx :=
  match get_default_format d false, get_default_format d true with
  | Some fmt_src, Some fmt_dst =>
      let q (fm : bcm2835_codec_fmt) (ar : v4l2_fract) :=
        let bpl :=
          get_bytesperline DEFAULT_WIDTH DEFAULT_HEIGHT fm (role d) in
        mk_q_data bpl DEFAULT_HEIGHT DEFAULT_WIDTH DEFAULT_HEIGHT false ar
          V4L2_FIELD_NONE
          (get_sizeimage (s32 bpl) (s32 DEFAULT_WIDTH) (s32 DEFAULT_HEIGHT)
             fm)
          0 fm false in
      Some (mk_ctx d None false V4L2_COLORSPACE_REC709 0 0 0 0 0
              (q fmt_src (mk_fract 0 0)) (q fmt_dst (mk_fract 1 1))
              (10 * 1000 * 1000) 30 1 false 0 0
              (mk_vb2_queue 0 false false) (mk_vb2_queue 0 false false) [])
  | _, _ => None
  end.

(** ** Intra refresh *)

(** [helper_calculate_macroblocks(ctx, width, height, intra_refresh_period)]:
    the product is computed on [int]s and stored in a [u32]; the period is
    converted to [unsigned] for [%] and [/]; the [u32] result is returned
    as an [int].  [None] is the division by a zero period. *)
Definition helper_calculate_macroblocks (width height
  intra_refresh_period : Z) : option Z :=
  let mbs := u32 (mul_int (ALIGN_int width 16) (ALIGN_int height 16)) in
  let mbs := mbs / (16 * 16) in
  let period := u32 intra_refresh_period in
  if period =? 0 then None
  else
    let mbs := if negb (mbs mod period =? 0) then add_uint mbs 1 else mbs in
    Some (s32 (mbs / period)).

(** Actions that pass a buffer on: back to videobuf2, or to the
    accelerator. *)
Definition is_buffer_done (a : driver_action) : bool :=
  match a with act_vb2_buffer_done _ _ => true | _ => false end.

Definition is_submit_buffer (a : driver_action) : bool :=
  match a with act_submit_buffer _ _ => true | _ => false end.

(** ** Buffer preparation and the dma-buf a buffer holds *)

(** include/media/videobuf2-core.h, [enum vb2_memory]. *)
Definition VB2_MEMORY_UNKNOWN : Z := 0.
Definition VB2_MEMORY_MMAP : Z := 1.
Definition VB2_MEMORY_USERPTR : Z := 2.
Definition VB2_MEMORY_DMABUF : Z := 4.

(** What the buffer callbacks do to dma-bufs.  A [struct dma_buf *] is
    its address, 0 being NULL.  [dma_buf_get] takes a reference on the
    dma-buf it returns and [dma_buf_put] drops one;
    [vb2_core_expbuf_dmabuf] stores a dma-buf, with a reference, through
    its last argument when it returns 0 and leaves it alone otherwise. *)
Inductive dma_action : Set :=
| act_dma_buf_get (dma_buf : Z)
| act_dma_buf_put (dma_buf : Z)
| act_expbuf (ret dma_buf : Z)
| act_vchi_buffer_cleanup.

(** [bcm2835_codec_mmal_buf_cleanup(mmal_buf)]: the result is the new
    [mmal_buf->dma_buf]. *)
Definition bcm2835_codec_mmal_buf_cleanup (dma_buf : Z)
  : Z * list dma_action :=
  if negb (dma_buf =? 0)
  then (0, [act_vchi_buffer_cleanup; act_dma_buf_put dma_buf])
  else (dma_buf, [act_vchi_buffer_cleanup]).

(** [bcm2835_codec_buffer_cleanup(vb)]. *)
Definition bcm2835_codec_buffer_cleanup (dma_buf : Z)
  : Z * list dma_action :=
  bcm2835_codec_mmal_buf_cleanup dma_buf.

Section BufPrepare.

(** [dma_buf_get(fd)] and
    [vb2_core_expbuf_dmabuf(q, type, index, 0, O_CLOEXEC, &dmabuf)], the
    latter as its return value and the dma-buf it hands out. *)
Variable dma_buf_get : Z -> Z.
Variable vb2_core_expbuf_dmabuf : v4l2_buf_type -> Z -> Z * Z.

(** [bcm2835_codec_buf_prepare(vb)].  [plane_size] is
    [vb2_plane_size(vb, 0)], [memory] is [vb->memory], [fd] is
    [vb->planes[0].m.fd], [index] is [vb->index] and [dma_buf] is
    [buf->mmal.dma_buf]; the result is the return value, the buffer and
    the new [buf->mmal.dma_buf].  [None] is the NULL [q_data] of a queue
    type that is neither of the two multi-planar ones. *)
Definition bcm2835_codec_buf_prepare (ctx : bcm2835_codec_ctx)
  (q_type : v4l2_buf_type) (vbuf : vb2_v4l2_buffer)
  (plane_size memory fd index dma_buf : Z)
  : option (Z * vb2_v4l2_buffer * Z * list dma_action) :=
  match get_q_data q_type with
  | None => None
  | Some qi =>
      let q := q_data ctx qi in
      let vbuf :=
        if V4L2_TYPE_IS_OUTPUT q_type && (vb2_field vbuf =? V4L2_FIELD_ANY)
        then mk_vb2_v4l2_buffer (vb2_flags vbuf) V4L2_FIELD_NONE
               (vb2_timestamp vbuf) (planes0_bytesused vbuf)
        else vbuf in
      if plane_size <? sizeimage q then Some (- EINVAL, vbuf, dma_buf, [])
      else
        let vbuf :=
          if negb (V4L2_TYPE_IS_OUTPUT q_type)
          then vb2_set_plane_payload vbuf (sizeimage q) else vbuf in
        if memory =? VB2_MEMORY_DMABUF then
          let got := dma_buf_get fd in
          if negb (got =? dma_buf) then
            let '(_, cleanup) :=
              if negb (dma_buf =? 0)
              then bcm2835_codec_mmal_buf_cleanup dma_buf
              else (dma_buf, []) in
            Some (0, vbuf, got, act_dma_buf_get got :: cleanup)
          else
            Some (0, vbuf, dma_buf,
                  [act_dma_buf_get got; act_dma_buf_put got])
        else if memory =? VB2_MEMORY_MMAP then
          if dma_buf =? 0 then
            let '(ret, exported) := vb2_core_expbuf_dmabuf q_type index in
            Some (ret, vbuf, if ret =? 0 then exported else dma_buf,
                  [act_expbuf ret exported])
          else Some (0, vbuf, dma_buf, [])
        else Some (- EINVAL, vbuf, dma_buf, [])
  end.

(** One call of videobuf2 on a buffer: a prepare, with what the session
    and the buffer look like at that time, or the cleanup. *)
Inductive buffer_op : Type :=
| op_buf_prepare (ctx : bcm2835_codec_ctx) (vbuf : vb2_v4l2_buffer)
    (plane_size memory fd index : Z)
| op_buffer_cleanup.

(** The calls of [ops], in order, on one buffer of the queue [q_type]
    whose [mmal.dma_buf] starts as [dma_buf]. *)
Fixpoint run_buffer_ops (q_type : v4l2_buf_type) (ops : list buffer_op)
  (dma_buf : Z) : option (Z * list dma_action) :=
  match ops with
  | [] => Some (dma_buf, [])
  | op :: rest =>
      let step :=
        match op with
        | op_buf_prepare ctx vbuf plane_size memory fd index =>
            match bcm2835_codec_buf_prepare ctx q_type vbuf plane_size
                    memory fd index dma_buf with
            | None => None
            | Some (_, _, dma_buf', acts) => Some (dma_buf', acts)
            end
        | op_buffer_cleanup => Some (bcm2835_codec_buffer_cleanup dma_buf)
        end in
      match step with
      | None => None
      | Some (dma_buf', acts) =>
          match run_buffer_ops q_type rest dma_buf' with
          | None => None
          | Some (dma_buf'', acts') => Some (dma_buf'', acts ++ acts')
          end
      end
  end.

End BufPrepare.

(** References the actions take on the dma-buf [x], less those they drop. *)
Definition dma_buf_refs_of (x : Z) (a : dma_action) : Z :=
  match a with
  | act_dma_buf_get h => if h =? x then 1 else 0
  | act_dma_buf_put h => if h =? x then -1 else 0
  | act_expbuf ret h => if (ret =? 0) && (h =? x) then 1 else 0
  | act_vchi_buffer_cleanup => 0
  end.

Definition dma_buf_refs (x : Z) (acts : list dma_action) : Z :=
  fold_right (fun a n => dma_buf_refs_of x a + n) 0 acts.

(** The reference the buffer itself stands for. *)
Definition holds (dma_buf x : Z) : Z := if dma_buf =? x then 1 else 0.
(** * Properties *)

(** ** Facts about the machine integers *)

Lemma u32_small (x : Z) : 0 <= x < 2 ^ 32 -> u32 x = x.
Proof. intros H. unfold u32. apply Z.mod_small. exact H. Qed.

Lemma s32_small (x : Z) : - 2 ^ 31 <= x < 2 ^ 31 -> s32 x = x.
Proof.
  intros H. unfold s32. rewrite Z.mod_small; lia.
Qed.

Lemma u32_bounds (x : Z) : 0 <= u32 x < 2 ^ 32.
Proof. unfold u32. apply Z.mod_pos_bound. lia. Qed.

Lemma s32_bounds (x : Z) : - 2 ^ 31 <= s32 x < 2 ^ 31.
Proof.
  unfold s32. pose proof (Z.mod_pos_bound (x + 2 ^ 31) (2 ^ 32)). lia.
Qed.

Lemma mul_int_small (a b : Z) :
  - 2 ^ 31 <= a * b < 2 ^ 31 -> mul_int a b = a * b.
Proof. intros H. unfold mul_int. apply s32_small. exact H. Qed.

Lemma shr_int_div (a n : Z) : 0 <= n -> shr_int a n = a / 2 ^ n.
Proof. intros H. unfold shr_int. apply Z.shiftr_div_pow2. exact H. Qed.

Lemma alignUp_bounds (x a : Z) :
  0 < a -> x <= alignUp x a < x + a.
Proof.
  intros Ha. unfold alignUp.
  pose proof (Z.div_mod (x + a - 1) a ltac:(lia)) as E.
  pose proof (Z.mod_pos_bound (x + a - 1) a Ha) as B.
  lia.
Qed.

Lemma alignUp_mono (x y a : Z) :
  0 < a -> x <= y -> alignUp x a <= alignUp y a.
Proof.
  intros Ha Hxy. unfold alignUp.
  apply Z.mul_le_mono_nonneg_l; [lia|].
  apply Z.div_le_mono; lia.
Qed.

Lemma alignUp_fixed (x a : Z) :
  0 < a -> x mod a = 0 -> alignUp x a = x.
Proof.
  intros Ha Hx. unfold alignUp.
  apply Z.mod_divide in Hx; [|lia]. destruct Hx as [q ->].
  replace (q * a + a - 1) with (a - 1 + q * a) by lia.
  rewrite Z.div_add by lia. rewrite (Z.div_small (a - 1) a) by lia. lia.
Qed.

Lemma alignUp_multiple (x a : Z) : a <> 0 -> alignUp x a mod a = 0.
Proof.
  intros Ha. unfold alignUp. rewrite Z.mul_comm. apply Z.mod_mul. exact Ha.
Qed.

(** Clearing the low [k] bits is rounding down to a multiple of [2^k]. *)
Lemma land_lnot_ones (y k : Z) :
  0 <= k -> Z.land y (Z.lnot (Z.ones k)) = 2 ^ k * (y / 2 ^ k).
Proof.
  intros Hk. rewrite <- Z.ldiff_land. rewrite Z.ldiff_ones_r by exact Hk.
  rewrite Z.shiftl_mul_pow2, Z.shiftr_div_pow2 by exact Hk. lia.
Qed.

(** On a power of two that leaves room below [2^31], the kernel's [ALIGN]
    on an [int] rounds up to the next multiple. *)
Lemma ALIGN_int_pow2 (x k : Z) :
  0 <= k < 31 -> - 2 ^ 31 <= x -> x + 2 ^ k - 1 < 2 ^ 31 ->
  ALIGN_int x (2 ^ k) = alignUp x (2 ^ k).
Proof.
  intros Hk Hlo Hhi. unfold ALIGN_int, alignUp.
  assert (P : 0 < 2 ^ k < 2 ^ 31).
  { split; [apply Z.pow_pos_nonneg; lia | apply Z.pow_lt_mono_r; lia]. }
  cbv zeta.
  rewrite (s32_small (2 ^ k)) by lia.
  rewrite (s32_small (2 ^ k - 1)) by lia.
  rewrite (s32_small (x + (2 ^ k - 1))) by lia.
  replace (2 ^ k - 1) with (Z.ones k) by (rewrite Z.ones_equiv; lia).
  rewrite land_lnot_ones by lia.
  rewrite Z.ones_equiv. do 2 f_equal. lia.
Qed.

(** With alignment 0 the mask is all ones and [ALIGN] yields 0. *)
Lemma ALIGN_int_zero (x : Z) : ALIGN_int x 0 = 0.
Proof.
  unfold ALIGN_int. cbv zeta.
  change (s32 (s32 0 - 1)) with (-1).
  change (Z.lnot (-1)) with 0. apply Z.land_0_r.
Qed.

Lemma ALIGN_uint_zero (x : Z) : ALIGN_uint x 0 = 0.
Proof.
  unfold ALIGN_uint. cbv zeta.
  change (u32 (Z.lnot (u32 (u32 0 - 1)))) with 0. apply Z.land_0_r.
Qed.

Lemma ALIGN_uint_pow2 (x k : Z) :
  0 <= k < 32 -> 0 <= x -> x + 2 ^ k - 1 < 2 ^ 32 ->
  ALIGN_uint x (2 ^ k) = alignUp x (2 ^ k).
Proof.
  intros Hk Hlo Hhi. unfold ALIGN_uint, alignUp.
  assert (P : 0 < 2 ^ k < 2 ^ 32).
  { split; [apply Z.pow_pos_nonneg; lia | apply Z.pow_lt_mono_r; lia]. }
  cbv zeta.
  rewrite (u32_small (2 ^ k)) by lia.
  rewrite (u32_small (2 ^ k - 1)) by lia.
  rewrite (u32_small (x + (2 ^ k - 1))) by lia.
  unfold u32 at 1. rewrite <- (Z.land_ones _ 32) by lia.
  rewrite Z.land_assoc, (Z.land_comm _ (Z.lnot _)), <- Z.land_assoc.
  rewrite Z.land_ones by lia.
  rewrite (Z.mod_small (x + (2 ^ k - 1))) by lia.
  rewrite Z.land_comm.
  replace (2 ^ k - 1) with (Z.ones k) by (rewrite Z.ones_equiv; lia).
  rewrite land_lnot_ones by lia.
  rewrite Z.ones_equiv. do 2 f_equal. lia.
Qed.

(** ** Buffer size by format kind *)

(** The same case analysis as the specification's [bufferSizeFor], on the
    machine integers of the code. *)
Lemma get_sizeimage_cases (bpl width height : Z) (fmt : bcm2835_codec_fmt) :
  get_sizeimage bpl width height fmt =
    if is_compressed fmt then
      if fourcc fmt =? V4L2_PIX_FMT_JPEG then 4096 * 1024
      else if mul_int width height >? 1280 * 720 then 768 * 1024
      else 512 * 1024
    else if fourcc fmt =? V4L2_PIX_FMT_NV12_COL128 then
      u32 (mul_int (ALIGN_int width 128) bpl)
    else
      u32 (shr_int (mul_int (mul_int bpl height) (size_multiplier_x2 fmt)) 1).
Proof.
  unfold get_sizeimage.
  destruct (is_compressed fmt).
  - destruct (fourcc fmt =? V4L2_PIX_FMT_JPEG); [reflexivity|].
    change (mul_int 1280 720) with (1280 * 720).
    destruct (mul_int width height >? 1280 * 720); reflexivity.
  - destruct (fourcc fmt =? V4L2_PIX_FMT_NV12_COL128); reflexivity.
Qed.





(** ** Stride by format kind *)

Lemma get_bytesperline_exact (width height : Z) (fmt : bcm2835_codec_fmt)
  (role : bcm2835_codec_role) :
  stride_fits width height fmt role ->
  get_bytesperline width height fmt role = strideFor width height fmt role.
Proof.
  intros (Hw & Hh & Hd & Hwd & Hh3 & Ha).
  unfold get_bytesperline, strideFor.
  destruct (fourcc fmt =? V4L2_PIX_FMT_NV12_COL128); cbn [negb].
  - rewrite mul_int_small by lia. rewrite shr_int_div by lia.
    change (2 ^ 1) with 2. apply u32_small.
    pose proof (Z.div_pos (height * 3) 2).
    pose proof (Z.div_le_upper_bound (height * 3) 2 (2 ^ 31)). lia.
  - rewrite mul_int_small by nia. rewrite shr_int_div by lia.
    change (2 ^ 3) with 8.
    assert (0 <= width * depth fmt / 8) by (apply Z.div_pos; nia).
    destruct Ha as [Z0 | (k & Hk & Ek & Hfit)].
    + rewrite Z0, ALIGN_int_zero. unfold alignUp. reflexivity.
    + rewrite Ek. rewrite ALIGN_int_pow2 by lia.
      assert (0 < 2 ^ k) by (apply Z.pow_pos_nonneg; lia).
      pose proof (alignUp_bounds (width * depth fmt / 8) (2 ^ k)).
      apply u32_small. lia.
Qed.

(** C4.  [get_bytesperline] for every width, height, descriptor and role:
    [ALIGN((width * depth) >> 3, bytesperline_align[role])] for every format
    but NV12_COL128, and [(height * 3) >> 1] whatever the width for
    NV12_COL128.  The arithmetic is that of the code; the last conjunct
    says that, where it does not overflow and the alignment is zero or a
    power of two, the result is the specification's [strideFor]. *)
Theorem get_bytesperline_by_format_kind
  (width height : Z) (fmt : bcm2835_codec_fmt) (role : bcm2835_codec_role) :
  (fourcc fmt <> V4L2_PIX_FMT_NV12_COL128 ->
   get_bytesperline width height fmt role =
     u32 (ALIGN_int (shr_int (mul_int width (depth fmt)) 3)
                    (bytesperline_align_at fmt role))) /\
  (fourcc fmt = V4L2_PIX_FMT_NV12_COL128 ->
   forall any_width : Z,
   get_bytesperline any_width height fmt role =
     u32 (shr_int (mul_int height 3) 1)) /\
  (stride_fits width height fmt role ->
   get_bytesperline width height fmt role = strideFor width height fmt role).
Proof.
  split; [|split].
  - intros N. unfold get_bytesperline.
    apply Z.eqb_neq in N. rewrite N. reflexivity.
  - intros N w. unfold get_bytesperline.
    apply Z.eqb_eq in N. rewrite N. reflexivity.
  - apply get_bytesperline_exact.
Qed.

Lemma get_bytesperline_by_format_kind_witness :
  get_bytesperline 1920 1080 fmt_YUV420 ENCODE = 1920 /\
  get_bytesperline 7 1088 fmt_NV12_COL128 DECODE = 1632 /\
  get_bytesperline 1000 1080 fmt_BGR32 ISP =
    strideFor 1000 1080 fmt_BGR32 ISP.
Proof.
  pose proof (get_bytesperline_by_format_kind 1920 1080 fmt_YUV420 ENCODE)
    as (A & _).
  pose proof (get_bytesperline_by_format_kind 0 1088 fmt_NV12_COL128 DECODE)
    as (_ & B & _).
  pose proof (get_bytesperline_by_format_kind 1000 1080 fmt_BGR32 ISP)
    as (_ & _ & C).
  split; [rewrite A; [vm_compute; reflexivity | vm_compute; discriminate]|].
  split; [rewrite B; [vm_compute; reflexivity | reflexivity]|].
  apply C. unfold stride_fits.
  split; [lia|]. split; [lia|].
  split; [vm_compute; discriminate|].
  split; [vm_compute; reflexivity|]. split; [lia|].
  right. exists 5. repeat split; vm_compute; congruence.
Defined.

(** ** Client buffer to accelerator header *)

Lemma has_flag_true (x flag : Z) :
  has_flag x flag = true <-> Z.land x flag <> 0.
Proof.
  unfold has_flag. rewrite negb_true_iff, Z.eqb_neq. reflexivity.
Qed.

Lemma s64_small (x : Z) : - 2 ^ 63 <= x < 2 ^ 63 -> s64 x = x.
Proof. intros H. unfold s64. rewrite Z.mod_small; lia. Qed.

(** C2.  The header built by [vb2_to_mmal_buffer] always has the frame-end
    flag; it has the end-of-stream flag exactly when the payload length is
    zero or the client set [V4L2_BUF_FLAG_LAST] (so also for a non-empty
    buffer marked last); its length is the payload length; and its
    presentation timestamp is the client's nanosecond timestamp divided by
    1000. *)
Theorem vb2_to_mmal_buffer_header
  (field_override : Z) (buf : mmal_buffer) (vb2 : vb2_v4l2_buffer) :
  let hdr := vb2_to_mmal_buffer field_override buf vb2 in
  has_flag (mmal_flags hdr) MMAL_BUFFER_HEADER_FLAG_FRAME_END = true /\
  (has_flag (mmal_flags hdr) MMAL_BUFFER_HEADER_FLAG_EOS = true <->
   planes0_bytesused vb2 = 0 \/
   has_flag (vb2_flags vb2) V4L2_BUF_FLAG_LAST = true) /\
  (0 < planes0_bytesused vb2 ->
   has_flag (vb2_flags vb2) V4L2_BUF_FLAG_LAST = true ->
   has_flag (mmal_flags hdr) MMAL_BUFFER_HEADER_FLAG_EOS = true) /\
  mmal_length hdr = planes0_bytesused vb2 /\
  (u64_range (vb2_timestamp vb2) -> pts hdr = vb2_timestamp vb2 / 1000).
Proof.
  cbv zeta. unfold vb2_to_mmal_buffer. cbn [mmal_flags mmal_length pts].
  set (kf := has_flag (vb2_flags vb2) V4L2_BUF_FLAG_KEYFRAME).
  set (lastf := has_flag (vb2_flags vb2) V4L2_BUF_FLAG_LAST).
  set (sel := if field_override =? 0 then vb2_field vb2
              else u32 field_override).
  assert (E : (planes0_bytesused vb2 =? 0) || lastf = true <->
              planes0_bytesused vb2 = 0 \/ lastf = true).
  { rewrite orb_true_iff, Z.eqb_eq. reflexivity. }
  split; [|split; [|split; [|split]]].
  - destruct kf, ((planes0_bytesused vb2 =? 0) || lastf),
      (sel =? V4L2_FIELD_INTERLACED_BT), (sel =? V4L2_FIELD_INTERLACED_TB);
      vm_compute; reflexivity.
  - rewrite <- E.
    destruct kf, ((planes0_bytesused vb2 =? 0) || lastf),
      (sel =? V4L2_FIELD_INTERLACED_BT), (sel =? V4L2_FIELD_INTERLACED_TB);
      vm_compute; split; congruence.
  - intros _ L. rewrite L, orb_true_r.
    destruct kf,
      (sel =? V4L2_FIELD_INTERLACED_BT), (sel =? V4L2_FIELD_INTERLACED_TB);
      vm_compute; reflexivity.
  - reflexivity.
  - intros [Lo Hi]. apply s64_small.
    pose proof (Z.div_pos (vb2_timestamp vb2) 1000).
    pose proof (Z.div_lt_upper_bound (vb2_timestamp vb2) 1000 (2 ^ 63)).
    lia.
Qed.

Lemma vb2_to_mmal_buffer_header_witness :
  let vb2 := mk_vb2_v4l2_buffer V4L2_BUF_FLAG_LAST V4L2_FIELD_NONE
               33366000 4096 in
  let hdr := vb2_to_mmal_buffer 0 (mk_mmal_buffer 0 0 0 0 0) vb2 in
  has_flag (mmal_flags hdr) MMAL_BUFFER_HEADER_FLAG_EOS = true /\
  pts hdr = 33366.
Proof.
  cbv zeta.
  pose proof (vb2_to_mmal_buffer_header 0 (mk_mmal_buffer 0 0 0 0 0)
                (mk_vb2_v4l2_buffer V4L2_BUF_FLAG_LAST V4L2_FIELD_NONE
                   33366000 4096)) as (_ & _ & L & _ & P).
  split.
  - apply L; [reflexivity | vm_compute; reflexivity].
  - rewrite P; [vm_compute; reflexivity | vm_compute; split; congruence].
Defined.

(** ** Try-format never fails *)

Lemma find_format_scan_Some (pix_fmt : Z) (fmts : list bcm2835_codec_fmt)
  (d : bcm2835_codec_fmt) :
  find_format_scan pix_fmt fmts = Some d -> In d fmts /\ fourcc d = pix_fmt.
Proof.
  induction fmts as [|e rest IH]; cbn [find_format_scan]; [discriminate|].
  destruct (fourcc e =? pix_fmt) eqn:E.
  - intros [= <-]. split; [left; reflexivity | apply Z.eqb_eq; exact E].
  - intros H. destruct (IH H) as [I F]. split; [right; exact I | exact F].
Qed.

Lemma find_format_scan_None (pix_fmt : Z) (fmts : list bcm2835_codec_fmt) :
  find_format_scan pix_fmt fmts = None -> ~ fourcc_supported pix_fmt fmts.
Proof.
  induction fmts as [|e rest IH]; cbn [find_format_scan].
  - intros _ (d & [] & _).
  - destruct (fourcc e =? pix_fmt) eqn:E; [discriminate|].
    intros H (d & [<- | I] & F).
    + apply Z.eqb_neq in E. contradiction.
    + apply (IH H). exists d. split; assumption.
Qed.

Lemma find_format_scan_head (e : bcm2835_codec_fmt)
  (rest : list bcm2835_codec_fmt) :
  find_format_scan (fourcc e) (e :: rest) = Some e.
Proof. cbn [find_format_scan]. rewrite Z.eqb_refl. reflexivity. Qed.

Lemma vidioc_try_fmt_returns (d : bcm2835_codec_dev) (f : v4l2_format)
  (fm : bcm2835_codec_fmt) :
  exists f', vidioc_try_fmt d f fm = (0, f') /\
             pix_mp_pixelformat f' = pix_mp_pixelformat f.
Proof. unfold vidioc_try_fmt. eexists. split; reflexivity. Qed.

Lemma try_fmt_outcome_found (d : bcm2835_codec_dev) (capture : bool)
  (f g : v4l2_format) (fm : bcm2835_codec_fmt) :
  pix_mp_pixelformat g = pix_mp_pixelformat f ->
  find_format f d capture = Some fm ->
  try_fmt_outcome (get_format_list d capture) f
    (Some (vidioc_try_fmt d g fm)).
Proof.
  intros G F. destruct (vidioc_try_fmt_returns d g fm) as (f' & -> & P).
  apply find_format_scan_Some in F. destruct F as [I E].
  exists f'. rewrite P, G. split; [reflexivity|]. split.
  - exists fm. split; assumption.
  - split; [reflexivity|]. intros N. exfalso. apply N.
    exists fm. split; assumption.
Qed.

Lemma try_fmt_outcome_default (d : bcm2835_codec_dev) (capture : bool)
  (f g : v4l2_format) (dflt : bcm2835_codec_fmt)
  (rest : list bcm2835_codec_fmt) :
  get_format_list d capture = dflt :: rest ->
  pix_mp_pixelformat g = fourcc dflt ->
  find_format f d capture = None ->
  try_fmt_outcome (get_format_list d capture) f
    (Some (vidioc_try_fmt d g dflt)).
Proof.
  intros L G F. destruct (vidioc_try_fmt_returns d g dflt) as (f' & -> & P).
  apply find_format_scan_None in F.
  exists f'. rewrite P, G, L. split; [reflexivity|]. split.
  - exists dflt. split; [left|]; reflexivity.
  - split; [|reflexivity]. intros S. rewrite L in F. contradiction.
Qed.

(** C10.  Try-format never fails.  On a direction with at least one
    supported format, [vidioc_try_fmt_vid_cap] and [vidioc_try_fmt_vid_out]
    return 0 for every request; a pixel format that is not in the
    direction's list is replaced by the first listed one, so the pixel
    format returned is always a supported one. *)
Theorem vidioc_try_fmt_never_fails (ctx : bcm2835_codec_ctx)
  (f : v4l2_format) :
  (get_format_list (dev ctx) true <> [] ->
   try_fmt_outcome (get_format_list (dev ctx) true) f
     (vidioc_try_fmt_vid_cap ctx f)) /\
  (get_format_list (dev ctx) false <> [] ->
   try_fmt_outcome (get_format_list (dev ctx) false) f
     (vidioc_try_fmt_vid_out ctx f)).
Proof.
  split; intros NE.
  - unfold vidioc_try_fmt_vid_cap.
    destruct (find_format f (dev ctx) true) as [fm|] eqn:F.
    + apply try_fmt_outcome_found; [reflexivity | exact F].
    + unfold get_default_format.
      destruct (get_format_list (dev ctx) true) as [|dflt rest] eqn:L;
        [contradiction|].
      cbn [hd_error]. unfold find_format, find_format_pix_fmt.
      cbn [pix_mp_pixelformat set_pixelformat]. rewrite L.
      rewrite find_format_scan_head. rewrite <- L.
      apply (try_fmt_outcome_default _ _ _ _ dflt rest);
        [exact L | reflexivity | exact F].
  - unfold vidioc_try_fmt_vid_out.
    destruct (find_format f (dev ctx) false) as [fm|] eqn:F.
    + apply try_fmt_outcome_found; [|exact F].
      destruct (pix_mp_colorspace f =? 0); reflexivity.
    + unfold get_default_format.
      destruct (get_format_list (dev ctx) false) as [|dflt rest] eqn:L;
        [contradiction|].
      cbn [hd_error]. unfold find_format, find_format_pix_fmt.
      cbn [pix_mp_pixelformat set_pixelformat]. rewrite L.
      rewrite find_format_scan_head. rewrite <- L.
      apply (try_fmt_outcome_default _ _ _ _ dflt rest);
        [exact L | | exact F].
      destruct (pix_mp_colorspace (set_pixelformat f (fourcc dflt)) =? 0);
        reflexivity.
Qed.

Lemma vidioc_try_fmt_never_fails_witness :
  let f := example_format V4L2_BUF_TYPE_VIDEO_CAPTURE_MPLANE
             V4L2_PIX_FMT_H264 640 480 0 in
  try_fmt_outcome [fmt_YUV420; fmt_NV12_COL128] f
    (vidioc_try_fmt_vid_cap example_ctx f) /\
  try_fmt_outcome [fmt_H264] f (vidioc_try_fmt_vid_out example_ctx f).
Proof.
  cbv zeta.
  pose proof (vidioc_try_fmt_never_fails example_ctx
                (example_format V4L2_BUF_TYPE_VIDEO_CAPTURE_MPLANE
                   V4L2_PIX_FMT_H264 640 480 0)) as [C O].
  split; [apply C | apply O]; discriminate.
Defined.

(** ** The catalog is well formed *)

Lemma supported_formats_wf (d : bcm2835_codec_fmt) :
  In d supported_formats -> fmt_wf d = true.
Proof.
  assert (A : forallb fmt_wf supported_formats = true)
    by (vm_compute; reflexivity).
  rewrite forallb_forall in A. apply A.
Qed.

Lemma fmt_H264_supported : In fmt_H264 supported_formats.
Proof. unfold supported_formats, fmt_H264. do 54 right. left. reflexivity. Qed.

Lemma fmt_YUV420_supported : In fmt_YUV420 supported_formats.
Proof. left. reflexivity. Qed.

Lemma fmt_BGR32_supported : In fmt_BGR32 supported_formats.
Proof. unfold supported_formats, fmt_BGR32. do 12 right. left. reflexivity. Qed.

Section DriverProperties.

Variable vchiq_mmal_port_disable :
  port_id -> vchiq_mmal_port -> Z * vchiq_mmal_port.
Variable vchiq_mmal_port_enable :
  port_id -> buffer_cb -> vchiq_mmal_port -> Z * vchiq_mmal_port.
Variable vchiq_mmal_port_set_format :
  port_id -> vchiq_mmal_port -> Z * vchiq_mmal_port.
Variable vchiq_mmal_component_enable : vchiq_mmal_component -> Z.
Variable vchiq_mmal_port_parameter_get_interlace :
  vchiq_mmal_port -> Z * mmal_interlace_type.
Variable HZ : Z.
Variable V4L2_MAP_XFER_FUNC_DEFAULT : Z -> Z.
Variable V4L2_MAP_YCBCR_ENC_DEFAULT : Z -> Z.
Variable V4L2_MAP_QUANTIZATION_DEFAULT : bool -> Z -> Z -> Z.

Local Abbreviation s_fmt :=
  (vidioc_s_fmt vchiq_mmal_port_disable vchiq_mmal_port_enable
     vchiq_mmal_port_set_format).
Local Abbreviation s_selection :=
  (vidioc_s_selection vchiq_mmal_port_set_format).
Local Abbreviation fmt_changed :=
  (handle_fmt_changed vchiq_mmal_port_parameter_get_interlace
     V4L2_MAP_XFER_FUNC_DEFAULT V4L2_MAP_YCBCR_ENC_DEFAULT
     V4L2_MAP_QUANTIZATION_DEFAULT).

(** *** Set-format on a busy queue *)

(** C5.  Set-format on a queue that has buffers allocated returns -EBUSY
    and changes nothing: the session, with the QueueState of both
    directions and the colorimetry fields, is the one it was given, and no
    call is made to the accelerator. *)
Theorem vidioc_s_fmt_busy (ctx : bcm2835_codec_ctx) (f : v4l2_format)
  (requested_height : Z) (qi : m2m_index) :
  get_q_data (fmt_type f) = Some qi ->
  0 < num_buffers (v4l2_m2m_get_vq ctx (fmt_type f)) ->
  s_fmt ctx f requested_height = Some (- EBUSY, ctx, []).
Proof.
  intros Q B. unfold vidioc_s_fmt. rewrite Q.
  unfold vb2_is_busy. apply Z.ltb_lt in B. rewrite B. reflexivity.
Qed.


(** *** Selection in the decode role *)

Lemma min_uint_min (a b : Z) : min_uint a b = Z.min a b.
Proof.
  unfold min_uint. destruct (a <? b) eqn:E.
  - apply Z.ltb_lt in E. lia.
  - apply Z.ltb_ge in E. lia.
Qed.

(** A descriptor of the catalog never makes the port set-up divide by
    zero. *)
Lemma setup_mmal_port_format_wf (ctx : bcm2835_codec_ctx)
  (q : bcm2835_codec_q_data) (port : vchiq_mmal_port) :
  fmt_wf (fmt q) = true ->
  exists p, setup_mmal_port_format ctx q port = Some p.
Proof.
  intros W. unfold setup_mmal_port_format. unfold fmt_wf in W.
  apply andb_true_iff in W. destruct W as [_ W].
  destruct (is_compressed (fmt q)); cbn [negb].
  - destruct (role (dev ctx)); eexists; reflexivity.
  - repeat (apply andb_true_iff in W; destruct W as [W ?]).
    assert (D : (u32 (depth (fmt q)) =? 0) = false).
    { apply Z.eqb_neq. rewrite u32_small; lia. }
    rewrite D.
    destruct (mmal_fmt (fmt q)); eexists; reflexivity.
Qed.

(** C9, as the code has it.  In the decode role, set-selection on the
    compose target of the capture buffer type returns a rectangle anchored
    at the origin whose width is clipped to [crop_width] and whose height is
    clipped to the buffer height [height] of the capture-side QueueState
    (not to [crop_height]); the clipped values become that QueueState's
    crop width and height, and [selection_set] is marked. *)
Theorem vidioc_s_selection_decode_compose (ctx : bcm2835_codec_ctx)
  (s : v4l2_selection) :
  role (dev ctx) = DECODE ->
  sel_type s = V4L2_BUF_TYPE_VIDEO_CAPTURE ->
  target s = V4L2_SEL_TGT_COMPOSE ->
  fmt_wf (fmt (q_data ctx V4L2_M2M_DST)) = true ->
  exists ret s' ctx' calls,
    s_selection ctx s = Some (ret, s', ctx', calls) /\
    r_left s' = 0 /\ r_top s' = 0 /\
    r_width s' = Z.min (r_width s) (crop_width (q_data ctx V4L2_M2M_DST)) /\
    r_height s' = Z.min (r_height s) (height (q_data ctx V4L2_M2M_DST)) /\
    crop_width (q_data ctx' V4L2_M2M_DST) = r_width s' /\
    crop_height (q_data ctx' V4L2_M2M_DST) = r_height s' /\
    selection_set (q_data ctx' V4L2_M2M_DST) = true /\
    q_data ctx' V4L2_M2M_SRC = q_data ctx V4L2_M2M_SRC.
Proof.
  intros R T G W. unfold vidioc_s_selection.
  rewrite R, T, G. cbn [role_eqb orb negb]. rewrite Z.eqb_refl. cbn [negb].
  unfold accept_selection. rewrite !min_uint_min.
  set (q := q_data ctx V4L2_M2M_DST) in *.
  set (q' := mk_q_data _ _ _ _ _ _ _ _ _ _ _).
  set (s' := mk_selection _ _ _ _ _ _).
  destruct (component ctx) as [c|] eqn:C.
  - assert (C' : component (set_q_data ctx V4L2_M2M_DST q') = Some c)
      by exact C.
    rewrite C'.
    destruct (setup_mmal_port_format_wf
                (set_q_data ctx V4L2_M2M_DST q') q' (port_of c OUTPUT_0))
      as (p & ->); [exact W|].
    destruct (vchiq_mmal_port_set_format OUTPUT_0 p) as [r p'].
    do 4 eexists. split; [reflexivity|].
    unfold put_port. rewrite C'.
    repeat split; reflexivity.
  - assert (C' : component (set_q_data ctx V4L2_M2M_DST q') = None)
      by exact C.
    rewrite C'. do 4 eexists. split; [reflexivity|].
    repeat split; reflexivity.
Qed.

(** *** Format-changed events *)

Lemma color_mmal2v4l_q_data (ctx : bcm2835_codec_ctx)
  (encoding : mmal_encoding) (color_space : Z) (i : m2m_index) :
  q_data (color_mmal2v4l V4L2_MAP_XFER_FUNC_DEFAULT
            V4L2_MAP_YCBCR_ENC_DEFAULT V4L2_MAP_QUANTIZATION_DEFAULT
            ctx encoding color_space) i = q_data ctx i.
Proof. destruct i; reflexivity. Qed.

(** What a video format-changed event leaves in the capture-side
    QueueState. *)
Lemma handle_fmt_changed_video (ctx : bcm2835_codec_ctx)
  (format : mmal_msg_event_format_changed) :
  ev_format_type format = MMAL_ES_TYPE_VIDEO ->
  let q := q_data ctx V4L2_M2M_DST in
  let q' := q_data (fst (fmt_changed ctx format)) V4L2_M2M_DST in
  crop_width q' = u32 (ev_video_crop_width format) /\
  crop_height q' = u32 (ev_video_crop_height format) /\
  selection_set q' = true /\
  bytesperline q' =
    get_bytesperline (s32 (ev_video_width format))
      (s32 (ev_video_height format)) (fmt q) (role (dev ctx)) /\
  height q' = ev_video_height format /\
  sizeimage q' = buffer_size_min format /\
  fmt q' = fmt q /\
  q_data (fst (fmt_changed ctx format)) V4L2_M2M_SRC =
    q_data ctx V4L2_M2M_SRC.
Proof.
  intros V. cbv zeta. unfold handle_fmt_changed. rewrite V.
  set (q1 := set_q_geometry _ _ _ _ _ _ _).
  set (ctx1 := set_q_data ctx V4L2_M2M_DST q1).
  set (ctx2 := if negb (ev_video_color_space format =? 0) then _ else ctx1).
  assert (Q2 : forall i, q_data ctx2 i = q_data ctx1 i).
  { intros i. subst ctx2.
    destruct (negb (ev_video_color_space format =? 0));
      [apply color_mmal2v4l_q_data | reflexivity]. }
  assert (C2 : component ctx2 = component ctx).
  { subst ctx2.
    destruct (negb (ev_video_color_space format =? 0)); reflexivity. }
  assert (S2 : cap_q ctx2 = cap_q ctx).
  { subst ctx2.
    destruct (negb (ev_video_color_space format =? 0)); reflexivity. }
  pose proof (Q2 V4L2_M2M_DST) as QD. pose proof (Q2 V4L2_M2M_SRC) as QS.
  cbn [q_data] in QD, QS.
  destruct (component ctx2) as [c|].
  - destruct (vchiq_mmal_port_parameter_get_interlace (output_0 c))
      as [ret mode].
    cbn [set_q_data cap_q]. rewrite S2.
    destruct (streaming (cap_q ctx));
      cbn [fst queue_res_chg_event v4l2_event_queue_fh set_cap_q q_data
           q_data_DST q_data_SRC set_q_data set_q_field set_q_aspect_ratio
           crop_width crop_height selection_set bytesperline height
           sizeimage fmt];
      rewrite QD, QS; repeat split; reflexivity.
  - cbn [set_q_data cap_q]. rewrite S2.
    destruct (streaming (cap_q ctx));
      cbn [fst queue_res_chg_event v4l2_event_queue_fh set_cap_q q_data
           q_data_DST q_data_SRC set_q_data set_q_field set_q_aspect_ratio
           crop_width crop_height selection_set bytesperline height
           sizeimage fmt];
      rewrite QD, QS; repeat split; reflexivity.
Qed.

(** Set-format on the capture queue with a raw format keeps the crop
    height once [selection_set] holds. *)
Lemma vidioc_s_fmt_keeps_crop_height (ctx : bcm2835_codec_ctx)
  (f : v4l2_format) (requested_height : Z) (fm : bcm2835_codec_fmt) :
  fmt_type f = V4L2_BUF_TYPE_VIDEO_CAPTURE_MPLANE ->
  find_format f (dev ctx) true = Some fm ->
  fmt_wf fm = true ->
  is_compressed fm = false ->
  selection_set (q_data ctx V4L2_M2M_DST) = true ->
  exists ret ctx' calls,
    s_fmt ctx f requested_height = Some (ret, ctx', calls) /\
    crop_height (q_data ctx' V4L2_M2M_DST) =
      crop_height (q_data ctx V4L2_M2M_DST) /\
    selection_set (q_data ctx' V4L2_M2M_DST) = true.
Proof.
  intros T F W R S. unfold vidioc_s_fmt. rewrite T.
  cbn [get_q_data is_capture_mplane].
  destruct (vb2_is_busy _).
  { do 3 eexists. split; [reflexivity|]. split; [reflexivity | exact S]. }
  rewrite F. rewrite R, S. cbn [negb orb andb].
  rewrite !andb_false_r. cbn [andb].
  set (q' := mk_q_data _ _ _ _ _ _ _ _ _ _ _).
  set (ctx1 := set_colorimetry _ _ _ _ _).
  unfold get_port_data.
  destruct (component ctx1) as [c|] eqn:C;
    [|do 3 eexists; split; [reflexivity|]; split; reflexivity].
  set (pre := if enabled (port_of c OUTPUT_0) then _ else _).
  destruct pre as [[port reenable] calls].
  destruct (setup_mmal_port_format_wf ctx1 (q_data ctx1 V4L2_M2M_DST) port)
    as (p & ->); [exact W|].
  destruct (vchiq_mmal_port_set_format OUTPUT_0 p) as [r p'].
  destruct reenable.
  - destruct (vchiq_mmal_port_enable OUTPUT_0 op_buffer_cb p') as [r2 p2].
    do 3 eexists. split; [reflexivity|].
    unfold put_port. rewrite C. split; reflexivity.
  - do 3 eexists. split; [reflexivity|].
    unfold put_port. rewrite C. split; reflexivity.
Qed.

(** C3.  A format-changed event that is not of video type leaves the
    session unchanged.  One of video type sets the capture-side
    QueueState's crop width and height from the event's crop, sets
    [selection_set], recomputes [bytesperline] with [get_bytesperline] from
    the event's width and height, and adopts the event's height and minimum
    buffer size.  A set-format call on the capture queue with a raw format
    that follows leaves that crop height in place. *)
Theorem handle_fmt_changed_then_s_fmt (ctx : bcm2835_codec_ctx)
  (format : mmal_msg_event_format_changed) :
  (ev_format_type format <> MMAL_ES_TYPE_VIDEO ->
   fmt_changed ctx format = (ctx, [])) /\
  (ev_format_type format = MMAL_ES_TYPE_VIDEO ->
   let q := q_data ctx V4L2_M2M_DST in
   let ctx1 := fst (fmt_changed ctx format) in
   let q1 := q_data ctx1 V4L2_M2M_DST in
   (crop_width q1 = u32 (ev_video_crop_width format) /\
    crop_height q1 = u32 (ev_video_crop_height format) /\
    selection_set q1 = true /\
    bytesperline q1 =
      get_bytesperline (s32 (ev_video_width format))
        (s32 (ev_video_height format)) (fmt q) (role (dev ctx)) /\
    height q1 = ev_video_height format /\
    sizeimage q1 = buffer_size_min format) /\
   forall (f : v4l2_format) (requested_height : Z)
          (fm : bcm2835_codec_fmt),
     fmt_type f = V4L2_BUF_TYPE_VIDEO_CAPTURE_MPLANE ->
     find_format f (dev ctx1) true = Some fm ->
     fmt_wf fm = true ->
     is_compressed fm = false ->
     exists ret ctx2 calls,
       s_fmt ctx1 f requested_height = Some (ret, ctx2, calls) /\
       crop_height (q_data ctx2 V4L2_M2M_DST) =
         u32 (ev_video_crop_height format)).
Proof.
  split.
  - intros N. unfold handle_fmt_changed.
    destruct (ev_format_type format); try reflexivity. contradiction.
  - intros V. cbv zeta.
    destruct (handle_fmt_changed_video ctx format V)
      as (CW & CH & SS & BPL & H & SZ & _ & _).
    split; [repeat split; assumption|].
    intros f rh fm T F W R.
    destruct (vidioc_s_fmt_keeps_crop_height _ f rh fm T F W R SS)
      as (ret & ctx2 & calls & E & K & _).
    exists ret, ctx2, calls. split; [exact E|]. rewrite K. exact CH.
Qed.

(** *** Start streaming: the port's buffer count *)

Local Abbreviation port_setup :=
  (start_streaming_port_setup vchiq_mmal_port_disable
     vchiq_mmal_port_set_format HZ).
Local Abbreviation start_streaming :=
  (bcm2835_codec_start_streaming vchiq_mmal_port_disable
     vchiq_mmal_port_enable vchiq_mmal_port_set_format
     vchiq_mmal_component_enable HZ).

Lemma add_uint_exact (count minimum : Z) :
  0 <= count -> 0 <= minimum -> Z.max count minimum + 1 < 2 ^ 32 ->
  add_uint (Z.max count minimum) 1 = Z.max count minimum + 1.
Proof. intros. unfold add_uint. apply u32_small. lia. Qed.

Lemma start_streaming_count_max (count minimum : Z) :
  (if count <? minimum then minimum else count) = Z.max count minimum.
Proof.
  destruct (count <? minimum) eqn:E.
  - apply Z.ltb_lt in E. lia.
  - apply Z.ltb_ge in E. lia.
Qed.

(** Lines 3173-3185: either the count is already enough and nothing is
    pushed, or it is raised to [count + 1] and the port is pushed once. *)
Lemma start_streaming_buffer_count_cases (pid : port_id)
  (port : vchiq_mmal_port) (count ret : Z) :
  let wanted := add_uint (Z.max count (minimum_buffer_num port)) 1 in
  let raised := set_current_buffer_num port wanted in
  (current_buffer_num port < wanted /\
   start_streaming_buffer_count vchiq_mmal_port_set_format pid port
     count ret =
     (fst (vchiq_mmal_port_set_format pid raised),
      snd (vchiq_mmal_port_set_format pid raised),
      [call_port_set_format pid raised])) \/
  (wanted <= current_buffer_num port /\
   start_streaming_buffer_count vchiq_mmal_port_set_format pid port
     count ret = (ret, port, [])).
Proof.
  cbv zeta. unfold start_streaming_buffer_count.
  rewrite start_streaming_count_max.
  destruct (current_buffer_num port <? _) eqn:E.
  - left. apply Z.ltb_lt in E. split; [exact E|].
    destruct (vchiq_mmal_port_set_format pid _); reflexivity.
  - right. apply Z.ltb_ge in E. split; [exact E | reflexivity].
Qed.

(** The port and the calls that lines 3145-3185 produce. *)
Lemma port_setup_result (pid : port_id) (port : vchiq_mmal_port)
  (count ret : Z) :
  let disabled := snd (vchiq_mmal_port_disable pid port) in
  let port1 :=
    if enabled port
    then set_current_buffer_num disabled (current_buffer_num port)
    else port in
  let wanted := add_uint (Z.max count (minimum_buffer_num port1)) 1 in
  let raised := set_current_buffer_num port1 wanted in
  let pre :=
    if enabled port
    then call_port_disable pid :: bcm2835_codec_flush_buffers HZ disabled
    else [] in
  exists r,
    port_setup pid port count ret =
      (r,
       if current_buffer_num port1 <? wanted
       then snd (vchiq_mmal_port_set_format pid raised) else port1,
       pre ++ (if current_buffer_num port1 <? wanted
               then [call_port_set_format pid raised] else [])).
Proof.
  cbv zeta. unfold start_streaming_port_setup, start_streaming_disable.
  destruct (enabled port).
  - destruct (vchiq_mmal_port_disable pid port) as [r0 d]. cbn [snd].
    destruct (start_streaming_buffer_count_cases pid
                (set_current_buffer_num d (current_buffer_num port))
                count r0) as [[L E] | [L E]]; cbv zeta in L, E; rewrite E.
    + apply Z.ltb_lt in L. rewrite L. eexists. reflexivity.
    + apply Z.ltb_ge in L. rewrite L. eexists. reflexivity.
  - destruct (start_streaming_buffer_count_cases pid port count ret)
      as [[L E] | [L E]]; cbv zeta in L, E; rewrite E.
    + apply Z.ltb_lt in L. rewrite L. eexists. reflexivity.
    + apply Z.ltb_ge in L. rewrite L. eexists. reflexivity.
Qed.

Lemma flush_buffers_calls (port : vchiq_mmal_port) :
  bcm2835_codec_flush_buffers HZ port =
    if buffers_with_vpu port =? 0 then []
    else [call_wait_for_completion_timeout (COMPLETE_TIMEOUT HZ)].
Proof.
  unfold bcm2835_codec_flush_buffers.
  destruct (buffers_with_vpu port =? 0); reflexivity.
Qed.

Lemma start_streaming_result_shape (r : Z) (ctx : bcm2835_codec_ctx)
  (all pre calls post : list mmal_call) :
  all = pre ++ calls ++ post ->
  Some (r, ctx, all) = Some (r, ctx, pre ++ calls ++ post).
Proof. intros ->. reflexivity. Qed.

Lemma list_shape0 (a b : list mmal_call) : a ++ b = a ++ b ++ [].
Proof. rewrite app_nil_r. reflexivity. Qed.

Lemma list_shape1 (a b c : list mmal_call) : (a ++ b) ++ c = a ++ b ++ c.
Proof. rewrite app_assoc. reflexivity. Qed.

Lemma list_shape2 (a b c d : list mmal_call) :
  ((a ++ b) ++ c) ++ d = a ++ b ++ c ++ d.
Proof. rewrite !app_assoc. reflexivity. Qed.

Ltac list_shape :=
  first [ apply list_shape2 | apply list_shape1 | apply list_shape0 ].

(** C6.  In start-streaming, a port found enabled is disabled first, its
    in-flight buffers are waited for with the bounded [COMPLETE_TIMEOUT],
    and the buffer count it had before the disable is put back.  The count
    the driver leaves configured is at least [max(count, minimum) + 1] (the
    [+ 1] being that of the code, on an [unsigned int]), and the port format
    is pushed exactly when the count had to be raised, with the raised
    count.  The last part carries this over to the whole call: the calls of
    the port set-up come before every port enable, and the port ends with a
    sufficient count whenever the accelerator hands the port back with the
    count it was given. *)
Theorem start_streaming_buffer_count_rules (pid : port_id)
  (port : vchiq_mmal_port) (count ret : Z) :
  let disabled := snd (vchiq_mmal_port_disable pid port) in
  let port1 :=
    if enabled port
    then set_current_buffer_num disabled (current_buffer_num port)
    else port in
  let wanted := add_uint (Z.max count (minimum_buffer_num port1)) 1 in
  let raised := set_current_buffer_num port1 wanted in
  let port2 := snd (fst (port_setup pid port count ret)) in
  let calls := snd (port_setup pid port count ret) in
  (* a port found enabled *)
  (enabled port = true ->
   current_buffer_num port1 = current_buffer_num port /\
   exists rest,
     calls =
       call_port_disable pid ::
       (if buffers_with_vpu disabled =? 0 then []
        else [call_wait_for_completion_timeout (COMPLETE_TIMEOUT HZ)])
       ++ rest) /\
  (enabled port = false ->
   forall x, In x calls -> x <> call_port_disable pid) /\
  (* the count left configured *)
  (0 <= count -> 0 <= minimum_buffer_num port1 ->
   Z.max count (minimum_buffer_num port1) + 1 < 2 ^ 32 ->
   wanted = Z.max count (minimum_buffer_num port1) + 1) /\
  (current_buffer_num port1 < wanted ->
   port2 = snd (vchiq_mmal_port_set_format pid raised) /\
   current_buffer_num raised = wanted) /\
  (wanted <= current_buffer_num port1 -> port2 = port1) /\
  (keeps_buffer_num (vchiq_mmal_port_set_format pid) ->
   wanted <= current_buffer_num port2) /\
  (* the format is pushed exactly when the count is raised *)
  ((exists pushed, In (call_port_set_format pid pushed) calls) <->
   current_buffer_num port1 < wanted) /\
  (forall pushed, In (call_port_set_format pid pushed) calls ->
   pushed = raised) /\
  (* the whole call *)
  (forall (ctx : bcm2835_codec_ctx) (q_type : v4l2_buf_type)
          (qi : m2m_index) (c : vchiq_mmal_component),
     get_q_data q_type = Some qi ->
     get_port_data ctx q_type = Some pid ->
     component ctx = Some c ->
     port_of c pid = port ->
     exists r ctx' c' pre post,
       start_streaming ctx q_type count =
         Some (r, ctx', pre ++ calls ++ post) /\
       (pre = [] \/ pre = [call_component_enable]) /\
       (forall x, In x post -> is_port_enable_call x) /\
       component ctx' = Some c' /\
       (keeps_buffer_num (vchiq_mmal_port_set_format pid) ->
        (forall cb, keeps_buffer_num (vchiq_mmal_port_enable pid cb)) ->
        wanted <= current_buffer_num (port_of c' pid))).
Proof.
  cbv zeta.
  destruct (port_setup_result pid port count ret) as (r & E).
  cbv zeta in E. rewrite E. cbn [fst snd]. clear E.
  set (disabled := snd (vchiq_mmal_port_disable pid port)).
  set (port1 := if enabled port then _ else port).
  set (wanted := add_uint (Z.max count (minimum_buffer_num port1)) 1).
  set (raised := set_current_buffer_num port1 wanted).
  split; [|split; [|split; [|split; [|split; [|split; [|split; [|split]]]]]]].
  - intros En. subst port1. rewrite En. split; [reflexivity|].
    rewrite flush_buffers_calls. eexists. cbn [app]. reflexivity.
  - intros En x I. rewrite En in I. cbn [app] in I.
    destruct (current_buffer_num port1 <? wanted); [|destruct I].
    destruct I as [<- | []]. discriminate.
  - intros. apply add_uint_exact; assumption.
  - intros L. apply Z.ltb_lt in L. rewrite L. split; reflexivity.
  - intros L. apply Z.ltb_ge in L. rewrite L. reflexivity.
  - intros K. destruct (current_buffer_num port1 <? wanted) eqn:L.
    + rewrite K. cbn. lia.
    + apply Z.ltb_ge in L. exact L.
  - split.
    + intros (pushed & I). apply in_app_or in I. destruct I as [I | I].
      * exfalso. destruct (enabled port); [|destruct I].
        destruct I as [I | I]; [discriminate|].
        rewrite flush_buffers_calls in I.
        destruct (buffers_with_vpu disabled =? 0); [destruct I|].
        destruct I as [I | []]. discriminate.
      * destruct (current_buffer_num port1 <? wanted) eqn:L;
          [apply Z.ltb_lt; exact L | destruct I].
    + intros L. apply Z.ltb_lt in L. rewrite L. exists raised.
      apply in_or_app. right. left. reflexivity.
  - intros pushed I. apply in_app_or in I. destruct I as [I | I].
    + exfalso. destruct (enabled port); [|destruct I].
      destruct I as [I | I]; [discriminate|].
      rewrite flush_buffers_calls in I.
      destruct (buffers_with_vpu disabled =? 0); [destruct I|].
      destruct I as [I | []]. discriminate.
    + destruct (current_buffer_num port1 <? wanted); [|destruct I].
      destruct I as [[= <-] | []]. reflexivity.
  - intros ctx q_type qi c Q P C PC.
    assert (B : keeps_buffer_num (vchiq_mmal_port_set_format pid) ->
                wanted <=
                current_buffer_num
                  (if current_buffer_num port1 <? wanted
                   then snd (vchiq_mmal_port_set_format pid raised)
                   else port1)).
    { intros K. destruct (current_buffer_num port1 <? wanted) eqn:L.
      - rewrite K. cbn. lia.
      - apply Z.ltb_ge in L. exact L. }
    set (port2 := if current_buffer_num port1 <? wanted then _ else port1)
      in *.
    set (calls := _ ++ (if current_buffer_num port1 <? wanted then _ else _)).
    unfold bcm2835_codec_start_streaming. rewrite Q, P, C, PC.
    assert (S : forall r0, exists r1,
               port_setup pid port count r0 = (r1, port2, calls)).
    { intros r0. exact (port_setup_result pid port count r0). }
    clearbody port2 calls.
    destruct q_type; try discriminate Q;
      unfold get_port_data in P; rewrite C in P; injection P as P;
      destruct (negb (component_enabled _));
      [ destruct (S (vchiq_mmal_component_enable c)) as (r1 & E1)
      | destruct (S 0) as (r1 & E1)
      | destruct (S (vchiq_mmal_component_enable c)) as (r1 & E1)
      | destruct (S 0) as (r1 & E1) ];
      rewrite E1; cbv beta iota zeta;
      destruct (role (dev _));
      repeat match goal with
             | |- context [negb (enabled ?p)] =>
                 destruct (negb (enabled p))
             end;
      repeat match goal with
             | |- context [vchiq_mmal_port_enable ?p ?cb ?x] =>
                 let En := fresh "En" in
                 destruct (vchiq_mmal_port_enable p cb x) as [? ?] eqn:En
             end.
    all: eexists _, _, _, _, _.
    all: split; [apply start_streaming_result_shape; list_shape|].
    all: split; [first [left; reflexivity | right; reflexivity]|].
    all: split;
      [intros x I;
       repeat (destruct I as [<- | I]; [eexists _, _; reflexivity|]);
       destruct I|].
    all: split; [reflexivity|].
    all: intros K1 K2; subst pid;
      repeat match goal with
             | En : vchiq_mmal_port_enable ?p ?cb ?x = (_, _) |- _ =>
                 try (let H := fresh "H" in
                      pose proof (K2 cb x) as H; rewrite En in H;
                      cbn [snd port_of set_port input_0 output_0] in H;
                      revert H);
                 clear En
             end;
      intros;
      cbn [port_of set_port input_0 output_0 component set_component];
      try match goal with
          | H : current_buffer_num _ = _ |- _ => rewrite H
          end;
      apply B; exact K1.
Qed.

End DriverProperties.
Lemma vidioc_s_fmt_busy_witness :
  vidioc_s_fmt example_port_disable example_port_enable
    example_port_set_format example_ctx_busy
    (example_format V4L2_BUF_TYPE_VIDEO_CAPTURE_MPLANE V4L2_PIX_FMT_YUV420
       640 480 0) 480
  = Some (- EBUSY, example_ctx_busy, []).
Proof.
  apply (vidioc_s_fmt_busy example_port_disable example_port_enable
           example_port_set_format example_ctx_busy _ 480 V4L2_M2M_DST).
  - reflexivity.
  - vm_compute. reflexivity.
Defined.

Lemma vidioc_s_selection_decode_compose_witness :
  exists ret s' ctx' calls,
    vidioc_s_selection example_port_set_format example_ctx_streaming
      (example_compose 4000 720) = Some (ret, s', ctx', calls) /\
    r_left s' = 0 /\ r_top s' = 0 /\
    r_width s' = Z.min 4000 1920 /\
    r_height s' = Z.min 720 1088 /\
    crop_width (q_data ctx' V4L2_M2M_DST) = r_width s' /\
    crop_height (q_data ctx' V4L2_M2M_DST) = r_height s' /\
    selection_set (q_data ctx' V4L2_M2M_DST) = true /\
    q_data ctx' V4L2_M2M_SRC = q_data example_ctx_streaming V4L2_M2M_SRC.
Proof.
  apply (vidioc_s_selection_decode_compose example_port_set_format
           example_ctx_streaming (example_compose 4000 720));
    reflexivity.
Defined.

(** C9 as stated fails on the height: with a 1920x1080 crop inside a
    1920x1088 buffer, a 1920x1088 compose request is accepted whole, and
    the crop height becomes 1088, above the crop height it was to be
    clipped to. *)
Lemma vidioc_s_selection_height_not_clipped_to_crop :
  crop_height (q_data example_ctx_1080p V4L2_M2M_DST) = 1080 /\
  exists ctx',
    vidioc_s_selection example_port_set_format example_ctx_1080p
      (example_compose 1920 1088) =
      Some (0, mk_selection V4L2_BUF_TYPE_VIDEO_CAPTURE V4L2_SEL_TGT_COMPOSE
                 0 0 1920 1088, ctx', []) /\
    crop_height (q_data ctx' V4L2_M2M_DST) = 1088 /\
    1088 <> Z.min 1088 1080.
Proof.
  split; [reflexivity|]. eexists. split; [vm_compute; reflexivity|].
  split; [reflexivity | vm_compute; congruence].
Qed.

Lemma handle_fmt_changed_then_s_fmt_witness :
  let ctx1 :=
    fst (handle_fmt_changed example_interlace (fun _ => 0) (fun _ => 0)
           (fun _ _ _ => 0) example_ctx_streaming example_format_changed) in
  exists ret ctx2 calls,
    vidioc_s_fmt example_port_disable example_port_enable
      example_port_set_format ctx1
      (example_format V4L2_BUF_TYPE_VIDEO_CAPTURE_MPLANE V4L2_PIX_FMT_YUV420
         1920 1088 1920) 1088 = Some (ret, ctx2, calls) /\
    crop_height (q_data ctx2 V4L2_M2M_DST) = u32 1080.
Proof.
  cbv zeta.
  destruct (handle_fmt_changed_then_s_fmt example_port_disable
              example_port_enable example_port_set_format example_interlace
              (fun _ => 0) (fun _ => 0) (fun _ _ _ => 0)
              example_ctx_streaming example_format_changed) as [_ V].
  destruct (V eq_refl) as [_ K].
  apply (K _ 1088 fmt_YUV420);
    [reflexivity | vm_compute; reflexivity | vm_compute; reflexivity
    | reflexivity].
Defined.

Lemma start_streaming_buffer_count_rules_witness :
  let setup :=
    start_streaming_port_setup example_port_disable example_port_set_format
      100 OUTPUT_0 (example_port true 1 3) 4 0 in
  Z.max 4 1 + 1 <= current_buffer_num (snd (fst setup)) /\
  exists rest, snd setup = call_port_disable OUTPUT_0 :: rest.
Proof.
  cbv zeta.
  pose proof (start_streaming_buffer_count_rules example_port_disable
                example_port_enable example_port_set_format
                (fun _ => 0) 100 OUTPUT_0 (example_port true 1 3) 4 0)
    as (A & _ & W & _ & _ & K & _).
  cbv zeta in A, W, K. split.
  - assert (Kw := K (fun p => eq_refl)).
    rewrite W in Kw;
      [exact Kw | lia | vm_compute; congruence | vm_compute; reflexivity].
  - destruct (A eq_refl) as (_ & rest & E). rewrite E.
    eexists. reflexivity.
Defined.

(** ** Monotonicity of stride-then-size within the device bounds *)

Lemma fmt_wf_raw (d : bcm2835_codec_fmt) (role : bcm2835_codec_role) :
  fmt_wf d = true -> is_compressed d = false ->
  1 <= depth d <= 32 /\
  (size_multiplier_x2 d = 2 \/ size_multiplier_x2 d = 3) /\
  depth d * size_multiplier_x2 d <= 64 /\
  (bytesperline_align_at d role = 2 ^ 5 \/
   bytesperline_align_at d role = 2 ^ 6).
Proof.
  unfold fmt_wf. intros W C. rewrite C in W.
  apply andb_true_iff in W. destruct W as [L W].
  apply andb_true_iff in W. destruct W as [W F].
  apply andb_true_iff in W. destruct W as [W DM].
  apply andb_true_iff in W. destruct W as [W M].
  apply andb_true_iff in W. destruct W as [D1 D2].
  apply Nat.eqb_eq in L.
  assert (A : (bytesperline_align_at d role =? 32)
              || (bytesperline_align_at d role =? 64) = true).
  { unfold bytesperline_align_at.
    rewrite forallb_forall in F. apply F.
    apply nth_In. rewrite L. destruct role; cbn; lia. }
  apply orb_true_iff in A. apply orb_true_iff in M.
  split; [lia|]. split; [|split; [lia|]].
  - destruct M as [E|E]; apply Z.eqb_eq in E; [left | right]; exact E.
  - destruct A as [E|E]; apply Z.eqb_eq in E; [left | right]; exact E.
Qed.

Lemma fmt_wf_compressed (d : bcm2835_codec_fmt)
  (role : bcm2835_codec_role) :
  fmt_wf d = true -> is_compressed d = true ->
  depth d = 0 /\ bytesperline_align_at d role = 0.
Proof.
  unfold fmt_wf. intros W C. rewrite C in W.
  apply andb_true_iff in W. destruct W as [L W].
  apply andb_true_iff in W. destruct W as [D F].
  apply Nat.eqb_eq in L. split; [lia|].
  apply Z.eqb_eq. unfold bytesperline_align_at.
  rewrite forallb_forall in F. apply (F (nth _ _ 0)).
  apply nth_In. rewrite L. destruct role; cbn; lia.
Qed.

Lemma half_of_int_product_spec (p : Z) :
  0 <= p <= 2 ^ 31 -> u32 (shr_int (s32 p) 1) = half_of_int_product p.
Proof.
  intros B. unfold half_of_int_product.
  destruct (p <? 2 ^ 31) eqn:E.
  - apply Z.ltb_lt in E. rewrite s32_small by lia.
    rewrite shr_int_div by lia. change (2 ^ 1) with 2.
    apply u32_small.
    pose proof (Z.div_pos p 2).
    pose proof (Z.div_lt_upper_bound p 2 (2 ^ 31)). lia.
  - apply Z.ltb_ge in E. assert (p = 2 ^ 31) as -> by lia.
    vm_compute. reflexivity.
Qed.

Lemma half_of_int_product_mono (p q : Z) :
  0 <= p <= q -> q <= 2 ^ 31 ->
  half_of_int_product p <= half_of_int_product q.
Proof.
  intros B Q. unfold half_of_int_product.
  destruct (p <? 2 ^ 31) eqn:E1; destruct (q <? 2 ^ 31) eqn:E2;
    try apply Z.ltb_lt in E1; try apply Z.ltb_ge in E1;
    try apply Z.ltb_lt in E2; try apply Z.ltb_ge in E2; try lia.
  - apply Z.div_le_mono; lia.
  - pose proof (Z.div_lt_upper_bound p 2 (2 ^ 31)). lia.
Qed.

(** The stride of a raw row-major format within the device bounds. *)
Lemma raw_stride_value (d : bcm2835_codec_fmt) (role : bcm2835_codec_role)
  (w h : Z) :
  fmt_wf d = true -> is_compressed d = false ->
  (fourcc d =? V4L2_PIX_FMT_NV12_COL128) = false ->
  0 <= w <= MAX_W_ISP ->
  get_bytesperline w h d role =
    alignUp (w * depth d / 8) (bytesperline_align_at d role) /\
  0 <= get_bytesperline w h d role <= 2048 * depth d.
Proof.
  intros W C N Bw. unfold MAX_W_ISP in Bw.
  destruct (fmt_wf_raw d role W C) as (D & _ & _ & A).
  unfold get_bytesperline. rewrite N. cbn [negb].
  rewrite mul_int_small by nia. rewrite shr_int_div by lia.
  change (2 ^ 3) with 8.
  assert (X0 : 0 <= w * depth d / 8) by (apply Z.div_pos; nia).
  assert (X1 : w * depth d / 8 <= 2048 * depth d).
  { apply Z.div_le_upper_bound; nia. }
  assert (U : forall k, 5 <= k <= 6 ->
            alignUp (w * depth d / 8) (2 ^ k) <= 2048 * depth d).
  { intros k Hk.
    assert (P : 0 < 2 ^ k) by (apply Z.pow_pos_nonneg; lia).
    rewrite <- (alignUp_fixed (2048 * depth d) (2 ^ k) P).
    - apply alignUp_mono; [exact P | exact X1].
    - assert (k = 5 \/ k = 6) as [-> | ->] by lia.
      + replace (2048 * depth d) with (depth d * 64 * 2 ^ 5) by lia.
        apply Z.mod_mul. lia.
      + replace (2048 * depth d) with (depth d * 32 * 2 ^ 6) by lia.
        apply Z.mod_mul. lia. }
  destruct A as [-> | ->].
  - pose proof (U 5 ltac:(lia)).
    pose proof (alignUp_bounds (w * depth d / 8) (2 ^ 5) ltac:(lia)).
    rewrite ALIGN_int_pow2 by lia. rewrite u32_small by lia. lia.
  - pose proof (U 6 ltac:(lia)).
    pose proof (alignUp_bounds (w * depth d / 8) (2 ^ 6) ltac:(lia)).
    rewrite ALIGN_int_pow2 by lia. rewrite u32_small by lia. lia.
Qed.

(** The stride of the column format within the device bounds. *)
Lemma col_stride_value (d : bcm2835_codec_fmt) (role : bcm2835_codec_role)
  (w h : Z) :
  (fourcc d =? V4L2_PIX_FMT_NV12_COL128) = true ->
  0 <= h <= MAX_H_ISP ->
  get_bytesperline w h d role = h * 3 / 2 /\
  0 <= get_bytesperline w h d role <= 24576.
Proof.
  intros N Bh. unfold MAX_H_ISP in Bh.
  unfold get_bytesperline. rewrite N. cbn [negb].
  rewrite mul_int_small by lia. rewrite shr_int_div by lia.
  change (2 ^ 1) with 2.
  pose proof (Z.div_pos (h * 3) 2).
  pose proof (Z.div_le_upper_bound (h * 3) 2 24576).
  rewrite u32_small by lia. lia.
Qed.

Lemma raw_size_value (d : bcm2835_codec_fmt) (bpl w h : Z) :
  fmt_wf d = true -> is_compressed d = false ->
  (fourcc d =? V4L2_PIX_FMT_NV12_COL128) = false ->
  0 <= bpl <= 2048 * depth d -> 0 <= h <= MAX_H_ISP ->
  get_sizeimage (s32 bpl) w h d =
    half_of_int_product (bpl * h * size_multiplier_x2 d) /\
  0 <= bpl * h * size_multiplier_x2 d <= 2 ^ 31.
Proof.
  intros W C N Bb Bh. unfold MAX_H_ISP in Bh.
  destruct (fmt_wf_raw d DECODE W C) as (D & M & DM & _).
  assert (P1 : 0 <= bpl * h <= 2 ^ 30) by nia.
  assert (P2 : 0 <= bpl * h * size_multiplier_x2 d <= 2 ^ 31).
  { assert (bpl * h <= 2048 * depth d * 16384) by nia.
    destruct M as [M | M]; rewrite M in *; lia. }
  split; [|exact P2].
  rewrite get_sizeimage_cases, C, N.
  rewrite (s32_small bpl) by lia.
  rewrite (mul_int_small bpl h) by lia.
  unfold mul_int. apply half_of_int_product_spec. exact P2.
Qed.

Lemma col_size_value (d : bcm2835_codec_fmt) (bpl w h : Z) :
  is_compressed d = false ->
  (fourcc d =? V4L2_PIX_FMT_NV12_COL128) = true ->
  0 <= bpl <= 24576 -> 0 <= w <= MAX_W_ISP ->
  get_sizeimage (s32 bpl) w h d = alignUp w 128 * bpl.
Proof.
  intros C N Bb Bw. unfold MAX_W_ISP in Bw.
  rewrite get_sizeimage_cases, C, N.
  rewrite (s32_small bpl) by lia.
  change 128 with (2 ^ 7). rewrite ALIGN_int_pow2 by lia.
  pose proof (alignUp_bounds w (2 ^ 7) ltac:(lia)).
  assert (alignUp w (2 ^ 7) <= 16384).
  { rewrite <- (alignUp_fixed 16384 (2 ^ 7)) by (vm_compute; reflexivity || lia).
    apply alignUp_mono; lia. }
  rewrite mul_int_small by nia. apply u32_small. nia.
Qed.

Lemma compressed_size_value (d : bcm2835_codec_fmt) (bpl w h : Z) :
  is_compressed d = true ->
  0 <= w <= MAX_W_ISP -> 0 <= h <= MAX_H_ISP ->
  get_sizeimage bpl w h d =
    if fourcc d =? V4L2_PIX_FMT_JPEG then 4096 * 1024
    else if w * h >? 1280 * 720 then 768 * 1024 else 512 * 1024.
Proof.
  intros C Bw Bh. unfold MAX_W_ISP in Bw. unfold MAX_H_ISP in Bh.
  rewrite get_sizeimage_cases, C. rewrite mul_int_small by nia.
  reflexivity.
Qed.

(** C7, within the device bounds.  For every descriptor of the catalog and
    every role, [get_bytesperline] followed by [get_sizeimage] is monotonic
    non-decreasing in width and height over the range to which the callers
    clamp them: for [0 <= w1 <= w2 <= 16384] and [0 <= h1 <= h2 <= 16384]
    the size at [(w1, h1)] is at most the size at [(w2, h2)]. *)
Theorem stride_then_size_monotone (fmt : bcm2835_codec_fmt)
  (role : bcm2835_codec_role) (w1 h1 w2 h2 : Z) :
  In fmt supported_formats ->
  0 <= w1 <= w2 -> w2 <= MAX_W_ISP ->
  0 <= h1 <= h2 -> h2 <= MAX_H_ISP ->
  stride_then_size w1 h1 fmt role <= stride_then_size w2 h2 fmt role.
Proof.
  intros I Bw Mw Bh Mh. apply supported_formats_wf in I.
  unfold stride_then_size.
  destruct (is_compressed fmt) eqn:C.
  - rewrite !compressed_size_value by (try exact C; lia).
    destruct (fourcc fmt =? V4L2_PIX_FMT_JPEG); [lia|].
    destruct (w1 * h1 >? 1280 * 720) eqn:E1;
      destruct (w2 * h2 >? 1280 * 720) eqn:E2; try lia.
    apply Z.gtb_lt in E1.
    assert (w2 * h2 <= 1280 * 720).
    { destruct (Z.gtb_spec (w2 * h2) (1280 * 720)); [discriminate | lia]. }
    nia.
  - destruct (fourcc fmt =? V4L2_PIX_FMT_NV12_COL128) eqn:N.
    + destruct (col_stride_value fmt role w1 h1 N ltac:(lia)) as (S1 & B1).
      destruct (col_stride_value fmt role w2 h2 N ltac:(lia)) as (S2 & B2).
      rewrite !col_size_value by (try assumption; lia).
      rewrite S1, S2. rewrite S1 in B1. rewrite S2 in B2.
      assert (h1 * 3 / 2 <= h2 * 3 / 2) by (apply Z.div_le_mono; lia).
      pose proof (alignUp_mono w1 w2 128 ltac:(lia) ltac:(lia)).
      pose proof (alignUp_bounds w1 128 ltac:(lia)).
      nia.
    + destruct (raw_stride_value fmt role w1 h1 I C N ltac:(lia))
        as (S1 & B1).
      destruct (raw_stride_value fmt role w2 h2 I C N ltac:(lia))
        as (S2 & B2).
      destruct (raw_size_value fmt _ w1 h1 I C N B1 ltac:(lia))
        as (V1 & P1).
      destruct (raw_size_value fmt _ w2 h2 I C N B2 ltac:(lia))
        as (V2 & P2).
      rewrite V1, V2.
      destruct (fmt_wf_raw fmt role I C) as (D & M & _ & A).
      assert (L : get_bytesperline w1 h1 fmt role <=
                  get_bytesperline w2 h2 fmt role).
      { rewrite S1, S2. apply alignUp_mono.
        - destruct A as [-> | ->]; lia.
        - apply Z.div_le_mono; [lia | nia]. }
      apply half_of_int_product_mono; [|lia].
      split; [lia|].
      assert (get_bytesperline w1 h1 fmt role * h1 <=
              get_bytesperline w2 h2 fmt role * h2) by nia.
      destruct M as [M | M]; rewrite M; lia.
Qed.

Lemma stride_then_size_monotone_witness :
  stride_then_size 1280 720 fmt_BGR32 ISP <=
  stride_then_size 16384 16384 fmt_BGR32 ISP.
Proof.
  apply stride_then_size_monotone.
  - exact fmt_BGR32_supported.
  - lia.
  - unfold MAX_W_ISP. lia.
  - lia.
  - unfold MAX_H_ISP. lia.
Defined.

(** The claim as stated, for all widths and heights, does not hold: the
    tier test of a compressed format is made on the wrapped product, and
    on a negative one. *)
Lemma stride_then_size_not_monotone :
  (1281 <= 65536 /\ 720 <= 65536 /\
   stride_then_size 65536 65536 fmt_H264 DECODE <
   stride_then_size 1281 720 fmt_H264 DECODE) /\
  (-2000 <= 0 /\
   stride_then_size 0 0 fmt_H264 DECODE <
   stride_then_size (-2000) (-2000) fmt_H264 DECODE).
Proof. vm_compute. repeat split; congruence. Qed.

(** ** Try-format applied twice *)

Lemma vidioc_try_fmt_fields (d : bcm2835_codec_dev) (f : v4l2_format)
  (fm : bcm2835_codec_fmt) :
  let w := try_fmt_width d fm (pix_mp_width f) in
  let h := try_fmt_height d fm (pix_mp_height f) in
  let bpl := try_fmt_bytesperline d fm w h (plane_fmt0_bytesperline f) in
  vidioc_try_fmt d f fm =
    (0, mk_v4l2_format (fmt_type f) w h (pix_mp_pixelformat f)
          (if role_eqb (role d) DECODE || role_eqb (role d) DEINTERLACE
           then try_fmt_field (pix_mp_field f) else V4L2_FIELD_NONE)
          (pix_mp_colorspace f)
          (try_fmt_sizeimage fm w h bpl (plane_fmt0_sizeimage f))
          bpl (repeat 0 (length (plane_fmt0_reserved f))) 1
          (pix_mp_ycbcr_enc f) (pix_mp_quantization f)
          (pix_mp_xfer_func f)).
Proof. reflexivity. Qed.

Lemma try_fmt_field_idempotent (fld : Z) :
  try_fmt_field (try_fmt_field fld) = try_fmt_field fld.
Proof.
  assert (Fix : forall v,
            In v [V4L2_FIELD_INTERLACED; V4L2_FIELD_INTERLACED_TB;
                  V4L2_FIELD_INTERLACED_BT; V4L2_FIELD_NONE] ->
            try_fmt_field v = v).
  { intros v [<- | [<- | [<- | [<- | []]]]]; reflexivity. }
  apply Fix. unfold try_fmt_field.
  destruct (fld =? V4L2_FIELD_INTERLACED); [left; reflexivity|].
  destruct ((fld =? V4L2_FIELD_TOP) || (fld =? V4L2_FIELD_BOTTOM)
            || (fld =? V4L2_FIELD_INTERLACED_TB));
    [right; left; reflexivity|].
  destruct (fld =? V4L2_FIELD_INTERLACED_BT);
    [do 2 right; left | do 3 right; left]; reflexivity.
Qed.

Lemma try_fmt_width_idempotent (d : bcm2835_codec_dev)
  (fm : bcm2835_codec_fmt) (w : Z) :
  try_fmt_width d fm (try_fmt_width d fm w) = try_fmt_width d fm w.
Proof.
  unfold try_fmt_width, MIN_W. cbv zeta.
  destruct (negb (is_compressed fm)); cbn [andb];
    repeat match goal with
           | |- context [?a >? ?b] => destruct (Z.gtb_spec a b)
           | |- context [?a <? ?b] => destruct (Z.ltb_spec a b)
           end; lia.
Qed.

Lemma try_fmt_width_bounds (d : bcm2835_codec_dev)
  (fm : bcm2835_codec_fmt) (w : Z) :
  0 <= w -> 0 <= max_w d <= MAX_W_ISP ->
  0 <= try_fmt_width d fm w <= MAX_W_ISP.
Proof.
  unfold try_fmt_width, MIN_W, MAX_W_ISP. cbv zeta. intros.
  destruct (negb (is_compressed fm)); cbn [andb];
    repeat match goal with
           | |- context [?a >? ?b] => destruct (Z.gtb_spec a b)
           | |- context [?a <? ?b] => destruct (Z.ltb_spec a b)
           end; lia.
Qed.

Lemma alignUp_stable (x y a : Z) :
  0 < a -> x <= y <= alignUp x a -> alignUp y a = alignUp x a.
Proof.
  intros A B. apply Z.le_antisymm.
  - rewrite <- (alignUp_fixed (alignUp x a) a A).
    + apply alignUp_mono; [exact A | lia].
    + apply alignUp_multiple. lia.
  - apply alignUp_mono; [exact A | lia].
Qed.

Lemma alignUp_16_bound (x : Z) : x <= MAX_H_ISP -> alignUp x 16 <= MAX_H_ISP.
Proof.
  intros B. unfold MAX_H_ISP in *.
  rewrite <- (alignUp_fixed 16384 16) by (lia || reflexivity).
  apply alignUp_mono; lia.
Qed.

Lemma try_fmt_height_bounds (d : bcm2835_codec_dev)
  (fm : bcm2835_codec_fmt) (h : Z) :
  0 <= h -> 0 <= max_h d <= MAX_H_ISP ->
  0 <= try_fmt_height d fm h <= MAX_H_ISP.
Proof.
  intros Hh Hm. unfold try_fmt_height, MIN_H. cbv zeta.
  set (c := if h >? max_h d then max_h d else h).
  assert (Bc : 0 <= c <= MAX_H_ISP).
  { subst c. destruct (Z.gtb_spec h (max_h d)); lia. }
  destruct (negb (is_compressed fm)); cbn [andb]; [|exact Bc].
  set (m := if c <? 32 then 32 else c).
  assert (Bm : 0 <= m <= MAX_H_ISP).
  { subst m. unfold MAX_H_ISP in *. destruct (c <? 32); lia. }
  destruct (role_eqb (role d) DECODE || role_eqb (role d) ENCODE_IMAGE);
    [|exact Bm].
  pose proof (alignUp_16_bound m (proj2 Bm)) as Bb.
  unfold MAX_H_ISP in *.
  change 16 with (2 ^ 4) in *. rewrite ALIGN_uint_pow2 by lia.
  pose proof (alignUp_bounds m (2 ^ 4) ltac:(lia)).
  lia.
Qed.

Lemma try_fmt_height_idempotent (d : bcm2835_codec_dev)
  (fm : bcm2835_codec_fmt) (h : Z) :
  0 <= h -> 0 <= max_h d <= MAX_H_ISP ->
  try_fmt_height d fm (try_fmt_height d fm h) = try_fmt_height d fm h.
Proof.
  intros Hh Hm. unfold try_fmt_height, MIN_H, MAX_H_ISP in *. cbv zeta.
  destruct (negb (is_compressed fm)); cbn [andb].
  - destruct (role_eqb (role d) DECODE || role_eqb (role d) ENCODE_IMAGE).
    + set (x := if (if h >? max_h d then max_h d else h) <? 32 then 32
                else if h >? max_h d then max_h d else h).
      assert (Bx : 32 <= x <= 16384 \/ (x = 32)).
      { subst x. destruct (Z.gtb_spec h (max_h d));
          destruct (Z.ltb_spec (max_h d) 32);
          destruct (Z.ltb_spec h 32); lia. }
      assert (Ux : 32 <= x <= 16384) by lia. clear Bx.
      change 16 with (2 ^ 4). rewrite (ALIGN_uint_pow2 x) by lia.
      pose proof (alignUp_bounds x (2 ^ 4) ltac:(lia)) as Ba.
      pose proof (alignUp_16_bound x) as Bb. unfold MAX_H_ISP in Bb.
      change 16 with (2 ^ 4) in Bb.
      set (y := alignUp x (2 ^ 4)) in *.
      set (x' := if (if y >? max_h d then max_h d else y) <? 32 then 32
                 else if y >? max_h d then max_h d else y).
      assert (Bx' : x <= x' <= y).
      { subst x' x. destruct (Z.gtb_spec y (max_h d));
          destruct (Z.gtb_spec h (max_h d));
          destruct (Z.ltb_spec (max_h d) 32);
          destruct (Z.ltb_spec h 32);
          destruct (Z.ltb_spec y 32); lia. }
      rewrite (ALIGN_uint_pow2 x') by lia.
      apply alignUp_stable; [lia | exact Bx'].
    + repeat match goal with
             | |- context [?a >? ?b] => destruct (Z.gtb_spec a b)
             | |- context [?a <? ?b] => destruct (Z.ltb_spec a b)
             end; lia.
  - repeat match goal with
           | |- context [?a >? ?b] => destruct (Z.gtb_spec a b)
           end; lia.
Qed.

Lemma try_fmt_sizeimage_idempotent (fm : bcm2835_codec_fmt)
  (w h bpl size : Z) :
  try_fmt_sizeimage fm w h bpl (try_fmt_sizeimage fm w h bpl size) =
  try_fmt_sizeimage fm w h bpl size.
Proof.
  unfold try_fmt_sizeimage. cbv zeta.
  destruct (negb (is_compressed fm)); cbn [orb]; [reflexivity|].
  set (c := get_sizeimage _ _ _ _).
  destruct (Z.ltb_spec size c).
  - rewrite Z.ltb_irrefl. reflexivity.
  - destruct (Z.ltb_spec size c); [lia | reflexivity].
Qed.

Lemma min_stride_bounds (fm : bcm2835_codec_fmt)
  (role : bcm2835_codec_role) (w h : Z) :
  fmt_wf fm = true -> is_compressed fm = false ->
  0 <= w <= MAX_W_ISP -> 0 <= h <= MAX_H_ISP ->
  0 <= get_bytesperline w h fm role <= 65536.
Proof.
  intros W C Bw Bh.
  destruct (fourcc fm =? V4L2_PIX_FMT_NV12_COL128) eqn:N.
  - destruct (col_stride_value fm role w h N Bh) as (_ & B). lia.
  - destruct (raw_stride_value fm role w h W C N Bw) as (_ & B).
    destruct (fmt_wf_raw fm role W C) as (D & _). lia.
Qed.

(** The stride is a fixed point of the raise-and-align step as long as the
    alignment does not wrap. *)
Lemma try_fmt_bytesperline_idempotent (d : bcm2835_codec_dev)
  (fm : bcm2835_codec_fmt) (w h bpl : Z) :
  fmt_wf fm = true ->
  0 <= w <= MAX_W_ISP -> 0 <= h <= MAX_H_ISP ->
  0 <= bpl -> bpl + 64 <= 2 ^ 32 ->
  try_fmt_bytesperline d fm w h (try_fmt_bytesperline d fm w h bpl) =
  try_fmt_bytesperline d fm w h bpl.
Proof.
  intros W Bw Bh B0 B1. unfold try_fmt_bytesperline. cbv zeta.
  destruct (is_compressed fm) eqn:C.
  - destruct (fmt_wf_compressed fm (role d) W C) as (_ & ->).
    rewrite !ALIGN_uint_zero. reflexivity.
  - unfold MAX_W_ISP in Bw. unfold MAX_H_ISP in Bh.
    rewrite (s32_small w), (s32_small h) by lia.
    pose proof (min_stride_bounds fm (role d) w h W C Bw Bh) as Bm.
    set (m := get_bytesperline w h fm (role d)) in *.
    set (x := if bpl <? m then m else bpl).
    assert (Bx : m <= x /\ 0 <= x <= 2 ^ 32 - 64).
    { subst x. destruct (Z.ltb_spec bpl m); lia. }
    destruct (fmt_wf_raw fm (role d) W C) as (_ & _ & _ & A).
    assert (K : exists k, 5 <= k <= 6 /\
                          bytesperline_align_at fm (role d) = 2 ^ k).
    { destruct A as [E | E]; [exists 5 | exists 6]; split; (lia || exact E). }
    destruct K as (k & Hk & ->).
    assert (Pk : 0 < 2 ^ k <= 64).
    { assert (k = 5 \/ k = 6) as [-> | ->] by lia; lia. }
    rewrite (ALIGN_uint_pow2 x) by lia.
    pose proof (alignUp_bounds x (2 ^ k) ltac:(lia)) as Ba.
    assert (Bt : alignUp x (2 ^ k) <= 2 ^ 32 - 64).
    { rewrite <- (alignUp_fixed (2 ^ 32 - 64) (2 ^ k)) by
        (try lia; assert (k = 5 \/ k = 6) as [-> | ->] by lia; reflexivity).
      apply alignUp_mono; lia. }
    set (b := alignUp x (2 ^ k)) in *.
    destruct (Z.ltb_spec b m); [lia|].
    rewrite ALIGN_uint_pow2 by lia.
    apply alignUp_fixed; [lia|]. apply alignUp_multiple. lia.
Qed.

(** Try-format is idempotent on every request whose stride leaves room for
    the alignment below [2^32], on a device with the bounds of one of the
    five roles. *)
Lemma vidioc_try_fmt_idempotent_without_wrap (d : bcm2835_codec_dev)
  (f : v4l2_format) (fm : bcm2835_codec_fmt) :
  fmt_wf fm = true ->
  0 <= max_w d <= MAX_W_ISP -> 0 <= max_h d <= MAX_H_ISP ->
  0 <= pix_mp_width f -> 0 <= pix_mp_height f ->
  0 <= plane_fmt0_bytesperline f ->
  plane_fmt0_bytesperline f + 64 <= 2 ^ 32 ->
  vidioc_try_fmt d (snd (vidioc_try_fmt d f fm)) fm =
  vidioc_try_fmt d f fm.
Proof.
  intros W Mw Mh Bw Bh B0 B1.
  rewrite (vidioc_try_fmt_fields d f fm). cbv zeta. cbn [snd].
  rewrite vidioc_try_fmt_fields. cbv zeta.
  cbn [fmt_type pix_mp_width pix_mp_height pix_mp_pixelformat pix_mp_field
       pix_mp_colorspace plane_fmt0_sizeimage plane_fmt0_bytesperline
       plane_fmt0_reserved pix_mp_num_planes pix_mp_ycbcr_enc
       pix_mp_quantization pix_mp_xfer_func].
  rewrite try_fmt_width_idempotent.
  rewrite try_fmt_height_idempotent by assumption.
  pose proof (try_fmt_width_bounds d fm (pix_mp_width f) Bw Mw) as Rw.
  pose proof (try_fmt_height_bounds d fm (pix_mp_height f) Bh Mh) as Rh.
  rewrite try_fmt_bytesperline_idempotent by assumption.
  rewrite try_fmt_sizeimage_idempotent.
  rewrite repeat_length.
  destruct (role_eqb (role d) DECODE || role_eqb (role d) DEINTERLACE);
    [rewrite try_fmt_field_idempotent|]; reflexivity.
Qed.

(** C8 at the failing request.  On the ISP with the YUV420 descriptor, a
    640x480 request carrying the stride [0xFFFFFFFF] comes back with stride
    0 and size 0, the alignment having wrapped; trying that result again
    gives stride 640 and size 460800.  The second application changes the
    result. *)
Theorem vidioc_try_fmt_not_idempotent :
  let f := example_format V4L2_BUF_TYPE_VIDEO_CAPTURE_MPLANE
             V4L2_PIX_FMT_YUV420 640 480 0xFFFFFFFF in
  let f1 := snd (vidioc_try_fmt example_isp f fmt_YUV420) in
  let f2 := snd (vidioc_try_fmt example_isp f1 fmt_YUV420) in
  In fmt_YUV420 supported_formats /\
  plane_fmt0_bytesperline f1 = 0 /\ plane_fmt0_sizeimage f1 = 0 /\
  plane_fmt0_bytesperline f2 = 640 /\ plane_fmt0_sizeimage f2 = 460800 /\
  get_bytesperline 640 480 fmt_YUV420 ISP = 640 /\
  f2 <> f1.
Proof.
  cbv zeta. split; [exact fmt_YUV420_supported|].
  vm_compute. repeat split; congruence.
Qed.

(** * Properties of the further entry points *)

(** ** The format lists of a device *)

Lemma get_fmt_scan_Some (disable_bayer : bool) (mmal : mmal_encoding)
  (table : list bcm2835_codec_fmt) (d : bcm2835_codec_fmt) :
  get_fmt_scan disable_bayer mmal table = Some d ->
  In d table /\ mmal_fmt d = mmal /\
  (disable_bayer = true -> is_bayer d = false).
Proof.
  induction table as [|e rest IH]; cbn [get_fmt_scan]; [discriminate|].
  destruct (mmal_encoding_beq (mmal_fmt e) mmal
            && (negb disable_bayer || negb (is_bayer e))) eqn:E.
  - intros [= <-]. apply andb_true_iff in E. destruct E as [E1 E2].
    split; [left; reflexivity|]. split.
    + apply internal_mmal_encoding_dec_bl. exact E1.
    + intros ->. cbn [negb orb] in E2. apply negb_true_iff. exact E2.
  - intros H. destruct (IH H) as (I & M & B).
    split; [right; exact I|]. split; assumption.
Qed.

Lemma copy_known_formats_In (disable_bayer : bool)
  (slots : list mmal_encoding) (d : bcm2835_codec_fmt) :
  In d (copy_known_formats disable_bayer slots) ->
  In d supported_formats /\ In (mmal_fmt d) slots /\
  (disable_bayer = true -> is_bayer d = false).
Proof.
  induction slots as [|e rest IH]; cbn [copy_known_formats]; [intros []|].
  destruct (get_fmt disable_bayer e) as [x|] eqn:G.
  - intros [<- | I].
    + destruct (get_fmt_scan_Some _ _ _ _ G) as (I & M & B).
      split; [exact I|]. split; [left; symmetry; exact M | exact B].
    + destruct (IH I) as (I1 & I2 & B).
      split; [exact I1|]. split; [right; exact I2 | exact B].
  - intros I. destruct (IH I) as (I1 & I2 & B).
    split; [exact I1|]. split; [right; exact I2 | exact B].
Qed.

Lemma copy_known_formats_length (disable_bayer : bool)
  (slots : list mmal_encoding) :
  (length (copy_known_formats disable_bayer slots) <= length slots)%nat.
Proof.
  induction slots as [|e rest IH]; cbn [copy_known_formats length];
    [lia|].
  destruct (get_fmt disable_bayer e); cbn [length]; lia.
Qed.

Lemma firstn_incl (A : Type) (n : nat) (l : list A) (x : A) :
  In x (firstn n l) -> In x l.
Proof.
  revert l. induction n as [|n IH]; intros [|a l]; cbn [firstn In];
    try contradiction.
  intros [<- | I]; [left; reflexivity | right; apply IH; exact I].
Qed.

Lemma port_format_list_sound (disable_bayer : bool)
  (r : supported_encodings) (n : Z) (l : list bcm2835_codec_fmt) :
  port_format_list disable_bayer r n = Some l ->
  (length l <= length (fourccs r))%nat /\
  forall e, In e l ->
    In e supported_formats /\ fmt_wf e = true /\
    In (mmal_fmt e) (fourccs r) /\
    (disable_bayer = true -> is_bayer e = false).
Proof.
  unfold port_format_list.
  destruct (Z.of_nat (length (fourccs r)) <? n); [discriminate|].
  intros [= <-]. split.
  - pose proof (copy_known_formats_length disable_bayer
                  (firstn (Z.to_nat n) (fourccs r))).
    rewrite length_firstn in H. lia.
  - intros e I. destruct (copy_known_formats_In _ _ _ I) as (I1 & I2 & B).
    split; [exact I1|]. split; [apply supported_formats_wf; exact I1|].
    split; [apply firstn_incl in I2; exact I2 | exact B].
Qed.

(** X1.  When [bcm2835_codec_get_supported_fmts] succeeds, both lists of
    the device hold only descriptors of the static table (which are
    therefore well formed), each carrying an MMAL encoding the respective
    port reported; neither list is longer than the array of reported
    encodings; with [disable_bayer] set no listed descriptor is a Bayer
    one; role and size limits of the device are untouched. *)
Theorem get_supported_fmts_lists_from_catalog (disable_bayer : bool)
  (d d' : bcm2835_codec_dev) (component_init_ret : Z)
  (r0 r1 : supported_encodings) (a0 a1 : bool) :
  bcm2835_codec_get_supported_fmts disable_bayer d component_init_ret
    r0 a0 r1 a1 = Some (0, d') ->
  role d' = role d /\ max_w d' = max_w d /\ max_h d' = max_h d /\
  forall capture : bool,
    let r := if capture then r1 else r0 in
    (length (get_format_list d' capture) <= length (fourccs r))%nat /\
    forall e, In e (get_format_list d' capture) ->
      In e supported_formats /\ fmt_wf e = true /\
      In (mmal_fmt e) (fourccs r) /\
      (disable_bayer = true -> is_bayer e = false).
Proof.
  unfold bcm2835_codec_get_supported_fmts.
  destruct (component_init_ret <? 0); [intros [= E]; discriminate E|].
  destruct (num_encodings_of r0) as [n0|]; [|intros [= E]; discriminate E].
  destruct (negb a0); [intros [= E]; discriminate E|].
  destruct (port_format_list disable_bayer r0 n0) as [l0|] eqn:L0;
    [|discriminate].
  cbn [role supported_fmts_0 supported_fmts_1 max_w max_h].
  destruct (num_encodings_of r1) as [n1|]; [|intros [= E]; discriminate E].
  destruct (negb a1); [intros [= E]; discriminate E|].
  destruct (port_format_list disable_bayer r1 n1) as [l1|] eqn:L1;
    [|discriminate].
  intros [= <-]. cbn [role max_w max_h].
  split; [reflexivity|]. split; [reflexivity|]. split; [reflexivity|].
  intros [|]; cbv zeta; cbn [get_format_list supported_fmts_0
                              supported_fmts_1].
  - exact (port_format_list_sound _ _ _ _ L1).
  - exact (port_format_list_sound _ _ _ _ L0).
Qed.

Lemma get_supported_fmts_lists_from_catalog_witness :
  Forall (fun e => In e supported_formats /\ is_bayer e = false)
         (get_format_list example_probed_isp false).
Proof.
  apply Forall_forall. intros e I.
  assert (P : bcm2835_codec_get_supported_fmts true (mk_dev ISP [] [] 0 0)
                0 example_probe_input true example_probe_output true
              = Some (0, example_probed_isp))
    by (vm_compute; reflexivity).
  pose proof (get_supported_fmts_lists_from_catalog _ _ _ _ _ _ _ _ P)
    as (_ & _ & _ & K).
  destruct (K false) as (_ & Q). destruct (Q e I) as (A & _ & _ & B).
  split; [exact A | apply B; reflexivity].
Defined.

(** ** Enumeration against negotiation *)

Lemma find_format_scan_In (e : bcm2835_codec_fmt)
  (fmts : list bcm2835_codec_fmt) :
  In e fmts ->
  exists fm, find_format_scan (fourcc e) fmts = Some fm /\
             In fm fmts /\ fourcc fm = fourcc e.
Proof.
  intros I. destruct (find_format_scan (fourcc e) fmts) as [fm|] eqn:S.
  - exists fm. split; [reflexivity|].
    exact (find_format_scan_Some _ _ _ S).
  - exfalso. apply (find_format_scan_None _ _ S).
    exists e. split; [exact I | reflexivity].
Qed.

(** X2.  [enum_fmt] answers exactly the indices below the length of the
    direction's list: beyond it the call returns -EINVAL and leaves the
    descriptor alone; below it the call returns 0 with the fourcc and
    flags of the entry at that index, and try-format on the same
    direction keeps a request for that fourcc on it. *)
Theorem enum_fmt_then_try_fmt (ctx : bcm2835_codec_ctx) (f : v4l2_fmtdesc)
  (capture : bool) :
  0 <= fd_index f ->
  let fmts := get_format_list (dev ctx) capture in
  (Z.of_nat (length fmts) <= fd_index f ->
   enum_fmt f ctx capture = (- EINVAL, f)) /\
  (fd_index f < Z.of_nat (length fmts) ->
   exists e,
     nth_error fmts (Z.to_nat (fd_index f)) = Some e /\
     enum_fmt f ctx capture =
       (0, mk_fmtdesc (fd_index f) (flags e) (fourcc e)) /\
     forall g, pix_mp_pixelformat g = fourcc e ->
       exists g',
         (if capture then vidioc_try_fmt_vid_cap ctx g
          else vidioc_try_fmt_vid_out ctx g) = Some (0, g') /\
         pix_mp_pixelformat g' = fourcc e).
Proof.
  intros I0. cbv zeta. unfold enum_fmt. cbv zeta. split.
  - intros G. destruct (Z.ltb_spec (fd_index f)
      (Z.of_nat (length (get_format_list (dev ctx) capture))));
      [lia | reflexivity].
  - intros L.
    destruct (Z.ltb_spec (fd_index f)
      (Z.of_nat (length (get_format_list (dev ctx) capture)))); [|lia].
    destruct (nth_error (get_format_list (dev ctx) capture)
                (Z.to_nat (fd_index f))) as [e|] eqn:N.
    + exists e. split; [reflexivity|]. split; [reflexivity|].
      intros g G. apply nth_error_In in N.
      destruct (find_format_scan_In e _ N) as (fm & S & _ & F).
      destruct capture.
      * unfold vidioc_try_fmt_vid_cap, find_format, find_format_pix_fmt.
        rewrite G, S.
        destruct (vidioc_try_fmt_returns (dev ctx) g fm) as (g' & -> & P).
        exists g'. split; [reflexivity | congruence].
      * unfold vidioc_try_fmt_vid_out, find_format, find_format_pix_fmt.
        rewrite G, S.
        set (g1 := if pix_mp_colorspace g =? 0 then _ else g).
        assert (P1 : pix_mp_pixelformat g1 = pix_mp_pixelformat g).
        { subst g1. destruct (pix_mp_colorspace g =? 0); reflexivity. }
        destruct (vidioc_try_fmt_returns (dev ctx) g1 fm) as (g' & -> & P).
        exists g'. split; [reflexivity | congruence].
    + exfalso. apply nth_error_None in N. lia.
Qed.

Lemma enum_fmt_then_try_fmt_witness :
  exists e,
    nth_error (get_format_list example_decoder true) 1 = Some e /\
    enum_fmt (mk_fmtdesc 1 0 0) example_ctx true =
      (0, mk_fmtdesc 1 (flags e) (fourcc e)).
Proof.
  pose proof (enum_fmt_then_try_fmt example_ctx (mk_fmtdesc 1 0 0) true)
    as K.
  cbv zeta in K.
  destruct K as (_ & K); [cbn; lia|].
  destruct K as (e & N & E & _); [cbn; lia|].
  exists e. split; [exact N | exact E].
Defined.

(** X3.  The frame sizes [vidioc_enum_framesizes] announces bound what
    try-format hands out for a raw format: on a device whose limits are at
    least the 32-pixel minimum and whose height limit is a multiple of 16,
    the negotiated width and height lie between the announced minimum and
    maximum.  The enumeration itself is a single stepwise entry. *)
Theorem enum_framesizes_bounds_try_fmt (ctx : bcm2835_codec_ctx)
  (fsize fsize' : v4l2_frmsizeenum) (f : v4l2_format)
  (fm : bcm2835_codec_fmt) :
  vidioc_enum_framesizes ctx fsize = (0, fsize') ->
  is_compressed fm = false ->
  MIN_W <= max_w (dev ctx) ->
  MIN_H <= max_h (dev ctx) <= MAX_H_ISP ->
  max_h (dev ctx) mod 16 = 0 ->
  let f' := snd (vidioc_try_fmt (dev ctx) f fm) in
  fs_index fsize = 0 /\ fs_type fsize' = V4L2_FRMSIZE_TYPE_STEPWISE /\
  stepwise_min_width fsize' <= pix_mp_width f'
    <= stepwise_max_width fsize' /\
  stepwise_min_height fsize' <= pix_mp_height f'
    <= stepwise_max_height fsize'.
Proof.
  intros E R Mw Mh M16. cbv zeta.
  unfold vidioc_enum_framesizes in E. cbv zeta in E.
  destruct (match find_format_pix_fmt (fs_pixel_format fsize) (dev ctx) true
            with Some d => Some d | None => _ end);
    [|inversion E; discriminate].
  destruct (Z.eqb_spec (fs_index fsize) 0) as [I0|];
    cbn [negb] in E; [|inversion E; discriminate].
  inversion E; subst fsize'; clear E.
  cbn [fs_type stepwise_min_width stepwise_max_width stepwise_min_height
       stepwise_max_height].
  split; [exact I0|]. split; [reflexivity|].
  rewrite vidioc_try_fmt_fields. cbv zeta.
  cbn [snd pix_mp_width pix_mp_height].
  unfold MIN_W, MIN_H, MAX_H_ISP in *. split.
  - unfold try_fmt_width, MIN_W. cbv zeta. rewrite R. cbn [negb andb].
    destruct (Z.gtb_spec (pix_mp_width f) (max_w (dev ctx)));
      match goal with
      | |- context [?a <? ?b] => destruct (Z.ltb_spec a b)
      end; lia.
  - unfold try_fmt_height, MIN_H. cbv zeta. rewrite R. cbn [negb andb].
    set (c := if pix_mp_height f >? max_h (dev ctx) then max_h (dev ctx)
              else pix_mp_height f).
    set (m := if c <? 32 then 32 else c).
    assert (Bm : 32 <= m <= max_h (dev ctx)).
    { subst m c. destruct (Z.gtb_spec (pix_mp_height f) (max_h (dev ctx)));
        match goal with
        | |- context [?a <? ?b] => destruct (Z.ltb_spec a b)
        end; lia. }
    destruct (role_eqb (role (dev ctx)) DECODE
              || role_eqb (role (dev ctx)) ENCODE_IMAGE); [|exact Bm].
    change 16 with (2 ^ 4). rewrite ALIGN_uint_pow2 by lia.
    pose proof (alignUp_bounds m (2 ^ 4) ltac:(lia)).
    assert (alignUp m (2 ^ 4) <= max_h (dev ctx)).
    { rewrite <- (alignUp_fixed (max_h (dev ctx)) (2 ^ 4));
        [apply alignUp_mono; lia | lia | exact M16]. }
    lia.
Qed.

Lemma enum_framesizes_bounds_try_fmt_witness :
  let f' := snd (vidioc_try_fmt example_decoder
                   (example_format V4L2_BUF_TYPE_VIDEO_CAPTURE_MPLANE
                      V4L2_PIX_FMT_YUV420 5000 7 0) fmt_YUV420) in
  32 <= pix_mp_width f' <= 1920 /\ 32 <= pix_mp_height f' <= 1920.
Proof.
  pose proof (enum_framesizes_bounds_try_fmt example_ctx
                (mk_frmsizeenum 0 V4L2_PIX_FMT_YUV420 0 0 0 0 0 0 0)
                (mk_frmsizeenum 0 V4L2_PIX_FMT_YUV420
                   V4L2_FRMSIZE_TYPE_STEPWISE 32 1920 2 32 1920 2)
                (example_format V4L2_BUF_TYPE_VIDEO_CAPTURE_MPLANE
                   V4L2_PIX_FMT_YUV420 5000 7 0) fmt_YUV420) as K.
  cbv zeta in K.
  destruct K as (_ & _ & W & H);
    [vm_compute; reflexivity | reflexivity | vm_compute; congruence
    | vm_compute; split; congruence | reflexivity |].
  split; [exact W | exact H].
Defined.

(** ** Try-format at the ioctl level, applied twice *)

Lemma try_fmt_colour_fixed (d : bcm2835_codec_dev) (cs : Z)
  (g : v4l2_format) (fm : bcm2835_codec_fmt) :
  let colour (f : v4l2_format) :=
    if pix_mp_colorspace f =? 0 then set_colorspace f cs else f in
  colour (snd (vidioc_try_fmt d (colour g) fm)) =
  snd (vidioc_try_fmt d (colour g) fm).
Proof.
  cbv zeta. rewrite vidioc_try_fmt_fields. cbv zeta. cbn [snd].
  cbn [pix_mp_colorspace].
  destruct (pix_mp_colorspace g =? 0) eqn:G.
  - cbn [set_colorspace pix_mp_colorspace].
    destruct (Z.eqb_spec cs 0) as [-> | N]; reflexivity.
  - rewrite G. reflexivity.
Qed.

(** X4.  At the ioctl level try-format is idempotent on both directions
    whenever the requested stride leaves room for the alignment below
    [2^32]: what the first call hands back, a second call returns
    unchanged.  The direction's list holds well-formed descriptors and the
    device limits are those of one of the five roles. *)
Theorem vidioc_try_fmt_ioctl_idempotent (ctx : bcm2835_codec_ctx)
  (capture : bool) (f f' : v4l2_format) (r : Z) :
  let try_ioctl :=
    if capture then vidioc_try_fmt_vid_cap ctx
    else vidioc_try_fmt_vid_out ctx in
  forallb fmt_wf (get_format_list (dev ctx) capture) = true ->
  0 <= max_w (dev ctx) <= MAX_W_ISP ->
  0 <= max_h (dev ctx) <= MAX_H_ISP ->
  0 <= pix_mp_width f -> 0 <= pix_mp_height f ->
  0 <= plane_fmt0_bytesperline f ->
  plane_fmt0_bytesperline f + 64 <= 2 ^ 32 ->
  try_ioctl f = Some (r, f') ->
  try_ioctl f' = Some (r, f').
Proof.
  cbv zeta. intros WF Mw Mh Bw Bh B0 B1.
  rewrite forallb_forall in WF.
  set (colour := fun g : v4l2_format =>
         if pix_mp_colorspace g =? 0 then set_colorspace g (colorspace ctx)
         else g).
  (* one step, for a request whose fourcc is listed *)
  assert (Step : forall (c : bool) (g : v4l2_format) fm,
    c = capture ->
    find_format g (dev ctx) c = Some fm ->
    0 <= pix_mp_width g -> 0 <= pix_mp_height g ->
    0 <= plane_fmt0_bytesperline g ->
    plane_fmt0_bytesperline g + 64 <= 2 ^ 32 ->
    let g1 := if c then g else colour g in
    (if c then vidioc_try_fmt_vid_cap ctx else vidioc_try_fmt_vid_out ctx)
      (snd (vidioc_try_fmt (dev ctx) g1 fm))
    = Some (vidioc_try_fmt (dev ctx) g1 fm)).
  { intros c g fm -> F Gw Gh G0 G1. cbv zeta.
    pose proof (find_format_scan_Some _ _ _ F) as [I _].
    pose proof (WF fm I) as W.
    destruct capture.
    - unfold vidioc_try_fmt_vid_cap.
      assert (F' : find_format (snd (vidioc_try_fmt (dev ctx) g fm))
                     (dev ctx) true = Some fm) by exact F.
      rewrite F'.
      rewrite vidioc_try_fmt_idempotent_without_wrap by assumption.
      reflexivity.
    - unfold vidioc_try_fmt_vid_out. fold colour.
      assert (Pc : pix_mp_pixelformat (colour g) = pix_mp_pixelformat g).
      { unfold colour. destruct (pix_mp_colorspace g =? 0); reflexivity. }
      assert (F' : find_format (snd (vidioc_try_fmt (dev ctx) (colour g) fm))
                     (dev ctx) false = Some fm).
      { rewrite <- F. unfold find_format.
        destruct (vidioc_try_fmt_returns (dev ctx) (colour g) fm)
          as (g' & E & P).
        rewrite E. cbn [snd]. rewrite P, Pc. reflexivity. }
      rewrite F'.
      pose proof (try_fmt_colour_fixed (dev ctx) (colorspace ctx) g fm)
        as Cf.
      change (colour (snd (vidioc_try_fmt (dev ctx) (colour g) fm)) =
              snd (vidioc_try_fmt (dev ctx) (colour g) fm)) in Cf.
      change (Some (vidioc_try_fmt (dev ctx)
                      (colour (snd (vidioc_try_fmt (dev ctx) (colour g) fm)))
                      fm) =
              Some (vidioc_try_fmt (dev ctx) (colour g) fm)).
      rewrite Cf.
      rewrite vidioc_try_fmt_idempotent_without_wrap;
        [reflexivity | assumption | assumption | assumption | | | |];
        unfold colour; destruct (pix_mp_colorspace g =? 0);
        cbn [set_colorspace pix_mp_width pix_mp_height
             plane_fmt0_bytesperline]; assumption. }
  destruct capture.
  - unfold vidioc_try_fmt_vid_cap at 1.
    destruct (find_format f (dev ctx) true) as [fm|] eqn:F.
    + intros E0.
      assert (E : vidioc_try_fmt (dev ctx) f fm = (r, f'))
        by exact (f_equal (fun o => match o with
                                    | Some p => p
                                    | None => (r, f')
                                    end) E0).
      pose proof (Step true f fm eq_refl F Bw Bh B0 B1) as S.
      cbv beta zeta iota in S. rewrite E in S. exact S.
    + destruct (get_default_format (dev ctx) true) as [dflt|];
        [|discriminate].
      set (g := set_pixelformat f (fourcc dflt)).
      destruct (find_format g (dev ctx) true) as [fm|] eqn:F2;
        [|discriminate].
      intros E0.
      assert (E : vidioc_try_fmt (dev ctx) g fm = (r, f'))
        by exact (f_equal (fun o => match o with
                                    | Some p => p
                                    | None => (r, f')
                                    end) E0).
      pose proof (Step true g fm eq_refl F2 Bw Bh B0 B1) as S.
      cbv beta zeta iota in S. rewrite E in S. exact S.
  - unfold vidioc_try_fmt_vid_out at 1. fold colour.
    destruct (find_format f (dev ctx) false) as [fm|] eqn:F.
    + intros E0.
      assert (E : vidioc_try_fmt (dev ctx) (colour f) fm = (r, f'))
        by exact (f_equal (fun o => match o with
                                    | Some p => p
                                    | None => (r, f')
                                    end) E0).
      pose proof (Step false f fm eq_refl F Bw Bh B0 B1) as S.
      cbv beta zeta iota in S. rewrite E in S. exact S.
    + destruct (get_default_format (dev ctx) false) as [dflt|];
        [|discriminate].
      set (g := set_pixelformat f (fourcc dflt)).
      destruct (find_format g (dev ctx) false) as [fm|] eqn:F2;
        [|discriminate].
      intros E0.
      assert (E : vidioc_try_fmt (dev ctx) (colour g) fm = (r, f'))
        by exact (f_equal (fun o => match o with
                                    | Some p => p
                                    | None => (r, f')
                                    end) E0).
      pose proof (Step false g fm eq_refl F2 Bw Bh B0 B1) as S.
      cbv beta zeta iota in S. rewrite E in S. exact S.
Qed.

Lemma vidioc_try_fmt_ioctl_idempotent_witness :
  exists f',
    vidioc_try_fmt_vid_cap example_ctx
      (example_format V4L2_BUF_TYPE_VIDEO_CAPTURE_MPLANE 0 641 479 1) =
      Some (0, f') /\
    vidioc_try_fmt_vid_cap example_ctx f' = Some (0, f').
Proof.
  eexists. split; [vm_compute; reflexivity|].
  apply (vidioc_try_fmt_ioctl_idempotent example_ctx true
           (example_format V4L2_BUF_TYPE_VIDEO_CAPTURE_MPLANE 0 641 479 1));
    [vm_compute; reflexivity | vm_compute; split; congruence
    | vm_compute; split; congruence | vm_compute; congruence
    | vm_compute; congruence | vm_compute; congruence
    | vm_compute; congruence | vm_compute; reflexivity].
Defined.

(** ** Reading back what was set *)

Lemma getters_read_negotiated_state (a b : bcm2835_codec_ctx) :
  negotiated_state a = negotiated_state b ->
  (forall f, vidioc_g_fmt a f = vidioc_g_fmt b f) /\
  (forall s, vidioc_g_selection a s = vidioc_g_selection b s) /\
  (forall t f, vidioc_g_pixelaspect a t f = vidioc_g_pixelaspect b t f).
Proof.
  unfold negotiated_state. intros [= D C Y X Q S T].
  split; [|split].
  - intros f. unfold vidioc_g_fmt.
    destruct (get_q_data (fmt_type f)) as [[|]|]; cbn [q_data];
      rewrite ?C, ?Y, ?X, ?Q, ?S, ?T; reflexivity.
  - intros s. unfold vidioc_g_selection. rewrite D.
    cbv zeta.
    destruct (match sel_type s with
              | V4L2_BUF_TYPE_VIDEO_CAPTURE => _
              | V4L2_BUF_TYPE_VIDEO_OUTPUT => _
              | _ => None
              end) as [[|]|]; cbn [q_data]; rewrite ?S, ?T; reflexivity.
  - intros t f. unfold vidioc_g_pixelaspect. rewrite D. cbn [q_data].
    rewrite T. reflexivity.
Qed.

Lemma put_port_negotiated_state (ctx : bcm2835_codec_ctx) (pid : port_id)
  (p : vchiq_mmal_port) :
  negotiated_state (put_port ctx pid p) = negotiated_state ctx.
Proof. unfold put_port. destruct (component ctx); reflexivity. Qed.

Section ReadBack.

Variable vchiq_mmal_port_disable :
  port_id -> vchiq_mmal_port -> Z * vchiq_mmal_port.
Variable vchiq_mmal_port_enable :
  port_id -> buffer_cb -> vchiq_mmal_port -> Z * vchiq_mmal_port.
Variable vchiq_mmal_port_set_format :
  port_id -> vchiq_mmal_port -> Z * vchiq_mmal_port.
Variable vchiq_mmal_port_parameter_get_interlace :
  vchiq_mmal_port -> Z * mmal_interlace_type.
Variable V4L2_MAP_XFER_FUNC_DEFAULT : Z -> Z.
Variable V4L2_MAP_YCBCR_ENC_DEFAULT : Z -> Z.
Variable V4L2_MAP_QUANTIZATION_DEFAULT : bool -> Z -> Z -> Z.

Local Abbreviation s_fmt :=
  (vidioc_s_fmt vchiq_mmal_port_disable vchiq_mmal_port_enable
     vchiq_mmal_port_set_format).
Local Abbreviation s_fmt_vid_cap :=
  (vidioc_s_fmt_vid_cap vchiq_mmal_port_disable vchiq_mmal_port_enable
     vchiq_mmal_port_set_format).
Local Abbreviation s_fmt_vid_out :=
  (vidioc_s_fmt_vid_out vchiq_mmal_port_disable vchiq_mmal_port_enable
     vchiq_mmal_port_set_format).
Local Abbreviation s_selection :=
  (vidioc_s_selection vchiq_mmal_port_set_format).
Local Abbreviation fmt_changed :=
  (handle_fmt_changed vchiq_mmal_port_parameter_get_interlace
     V4L2_MAP_XFER_FUNC_DEFAULT V4L2_MAP_YCBCR_ENC_DEFAULT
     V4L2_MAP_QUANTIZATION_DEFAULT).

(** The session [vidioc_s_fmt] has built when it turns to the ports:
    everything it does afterwards touches the component only. *)
Lemma vidioc_s_fmt_negotiated_state (ctx ctx' : bcm2835_codec_ctx)
  (f : v4l2_format) (requested_height ret : Z) (qi : m2m_index)
  (fm : bcm2835_codec_fmt) (calls : list mmal_call) :
  get_q_data (fmt_type f) = Some qi ->
  vb2_is_busy (v4l2_m2m_get_vq ctx (fmt_type f)) = false ->
  find_format f (dev ctx) (is_capture_mplane (fmt_type f)) = Some fm ->
  s_fmt ctx f requested_height = Some (ret, ctx', calls) ->
  let q := q_data ctx qi in
  let q1 :=
    mk_q_data (plane_fmt0_bytesperline f) (pix_mp_height f)
      (pix_mp_width f)
      (if negb (selection_set q) || is_compressed fm
       then requested_height else crop_height q)
      (selection_set q) (aspect_ratio q) (pix_mp_field f)
      (plane_fmt0_sizeimage f) (sequence q) fm (eos_buffer_in_use q) in
  let ctx1 :=
    set_colorimetry (set_q_data ctx qi q1) (pix_mp_colorspace f)
      (pix_mp_ycbcr_enc f) (pix_mp_xfer_func f) (pix_mp_quantization f) in
  negotiated_state ctx' =
  negotiated_state
    (if s_fmt_updates_capture_port (dev ctx) fm f
     then s_fmt_replicate_on_dst ctx1 qi f else ctx1).
Proof.
  intros Q B F. unfold vidioc_s_fmt. rewrite Q, B, F. cbv zeta.
  set (q1 := mk_q_data _ _ _ _ _ _ _ _ _ _ _).
  set (ctx1 := set_colorimetry _ _ _ _ _).
  assert (U : (role_eqb (role (dev ctx1)) DECODE
               || role_eqb (role (dev ctx1)) ENCODE_IMAGE)
              && is_compressed fm
              && negb (crop_width q1 =? 0) && negb (height q1 =? 0)
              = s_fmt_updates_capture_port (dev ctx) fm f).
  { unfold s_fmt_updates_capture_port. subst ctx1 q1.
    destruct qi; reflexivity. }
  rewrite U. clear U.
  set (up := s_fmt_updates_capture_port (dev ctx) fm f).
  set (ctxN := if up then s_fmt_replicate_on_dst ctx1 qi f else ctx1).
  destruct (get_port_data ctxN (fmt_type f)) as [pid|];
    [|intros [= _ <- _]; reflexivity].
  destruct (component ctxN) as [c|] eqn:C;
    [|intros [= _ <- _]; reflexivity].
  set (pre := if enabled (port_of c pid) then _ else _).
  destruct pre as [[port reenable] calls0].
  destruct (setup_mmal_port_format ctxN (q_data ctxN qi) port) as [p|];
    [|discriminate].
  destruct (vchiq_mmal_port_set_format pid p) as [r p'].
  set (post := if reenable then _ else _).
  destruct post as [[ret1 p2] calls1].
  destruct up.
  - destruct (component (put_port ctxN pid p2)) as [c2|]; [|discriminate].
    destruct (setup_mmal_port_format (put_port ctxN pid p2)
                (q_data (put_port ctxN pid p2) V4L2_M2M_DST) (output_0 c2))
      as [pd|]; [|discriminate].
    destruct (vchiq_mmal_port_set_format OUTPUT_0 pd) as [r2 pd'].
    intros [= _ <- _]. rewrite !put_port_negotiated_state. reflexivity.
  - intros [= _ <- _]. rewrite put_port_negotiated_state. reflexivity.
Qed.

(** Set-format followed by get-format on the same queue: unless the call
    replicated a compressed resolution on the very queue being set, the
    stored format is the one passed in. *)
Lemma vidioc_s_fmt_then_g_fmt (ctx ctx' : bcm2835_codec_ctx)
  (f : v4l2_format) (requested_height ret : Z) (qi : m2m_index)
  (fm : bcm2835_codec_fmt) (calls : list mmal_call) :
  get_q_data (fmt_type f) = Some qi ->
  vb2_is_busy (v4l2_m2m_get_vq ctx (fmt_type f)) = false ->
  find_format f (dev ctx) (is_capture_mplane (fmt_type f)) = Some fm ->
  pix_mp_num_planes f = 1 ->
  plane_fmt0_reserved f = repeat 0 (length (plane_fmt0_reserved f)) ->
  qi = V4L2_M2M_SRC \/ s_fmt_updates_capture_port (dev ctx) fm f = false ->
  s_fmt ctx f requested_height = Some (ret, ctx', calls) ->
  vidioc_g_fmt ctx' f = Some (0, f).
Proof.
  intros Q B F P R M S.
  pose proof (vidioc_s_fmt_negotiated_state _ _ _ _ _ _ _ _ Q B F S) as N.
  cbv zeta in N.
  destruct (getters_read_negotiated_state _ _ N) as (G & _ & _).
  rewrite G. unfold vidioc_g_fmt. rewrite Q.
  apply find_format_scan_Some in F. destruct F as [_ F].
  assert (E : forall q (c : bcm2835_codec_ctx),
            crop_width q = pix_mp_width f -> height q = pix_mp_height f ->
            fmt q = fm -> field q = pix_mp_field f ->
            sizeimage q = plane_fmt0_sizeimage f ->
            bytesperline q = plane_fmt0_bytesperline f ->
            colorspace c = pix_mp_colorspace f ->
            ycbcr_enc c = pix_mp_ycbcr_enc f ->
            quant c = pix_mp_quantization f ->
            xfer_func c = pix_mp_xfer_func f ->
            Some (0, mk_v4l2_format (fmt_type f) (crop_width q) (height q)
                       (fourcc (fmt q)) (field q) (colorspace c)
                       (sizeimage q) (bytesperline q)
                       (repeat 0 (length (plane_fmt0_reserved f))) 1
                       (ycbcr_enc c) (quant c) (xfer_func c))
            = Some (0, f)).
  { intros q c -> -> -> -> -> -> -> -> -> ->. rewrite F, <- R, <- P.
    destruct f; reflexivity. }
  destruct (s_fmt_updates_capture_port (dev ctx) fm f).
  - destruct M as [-> | M]; [|discriminate].
    apply E; reflexivity.
  - destruct qi; apply E; reflexivity.
Qed.

(** X5.  Set-format then get-format on the output queue.  On a queue
    without buffers, the format [vidioc_s_fmt_vid_out] hands back to the
    client is exactly what [vidioc_g_fmt] reports afterwards, whatever the
    accelerator answered to the port calls (the stored format is not rolled
    back when they fail). *)
Theorem vidioc_s_fmt_vid_out_then_g_fmt (ctx ctx' : bcm2835_codec_ctx)
  (f f' : v4l2_format) (ret : Z) (calls : list mmal_call) :
  fmt_type f = V4L2_BUF_TYPE_VIDEO_OUTPUT_MPLANE ->
  vb2_is_busy (out_q ctx) = false ->
  s_fmt_vid_out ctx f = Some (ret, f', ctx', calls) ->
  vidioc_g_fmt_vid_out ctx' f' = Some (0, f').
Proof.
  intros T B. unfold vidioc_s_fmt_vid_out, vidioc_try_fmt_vid_out.
  set (colour := fun g : v4l2_format =>
         if pix_mp_colorspace g =? 0 then set_colorspace g (colorspace ctx)
         else g).
  assert (Pc : forall g, pix_mp_pixelformat (colour g) = pix_mp_pixelformat g
                         /\ fmt_type (colour g) = fmt_type g).
  { intros g. unfold colour. destruct (pix_mp_colorspace g =? 0);
      split; reflexivity. }
  assert (K : forall g fm,
            fmt_type g = V4L2_BUF_TYPE_VIDEO_OUTPUT_MPLANE ->
            find_format g (dev ctx) false = Some fm ->
            match s_fmt ctx (snd (vidioc_try_fmt (dev ctx) (colour g) fm))
                    (pix_mp_height f) with
            | Some (r, c, cs) =>
                Some (r, snd (vidioc_try_fmt (dev ctx) (colour g) fm), c, cs)
            | None => None
            end = Some (ret, f', ctx', calls) ->
            vidioc_g_fmt_vid_out ctx' f' = Some (0, f')).
  { intros g fm Tg Fg.
    destruct (s_fmt ctx _ _) as [[[r c] cs]|] eqn:S; [|discriminate].
    intros [= -> <- -> ->].
    unfold vidioc_g_fmt_vid_out.
    destruct (Pc g) as [Pp Pt].
    assert (Tt : fmt_type (snd (vidioc_try_fmt (dev ctx) (colour g) fm)) =
                 V4L2_BUF_TYPE_VIDEO_OUTPUT_MPLANE).
    { rewrite vidioc_try_fmt_fields. cbv zeta. cbn [snd fmt_type].
      rewrite Pt. exact Tg. }
    apply (vidioc_s_fmt_then_g_fmt ctx ctx'
             (snd (vidioc_try_fmt (dev ctx) (colour g) fm))
             (pix_mp_height f) ret V4L2_M2M_SRC fm calls).
    - rewrite Tt. reflexivity.
    - rewrite Tt. exact B.
    - rewrite Tt. cbn [is_capture_mplane]. rewrite <- Fg.
      unfold find_format. rewrite vidioc_try_fmt_fields. cbv zeta.
      cbn [snd pix_mp_pixelformat]. rewrite Pp. reflexivity.
    - reflexivity.
    - rewrite vidioc_try_fmt_fields. cbv zeta.
      cbn [snd plane_fmt0_reserved]. rewrite repeat_length. reflexivity.
    - left. reflexivity.
    - exact S. }
  destruct (find_format f (dev ctx) false) as [fm|] eqn:F.
  - cbn [negb Z.eqb]. apply K; assumption.
  - destruct (get_default_format (dev ctx) false) as [dflt|];
      [|discriminate].
    destruct (find_format (set_pixelformat f (fourcc dflt)) (dev ctx) false)
      as [fm|] eqn:F2; [|discriminate].
    cbn [negb Z.eqb]. apply K; [exact T | exact F2].
Qed.

(** X6.  Set-format then get-format on the capture queue.  On a queue
    without buffers, and on a device that does not replicate a compressed
    resolution on the capture side (an encoder, the ISP, the deinterlacer,
    or a decoder or image encoder whose capture list holds raw formats
    only), [vidioc_g_fmt] reports exactly the format
    [vidioc_s_fmt_vid_cap] handed back. *)
Theorem vidioc_s_fmt_vid_cap_then_g_fmt (ctx ctx' : bcm2835_codec_ctx)
  (f f' : v4l2_format) (ret : Z) (calls : list mmal_call) :
  fmt_type f = V4L2_BUF_TYPE_VIDEO_CAPTURE_MPLANE ->
  vb2_is_busy (cap_q ctx) = false ->
  (role (dev ctx) = DECODE \/ role (dev ctx) = ENCODE_IMAGE ->
   forallb (fun d => negb (is_compressed d))
     (get_format_list (dev ctx) true) = true) ->
  s_fmt_vid_cap ctx f = Some (ret, f', ctx', calls) ->
  vidioc_g_fmt_vid_cap ctx' f' = Some (0, f').
Proof.
  intros T B Raw. unfold vidioc_s_fmt_vid_cap, vidioc_try_fmt_vid_cap.
  assert (K : forall g fm,
            fmt_type g = V4L2_BUF_TYPE_VIDEO_CAPTURE_MPLANE ->
            find_format g (dev ctx) true = Some fm ->
            match s_fmt ctx (snd (vidioc_try_fmt (dev ctx) g fm))
                    (pix_mp_height f) with
            | Some (r, c, cs) =>
                Some (r, snd (vidioc_try_fmt (dev ctx) g fm), c, cs)
            | None => None
            end = Some (ret, f', ctx', calls) ->
            vidioc_g_fmt_vid_cap ctx' f' = Some (0, f')).
  { intros g fm Tg Fg.
    destruct (s_fmt ctx _ _) as [[[r c] cs]|] eqn:S; [|discriminate].
    intros [= -> <- -> ->].
    unfold vidioc_g_fmt_vid_cap.
    assert (Tt : fmt_type (snd (vidioc_try_fmt (dev ctx) g fm)) =
                 V4L2_BUF_TYPE_VIDEO_CAPTURE_MPLANE).
    { rewrite vidioc_try_fmt_fields. cbv zeta. cbn [snd fmt_type].
      exact Tg. }
    apply (vidioc_s_fmt_then_g_fmt ctx ctx'
             (snd (vidioc_try_fmt (dev ctx) g fm))
             (pix_mp_height f) ret V4L2_M2M_DST fm calls).
    - rewrite Tt. reflexivity.
    - rewrite Tt. exact B.
    - rewrite Tt. cbn [is_capture_mplane]. rewrite <- Fg.
      unfold find_format. rewrite vidioc_try_fmt_fields. cbv zeta.
      cbn [snd pix_mp_pixelformat]. reflexivity.
    - reflexivity.
    - rewrite vidioc_try_fmt_fields. cbv zeta.
      cbn [snd plane_fmt0_reserved]. rewrite repeat_length. reflexivity.
    - right. unfold s_fmt_updates_capture_port.
      destruct (role_eqb (role (dev ctx)) DECODE
                || role_eqb (role (dev ctx)) ENCODE_IMAGE) eqn:Rl;
        [|reflexivity].
      assert (Rr : role (dev ctx) = DECODE \/ role (dev ctx) = ENCODE_IMAGE).
      { destruct (role (dev ctx)); try discriminate Rl;
          [left | right]; reflexivity. }
      pose proof (Raw Rr) as All. rewrite forallb_forall in All.
      apply find_format_scan_Some in Fg. destruct Fg as [I _].
      pose proof (All fm I) as Nc. apply negb_true_iff in Nc.
      rewrite Nc. reflexivity.
    - exact S. }
  destruct (find_format f (dev ctx) true) as [fm|] eqn:F.
  - cbn [negb Z.eqb]. apply K; assumption.
  - destruct (get_default_format (dev ctx) true) as [dflt|];
      [|discriminate].
    destruct (find_format (set_pixelformat f (fourcc dflt)) (dev ctx) true)
      as [fm|] eqn:F2; [|discriminate].
    cbn [negb Z.eqb]. apply K; [exact T | exact F2].
Qed.

(** X7.  On a decoder or image encoder, setting a compressed format on
    the output queue also re-derives the capture side: afterwards
    get-format on the capture queue reports the coded width, the height
    the client asked for rounded up to a multiple of 16, the stride and
    size the geometry functions give for the capture format (which is kept),
    and on a decoder the compose rectangle is the coded width by the
    height the client asked for. *)
Theorem vidioc_s_fmt_out_rederives_capture (ctx ctx' : bcm2835_codec_ctx)
  (f g : v4l2_format) (requested_height ret : Z)
  (fm : bcm2835_codec_fmt) (calls : list mmal_call) :
  role (dev ctx) = DECODE \/ role (dev ctx) = ENCODE_IMAGE ->
  fmt_type f = V4L2_BUF_TYPE_VIDEO_OUTPUT_MPLANE ->
  fmt_type g = V4L2_BUF_TYPE_VIDEO_CAPTURE_MPLANE ->
  vb2_is_busy (out_q ctx) = false ->
  find_format f (dev ctx) false = Some fm ->
  is_compressed fm = true ->
  pix_mp_width f <> 0 -> pix_mp_height f <> 0 ->
  s_fmt ctx f requested_height = Some (ret, ctx', calls) ->
  let dst := fmt (q_data ctx V4L2_M2M_DST) in
  let bpl := get_bytesperline (s32 (pix_mp_width f)) (s32 (pix_mp_height f))
               dst (role (dev ctx)) in
  let h := ALIGN_uint requested_height 16 in
  (exists g',
     vidioc_g_fmt ctx' g = Some (0, g') /\
     pix_mp_width g' = pix_mp_width f /\
     pix_mp_height g' = h /\
     pix_mp_pixelformat g' = fourcc dst /\
     plane_fmt0_bytesperline g' = bpl /\
     plane_fmt0_sizeimage g' =
       get_sizeimage (s32 bpl) (s32 (pix_mp_width f)) (s32 h) dst) /\
  (role (dev ctx) = DECODE ->
   forall l t w h0,
     vidioc_g_selection ctx'
       (mk_selection V4L2_BUF_TYPE_VIDEO_CAPTURE V4L2_SEL_TGT_COMPOSE
          l t w h0) =
     Some (0, mk_selection V4L2_BUF_TYPE_VIDEO_CAPTURE V4L2_SEL_TGT_COMPOSE
                0 0 (pix_mp_width f) requested_height)).
Proof.
  intros Rl T Tg B F C W H S. cbv zeta.
  assert (Q : get_q_data (fmt_type f) = Some V4L2_M2M_SRC)
    by (rewrite T; reflexivity).
  assert (B' : vb2_is_busy (v4l2_m2m_get_vq ctx (fmt_type f)) = false)
    by (rewrite T; exact B).
  assert (F' : find_format f (dev ctx) (is_capture_mplane (fmt_type f))
               = Some fm) by (rewrite T; exact F).
  pose proof (vidioc_s_fmt_negotiated_state _ _ _ _ _ _ _ _ Q B' F' S) as N.
  cbv zeta in N.
  assert (U : s_fmt_updates_capture_port (dev ctx) fm f = true).
  { unfold s_fmt_updates_capture_port. rewrite C.
    apply Z.eqb_neq in W. apply Z.eqb_neq in H. rewrite W, H.
    destruct Rl as [-> | ->]; reflexivity. }
  rewrite U, C, orb_true_r in N.
  destruct (getters_read_negotiated_state _ _ N) as (Gf & Gs & _).
  split.
  - rewrite Gf. unfold vidioc_g_fmt. rewrite Tg. cbn [get_q_data].
    eexists. split; [reflexivity|].
    repeat split; reflexivity.
  - intros D l t w h0. rewrite Gs. unfold vidioc_g_selection.
    cbn [dev s_fmt_replicate_on_dst set_q_data set_colorimetry sel_type].
    rewrite D. reflexivity.
Qed.

(** X8.  A set-selection call that returns 0 is read back unchanged: a
    get-selection call with the rectangle it handed back returns 0 and
    that same rectangle, on every role and on whichever queue and target
    the role accepts. *)
Theorem vidioc_s_selection_then_g_selection (ctx ctx' : bcm2835_codec_ctx)
  (s s' : v4l2_selection) (calls : list mmal_call) :
  s_selection ctx s = Some (0, s', ctx', calls) ->
  vidioc_g_selection ctx' s' = Some (0, s').
Proof.
  unfold vidioc_s_selection. cbv zeta.
  set (chosen := match sel_type s with
                 | V4L2_BUF_TYPE_VIDEO_CAPTURE => _
                 | V4L2_BUF_TYPE_VIDEO_OUTPUT => _
                 | _ => None
                 end).
  destruct chosen as [[qi pid]|] eqn:Ch; [|intros [= E]; discriminate E].
  set (wanted := match role (dev ctx) with DECODE => _ | _ => _ end).
  destruct (Z.eqb_spec (target s) wanted) as [Tw|]; cbn [negb];
    [|intros [= E]; discriminate E].
  unfold accept_selection. cbv zeta.
  set (q' := mk_q_data _ _ _ _ _ _ _ _ _ _ _).
  set (s1 := mk_selection _ _ _ _ _ _).
  assert (G : forall c, negotiated_state c =
                        negotiated_state (set_q_data ctx qi q') ->
              vidioc_g_selection c s1 = Some (0, s1)).
  { intros c N.
    destruct (getters_read_negotiated_state _ _ N) as (_ & -> & _).
    unfold vidioc_g_selection. cbv zeta.
    assert (D : dev (set_q_data ctx qi q') = dev ctx)
      by (destruct qi; reflexivity).
    rewrite D. subst s1. cbn [sel_type target]. rewrite Tw.
    subst chosen wanted.
    destruct (role (dev ctx)); destruct (sel_type s);
      cbn [role_eqb orb] in Ch; try discriminate Ch;
      injection Ch as <- <-; reflexivity. }
  destruct (component (set_q_data ctx qi q')) as [c|].
  - destruct (setup_mmal_port_format _ _ _) as [port|]; [|discriminate].
    destruct (vchiq_mmal_port_set_format pid port) as [r port'].
    intros [= _ <- <- _]. apply G. apply put_port_negotiated_state.
  - intros [= <- <- _]. apply G. reflexivity.
Qed.

Lemma handle_fmt_changed_reported (ctx : bcm2835_codec_ctx)
  (format : mmal_msg_event_format_changed) :
  ev_format_type format = MMAL_ES_TYPE_VIDEO ->
  let ctx1 := fst (fmt_changed ctx format) in
  dev ctx1 = dev ctx /\
  aspect_ratio (q_data ctx1 V4L2_M2M_DST) =
    mk_fract (u32 (numerator (ev_video_par format)))
             (u32 (denominator (ev_video_par format))) /\
  fh_events ctx1 = fh_events ctx ++ [V4L2_EVENT_SOURCE_CHANGE_RESOLUTION] /\
  streaming (cap_q ctx1) = streaming (cap_q ctx) /\
  num_buffers (cap_q ctx1) = num_buffers (cap_q ctx) /\
  (streaming (cap_q ctx) = true ->
   last_buffer_dequeued (cap_q ctx1) = true).
Proof.
  intros V. cbv zeta. unfold handle_fmt_changed. rewrite V.
  set (q1 := set_q_geometry _ _ _ _ _ _ _).
  set (ctx1 := set_q_data ctx V4L2_M2M_DST q1).
  set (ctx2 := if negb (ev_video_color_space format =? 0) then _ else ctx1).
  assert (P2 : dev ctx2 = dev ctx /\ cap_q ctx2 = cap_q ctx /\
               fh_events ctx2 = fh_events ctx).
  { subst ctx2.
    destruct (negb (ev_video_color_space format =? 0));
      repeat split; reflexivity. }
  destruct P2 as (D2 & S2 & E2).
  set (res := match component ctx2 with Some c => _ | None => _ end).
  destruct res as [fld calls].
  cbn [set_q_data cap_q]. rewrite S2.
  destruct (streaming (cap_q ctx)) eqn:St;
    cbn [fst queue_res_chg_event v4l2_event_queue_fh set_cap_q q_data
         q_data_DST set_q_data set_q_field set_q_aspect_ratio
         aspect_ratio dev fh_events cap_q last_buffer_dequeued streaming
         num_buffers];
    rewrite ?D2, ?E2, ?S2, ?St; repeat split;
    (reflexivity || discriminate).
Qed.

(** X9.  What a decoder's client reads after a video format-changed
    event: exactly one source-change event has been queued; get-format on
    the capture queue reports the event's crop width, its padded height,
    the accelerator's minimum buffer size and the stride
    [get_bytesperline] gives for the padded width, with the pixel format
    unchanged; the compose rectangle is the event's crop; the pixel aspect
    ratio is the event's. *)
Theorem handle_fmt_changed_then_getters (ctx : bcm2835_codec_ctx)
  (format : mmal_msg_event_format_changed) (g : v4l2_format)
  (s : v4l2_selection) (a : v4l2_fract) :
  ev_format_type format = MMAL_ES_TYPE_VIDEO ->
  role (dev ctx) = DECODE ->
  fmt_type g = V4L2_BUF_TYPE_VIDEO_CAPTURE_MPLANE ->
  sel_type s = V4L2_BUF_TYPE_VIDEO_CAPTURE ->
  target s = V4L2_SEL_TGT_COMPOSE ->
  let ctx1 := fst (fmt_changed ctx format) in
  let q := q_data ctx V4L2_M2M_DST in
  fh_events ctx1 = fh_events ctx ++ [V4L2_EVENT_SOURCE_CHANGE_RESOLUTION] /\
  (exists g',
     vidioc_g_fmt ctx1 g = Some (0, g') /\
     pix_mp_width g' = u32 (ev_video_crop_width format) /\
     pix_mp_height g' = ev_video_height format /\
     pix_mp_pixelformat g' = fourcc (fmt q) /\
     plane_fmt0_sizeimage g' = buffer_size_min format /\
     plane_fmt0_bytesperline g' =
       get_bytesperline (s32 (ev_video_width format))
         (s32 (ev_video_height format)) (fmt q) DECODE) /\
  vidioc_g_selection ctx1 s =
    Some (0, mk_selection V4L2_BUF_TYPE_VIDEO_CAPTURE V4L2_SEL_TGT_COMPOSE
               0 0 (u32 (ev_video_crop_width format))
               (u32 (ev_video_crop_height format))) /\
  vidioc_g_pixelaspect ctx1 V4L2_BUF_TYPE_VIDEO_CAPTURE a =
    (0, mk_fract (u32 (numerator (ev_video_par format)))
                 (u32 (denominator (ev_video_par format)))).
Proof.
  intros V R Tg Ts Tt. cbv zeta.
  destruct (handle_fmt_changed_video
              vchiq_mmal_port_parameter_get_interlace
              V4L2_MAP_XFER_FUNC_DEFAULT V4L2_MAP_YCBCR_ENC_DEFAULT
              V4L2_MAP_QUANTIZATION_DEFAULT ctx format V)
    as (CW & CH & _ & BPL & H & SZ & FM & _).
  destruct (handle_fmt_changed_reported ctx format V)
    as (D & AR & EV & _).
  cbv zeta in D, AR. rewrite R in BPL.
  split; [exact EV|]. split; [|split].
  - unfold vidioc_g_fmt. rewrite Tg. cbn [get_q_data].
    eexists. split; [reflexivity|].
    cbn [pix_mp_width pix_mp_height pix_mp_pixelformat
         plane_fmt0_sizeimage plane_fmt0_bytesperline].
    rewrite CW, H, FM, SZ, BPL. repeat split; reflexivity.
  - unfold vidioc_g_selection. cbv zeta. rewrite D, R, Ts, Tt.
    cbn [role_eqb orb Z.eqb V4L2_SEL_TGT_COMPOSE
         V4L2_SEL_TGT_COMPOSE_DEFAULT].
    rewrite CW, CH. reflexivity.
  - unfold vidioc_g_pixelaspect. rewrite D, R. cbn [role_eqb negb].
    rewrite AR. reflexivity.
Qed.

End ReadBack.

Lemma vidioc_s_fmt_vid_out_then_g_fmt_witness :
  exists ret f' ctx' calls,
    vidioc_s_fmt_vid_out example_port_disable example_port_enable
      example_port_set_format example_ctx
      (example_format V4L2_BUF_TYPE_VIDEO_OUTPUT_MPLANE V4L2_PIX_FMT_H264
         1280 720 0) = Some (ret, f', ctx', calls) /\
    vidioc_g_fmt_vid_out ctx' f' = Some (0, f').
Proof.
  do 4 eexists. split; [vm_compute; reflexivity|].
  apply (vidioc_s_fmt_vid_out_then_g_fmt example_port_disable
           example_port_enable example_port_set_format example_ctx _
           (example_format V4L2_BUF_TYPE_VIDEO_OUTPUT_MPLANE
              V4L2_PIX_FMT_H264 1280 720 0) _ 0 []);
    [reflexivity | vm_compute; reflexivity | vm_compute; reflexivity].
Defined.

Lemma vidioc_s_fmt_vid_cap_then_g_fmt_witness :
  exists ret f' ctx' calls,
    vidioc_s_fmt_vid_cap example_port_disable example_port_enable
      example_port_set_format example_ctx_streaming
      (example_format V4L2_BUF_TYPE_VIDEO_CAPTURE_MPLANE V4L2_PIX_FMT_YUV420
         641 479 7) = Some (ret, f', ctx', calls) /\
    vidioc_g_fmt_vid_cap ctx' f' = Some (0, f').
Proof.
  do 4 eexists. split; [vm_compute; reflexivity|].
  eapply (vidioc_s_fmt_vid_cap_then_g_fmt example_port_disable
            example_port_enable example_port_set_format
            example_ctx_streaming _
            (example_format V4L2_BUF_TYPE_VIDEO_CAPTURE_MPLANE
               V4L2_PIX_FMT_YUV420 641 479 7));
    [reflexivity | vm_compute; reflexivity
    | intros _; vm_compute; reflexivity | vm_compute; reflexivity].
Defined.

Lemma vidioc_s_fmt_out_rederives_capture_witness :
  exists ret ctx' calls g',
    vidioc_s_fmt example_port_disable example_port_enable
      example_port_set_format example_ctx
      (example_format V4L2_BUF_TYPE_VIDEO_OUTPUT_MPLANE V4L2_PIX_FMT_H264
         1280 720 0) 720 = Some (ret, ctx', calls) /\
    vidioc_g_fmt ctx'
      (example_format V4L2_BUF_TYPE_VIDEO_CAPTURE_MPLANE 0 0 0 0) =
      Some (0, g') /\
    pix_mp_width g' = 1280 /\
    pix_mp_height g' = ALIGN_uint 720 16.
Proof.
  do 3 eexists.
  assert (S : vidioc_s_fmt example_port_disable example_port_enable
                example_port_set_format example_ctx
                (example_format V4L2_BUF_TYPE_VIDEO_OUTPUT_MPLANE
                   V4L2_PIX_FMT_H264 1280 720 0) 720
              = Some (0, _, [])) by (vm_compute; reflexivity).
  destruct (vidioc_s_fmt_out_rederives_capture example_port_disable
              example_port_enable example_port_set_format example_ctx _
              (example_format V4L2_BUF_TYPE_VIDEO_OUTPUT_MPLANE
                 V4L2_PIX_FMT_H264 1280 720 0)
              (example_format V4L2_BUF_TYPE_VIDEO_CAPTURE_MPLANE 0 0 0 0)
              720 0 fmt_H264 [] (or_introl eq_refl) eq_refl eq_refl
              eq_refl eq_refl eq_refl
              ltac:(vm_compute; congruence) ltac:(vm_compute; congruence) S)
    as ((g' & G & W & H & _) & _).
  exists g'. split; [exact S|]. split; [exact G|].
  split; [exact W | exact H].
Defined.

Lemma vidioc_s_selection_then_g_selection_witness :
  exists s' ctx' calls,
    vidioc_s_selection example_port_set_format example_ctx_streaming
      (example_compose 4000 720) = Some (0, s', ctx', calls) /\
    vidioc_g_selection ctx' s' = Some (0, s').
Proof.
  do 3 eexists. split; [vm_compute; reflexivity|].
  eapply (vidioc_s_selection_then_g_selection example_port_set_format
            example_ctx_streaming _ (example_compose 4000 720)).
  vm_compute. reflexivity.
Defined.

Lemma handle_fmt_changed_then_getters_witness :
  let ctx1 :=
    fst (handle_fmt_changed example_interlace (fun _ => 0) (fun _ => 0)
           (fun _ _ _ => 0) example_ctx_streaming example_format_changed) in
  vidioc_g_selection ctx1 (example_compose 0 0) =
    Some (0, mk_selection V4L2_BUF_TYPE_VIDEO_CAPTURE V4L2_SEL_TGT_COMPOSE
               0 0 (u32 1920) (u32 1080)) /\
  vidioc_g_pixelaspect ctx1 V4L2_BUF_TYPE_VIDEO_CAPTURE (mk_fract 0 0) =
    (0, mk_fract (u32 1) (u32 1)).
Proof.
  cbv zeta.
  pose proof (handle_fmt_changed_then_getters example_interlace
                (fun _ => 0) (fun _ => 0) (fun _ _ _ => 0)
                example_ctx_streaming example_format_changed
                (example_format V4L2_BUF_TYPE_VIDEO_CAPTURE_MPLANE 0 0 0 0)
                (example_compose 0 0) (mk_fract 0 0)
                eq_refl eq_refl eq_refl eq_refl eq_refl)
    as (_ & _ & S & A).
  split; [exact S | exact A].
Defined.

(** ** Frame interval *)

(** X10.  [vidioc_s_parm] either rejects the request with -EINVAL and
    changes nothing (wrong buffer type, or a zero numerator or denominator),
    or returns 0 and stores the interval inverted as the frame rate; in
    that case [vidioc_g_parm] hands back the structure [vidioc_s_parm]
    returned, and the frame rate [setup_mmal_port_format] programs on a
    port that carries one (every port but a decoder's compressed input) is
    the inverse of the interval.  A frame rate with non-zero terms keeps
    non-zero terms. *)
Theorem vidioc_s_parm_then_g_parm (ctx ctx' : bcm2835_codec_ctx)
  (parm parm' : v4l2_streamparm) (ret : Z) :
  vidioc_s_parm ctx parm = (ret, parm', ctx') ->
  let t := output_timeperframe parm in
  (ret = - EINVAL /\ parm' = parm /\ ctx' = ctx /\
   (parm_type parm <> V4L2_BUF_TYPE_VIDEO_OUTPUT_MPLANE \/
    numerator t = 0 \/ denominator t = 0)
   \/
   ret = 0 /\ numerator t <> 0 /\ denominator t <> 0 /\
   output_timeperframe parm' = t /\
   vidioc_g_parm ctx' parm' = (0, parm') /\
   negotiated_state ctx' = negotiated_state ctx /\
   forall q port p,
     is_compressed (fmt q) = false \/ role (dev ctx) <> DECODE ->
     setup_mmal_port_format ctx' q port = Some p ->
     es_video_frame_rate p =
       mk_fract (s32 (denominator t)) (s32 (numerator t))) /\
  (framerate_num ctx <> 0 -> framerate_denom ctx <> 0 ->
   framerate_num ctx' <> 0 /\ framerate_denom ctx' <> 0).
Proof.
  unfold vidioc_s_parm. cbv zeta.
  destruct (parm_type parm) eqn:T;
    try (intros [= <- <- <-]; split;
         [left; repeat split; left; discriminate | intros; split; assumption]).
  destruct (Z.eqb_spec (denominator (output_timeperframe parm)) 0) as [D|D];
    [intros [= <- <- <-]; split;
       [left; repeat split; right; right; exact D
       | intros; split; assumption]|].
  destruct (Z.eqb_spec (numerator (output_timeperframe parm)) 0) as [N|N];
    cbn [orb];
    [intros [= <- <- <-]; split;
       [left; repeat split; right; left; exact N
       | intros; split; assumption]|].
  intros [= <- <- <-]. split.
  - right. split; [reflexivity|]. split; [exact N|]. split; [exact D|].
    split; [reflexivity|]. split.
    + unfold vidioc_g_parm. cbn [parm_type framerate_num framerate_denom
                                 set_framerate].
      destruct (output_timeperframe parm). reflexivity.
    + split; [reflexivity|].
      intros q port p Hq. unfold setup_mmal_port_format. cbv zeta.
      cbn [set_framerate framerate_num framerate_denom dev].
      destruct (negb (is_compressed (fmt q))) eqn:C.
      * destruct (mmal_fmt (fmt q));
          try (destruct (u32 (depth (fmt q)) =? 0); [discriminate|]);
          intros [= <-]; reflexivity.
      * apply negb_false_iff in C.
        destruct Hq as [Hq | Hq]; [congruence|].
        destruct (role (dev ctx)); try contradiction;
          intros [= <-]; reflexivity.
  - intros _ _. cbn [set_framerate framerate_num framerate_denom].
    split; assumption.
Qed.

Lemma vidioc_s_parm_then_g_parm_witness :
  let parm := mk_streamparm V4L2_BUF_TYPE_VIDEO_OUTPUT_MPLANE 0
                (mk_fract 1 25) in
  exists parm' ctx',
    vidioc_s_parm example_ctx parm = (0, parm', ctx') /\
    vidioc_g_parm ctx' parm' = (0, parm') /\
    framerate_num ctx' = 25 /\ framerate_denom ctx' = 1.
Proof.
  cbv zeta. do 2 eexists. split; [reflexivity|].
  destruct (vidioc_s_parm_then_g_parm example_ctx _
              (mk_streamparm V4L2_BUF_TYPE_VIDEO_OUTPUT_MPLANE 0
                 (mk_fract 1 25)) _ 0 eq_refl)
    as ([(E & _) | (_ & _ & _ & _ & G & _)] & _).
  - discriminate E.
  - split; [exact G|]. split; reflexivity.
Defined.

(** ** Buffer headers there and back *)

Lemma u64_of_s64 (x : Z) : u64 (s64 x) = u64 x.
Proof.
  unfold u64, s64.
  rewrite Zminus_mod, Zmod_mod, <- Zminus_mod. f_equal. lia.
Qed.

Lemma has_flag_lor (a b : Z) : b <> 0 -> has_flag (Z.lor a b) b = true.
Proof.
  intros B. apply has_flag_true.
  replace (Z.land (Z.lor a b) b) with b; [exact B|].
  apply Z.bits_inj'. intros n _.
  rewrite Z.land_spec, Z.lor_spec.
  destruct (Z.testbit a n), (Z.testbit b n); reflexivity.
Qed.

(** What [op_buffer_cb] reads off a header that [vb2_to_mmal_buffer]
    wrote. *)
Lemma vb2_to_mmal_buffer_flags (buf : mmal_buffer) (vb2 : vb2_v4l2_buffer)
  (current : Z) :
  let hdr := vb2_to_mmal_buffer 0 buf vb2 in
  let fl := mmal_flags hdr in
  (mmal_length hdr =? 0) && negb (has_flag fl MMAL_BUFFER_HEADER_FLAG_EOS)
    = false /\
  has_flag fl MMAL_BUFFER_HEADER_FLAG_EOS =
    (planes0_bytesused vb2 =? 0)
    || has_flag (vb2_flags vb2) V4L2_BUF_FLAG_LAST /\
  has_flag fl MMAL_BUFFER_HEADER_FLAG_KEYFRAME =
    has_flag (vb2_flags vb2) V4L2_BUF_FLAG_KEYFRAME /\
  has_flag fl MMAL_BUFFER_HEADER_FLAG_CORRUPTED = false /\
  field_of_mmal_flags fl current =
    (if vb2_field vb2 =? V4L2_FIELD_INTERLACED_BT
     then V4L2_FIELD_INTERLACED_BT
     else if vb2_field vb2 =? V4L2_FIELD_INTERLACED_TB
     then V4L2_FIELD_INTERLACED_TB
     else V4L2_FIELD_NONE).
Proof.
  cbv zeta. unfold vb2_to_mmal_buffer, field_of_mmal_flags.
  cbn [mmal_flags mmal_length Z.eqb].
  set (kf := has_flag (vb2_flags vb2) V4L2_BUF_FLAG_KEYFRAME).
  set (lastf := has_flag (vb2_flags vb2) V4L2_BUF_FLAG_LAST).
  destruct (planes0_bytesused vb2 =? 0), kf, lastf,
    (vb2_field vb2 =? V4L2_FIELD_INTERLACED_BT),
    (vb2_field vb2 =? V4L2_FIELD_INTERLACED_TB);
    vm_compute; repeat split; reflexivity.
Qed.

(** X11.  A header written by [vb2_to_mmal_buffer] and handed back
    unchanged on the output port is read by [op_buffer_cb] as follows: the
    time stamp comes back truncated to whole microseconds (so never later
    and less than a microsecond earlier, for every 64-bit value); the
    field order survives for the two interlaced orders the driver passes
    on and is progressive otherwise; a key-frame mark survives; and an
    empty or last-marked buffer comes back marked last, with one
    end-of-stream event queued. *)
Theorem vb2_header_round_trip (xf ye : Z -> Z) (qd : bool -> Z -> Z -> Z)
  (il : vchiq_mmal_port -> Z * mmal_interlace_type)
  (ctx : bcm2835_codec_ctx) (port : vchiq_mmal_port)
  (buf : mmal_buffer) (vb_in vb_out : vb2_v4l2_buffer)
  (format : mmal_msg_event_format_changed) :
  u64_range (vb2_timestamp vb_in) ->
  cmd buf = 0 ->
  let hdr := vb2_to_mmal_buffer 0 buf vb_in in
  exists ctx' vb' acts,
    Callbacks.op_buffer_cb il xf ye qd ctx port 0
      (mk_m2m_mmal_buffer vb_out hdr) format = Some (ctx', vb', acts) /\
    vb2_timestamp vb' = 1000 * (vb2_timestamp vb_in / 1000) /\
    vb2_timestamp vb_in - 999 <= vb2_timestamp vb' <= vb2_timestamp vb_in /\
    vb2_field vb' =
      (if vb2_field vb_in =? V4L2_FIELD_INTERLACED_BT
       then V4L2_FIELD_INTERLACED_BT
       else if vb2_field vb_in =? V4L2_FIELD_INTERLACED_TB
       then V4L2_FIELD_INTERLACED_TB
       else V4L2_FIELD_NONE) /\
    (has_flag (vb2_flags vb_in) V4L2_BUF_FLAG_KEYFRAME = true ->
     has_flag (vb2_flags vb') V4L2_BUF_FLAG_KEYFRAME = true) /\
    (planes0_bytesused vb_in = 0 \/
     has_flag (vb2_flags vb_in) V4L2_BUF_FLAG_LAST = true ->
     has_flag (vb2_flags vb') V4L2_BUF_FLAG_LAST = true /\
     fh_events ctx' = fh_events ctx ++ [V4L2_EVENT_EOS]).
Proof.
  intros [T0 T1] Cb. cbv zeta.
  destruct (vb2_to_mmal_buffer_flags buf vb_in (vb2_field vb_out))
    as (F1 & F2 & F3 & F4 & F5).
  cbv zeta in F1, F2, F3, F4, F5.
  unfold Callbacks.op_buffer_cb. cbv zeta. cbn [mmal m2m_vb Z.eqb negb].
  assert (Cm : cmd (vb2_to_mmal_buffer 0 buf vb_in) = 0) by exact Cb.
  rewrite Cm. cbn [Z.eqb negb]. rewrite F1, F2, F3, F4.
  assert (P : pts (vb2_to_mmal_buffer 0 buf vb_in)
              = s64 (vb2_timestamp vb_in / 1000)) by reflexivity.
  assert (Ts : u64 (s64 (pts (vb2_to_mmal_buffer 0 buf vb_in) * 1000))
               = 1000 * (vb2_timestamp vb_in / 1000)).
  { rewrite P.
    pose proof (Z.div_pos (vb2_timestamp vb_in) 1000).
    pose proof (Z.div_lt_upper_bound (vb2_timestamp vb_in) 1000 (2 ^ 63)).
    pose proof (Z.mul_div_le (vb2_timestamp vb_in) 1000).
    rewrite (s64_small (vb2_timestamp vb_in / 1000)) by lia.
    rewrite u64_of_s64.
    unfold u64. rewrite Z.mod_small; lia. }
  set (eos := (planes0_bytesused vb_in =? 0)
              || has_flag (vb2_flags vb_in) V4L2_BUF_FLAG_LAST).
  set (kf := has_flag (vb2_flags vb_in) V4L2_BUF_FLAG_KEYFRAME).
  do 3 eexists. split; [reflexivity|].
  pose proof (Z.mul_div_le (vb2_timestamp vb_in) 1000 ltac:(lia)).
  pose proof (Z.mod_pos_bound (vb2_timestamp vb_in) 1000 ltac:(lia)).
  pose proof (Z.div_mod (vb2_timestamp vb_in) 1000 ltac:(lia)).
  split; [|split; [|split; [|split]]].
  - destruct kf; cbn [vb2_timestamp vb2_set_plane_payload]; exact Ts.
  - destruct kf; cbn [vb2_timestamp vb2_set_plane_payload]; rewrite Ts; lia.
  - destruct kf; cbn [vb2_field vb2_set_plane_payload vb2_flags
                      vb2_timestamp planes0_bytesused]; exact F5.
  - intros K. subst kf. rewrite K. cbn [vb2_flags].
    apply has_flag_lor. vm_compute. congruence.
  - intros E. assert (Et : eos = true).
    { subst eos. apply orb_true_iff.
      destruct E as [E | E]; [left; apply Z.eqb_eq | right]; exact E. }
    rewrite Et. split.
    + destruct kf; cbn [vb2_flags vb2_set_plane_payload].
      * apply has_flag_true.
        rewrite Z.land_lor_distr_l.
        pose proof (has_flag_lor (vb2_flags vb_out) V4L2_BUF_FLAG_LAST
                      ltac:(vm_compute; congruence)) as L.
        apply has_flag_true in L.
        intros Z0. apply Z.lor_eq_0_iff in Z0. destruct Z0 as [Z0 _].
        contradiction.
      * apply has_flag_lor. vm_compute. congruence.
    + reflexivity.
Qed.

Lemma vb2_header_round_trip_witness :
  let vb_in := mk_vb2_v4l2_buffer V4L2_BUF_FLAG_KEYFRAME
                 V4L2_FIELD_INTERLACED_TB 33366999 4096 in
  exists ctx' vb' acts,
    Callbacks.op_buffer_cb example_interlace (fun _ => 0) (fun _ => 0)
      (fun _ _ _ => 0) example_ctx_streaming (example_port true 1 3) 0
      (mk_m2m_mmal_buffer (mk_vb2_v4l2_buffer 0 0 0 0)
         (vb2_to_mmal_buffer 0 (mk_mmal_buffer 0 0 0 0 0) vb_in))
      example_format_changed = Some (ctx', vb', acts) /\
    vb2_timestamp vb' = 1000 * (33366999 / 1000) /\
    vb2_field vb' = V4L2_FIELD_INTERLACED_TB.
Proof.
  cbv zeta.
  destruct (vb2_header_round_trip (fun _ => 0) (fun _ => 0)
              (fun _ _ _ => 0) example_interlace example_ctx_streaming
              (example_port true 1 3) (mk_mmal_buffer 0 0 0 0 0)
              (mk_vb2_v4l2_buffer V4L2_BUF_FLAG_KEYFRAME
                 V4L2_FIELD_INTERLACED_TB 33366999 4096)
              (mk_vb2_v4l2_buffer 0 0 0 0) example_format_changed)
    as (ctx' & vb' & acts & E & T & _ & F & _);
    [vm_compute; split; congruence | reflexivity |].
  exists ctx', vb', acts. split; [exact E|]. split; [exact T | exact F].
Defined.

(** ** The output callback *)

Lemma has_flag_lor_l (a b c : Z) :
  has_flag a b = true -> has_flag (Z.lor a c) b = true.
Proof.
  rewrite !has_flag_true. intros H Z0.
  rewrite Z.land_lor_distr_l in Z0.
  apply Z.lor_eq_0_iff in Z0. destruct Z0 as [Z0 _]. contradiction.
Qed.

Lemma act_mmal_not_buffer (calls : list mmal_call) :
  filter is_buffer_done (map act_mmal calls) = [] /\
  filter is_submit_buffer (map act_mmal calls) = [] /\
  ~ In act_complete (map act_mmal calls) /\
  forall vb st, ~ In (act_vb2_buffer_done vb st) (map act_mmal calls).
Proof.
  induction calls as [|c rest (A & B & C & D)]; cbn [map filter
    is_buffer_done is_submit_buffer].
  - repeat split; try reflexivity; intros; intros [].
  - split; [exact A|]. split; [exact B|]. split.
    + intros [E | I]; [discriminate E | exact (C I)].
    + intros vb st [E | I]; [discriminate E | exact (D vb st I)].
Qed.

(** X12.  Whatever comes in, [op_buffer_cb] passes the buffer on at most
    once (to videobuf2 or back to the accelerator, never both).  A buffer
    it returns as DONE had no error status, is not marked corrupted and is
    either non-empty or marked last, so the client never sees an unmarked
    empty buffer; one it returns as QUEUED is untouched and the port is
    disabled.  The flush completion is signalled only while the port is
    disabled with buffers still out.  A data buffer carrying the
    end-of-stream flag queues exactly one end-of-stream event and is
    returned marked last. *)
Theorem op_buffer_cb_dispositions (xf ye : Z -> Z)
  (qd : bool -> Z -> Z -> Z)
  (il : vchiq_mmal_port -> Z * mmal_interlace_type)
  (ctx ctx' : bcm2835_codec_ctx) (port : vchiq_mmal_port) (status : Z)
  (buf : m2m_mmal_buffer) (format : mmal_msg_event_format_changed)
  (vb' : vb2_v4l2_buffer) (acts : list driver_action) :
  Callbacks.op_buffer_cb il xf ye qd ctx port status buf format
    = Some (ctx', vb', acts) ->
  let fl := mmal_flags (mmal buf) in
  (length (filter is_buffer_done acts)
   + length (filter is_submit_buffer acts) <= 1)%nat /\
  (forall vb st, In (act_vb2_buffer_done vb st) acts ->
     vb = vb' /\
     match st with
     | VB2_BUF_STATE_DONE =>
         status = 0 /\
         has_flag fl MMAL_BUFFER_HEADER_FLAG_CORRUPTED = false /\
         (mmal_length (mmal buf) <> 0 \/
          has_flag (vb2_flags vb') V4L2_BUF_FLAG_LAST = true)
     | VB2_BUF_STATE_QUEUED =>
         enabled port = false /\ vb' = m2m_vb buf /\ ctx' = ctx
     | VB2_BUF_STATE_ERROR => True
     | _ => False
     end) /\
  (In act_complete acts ->
   enabled port = false /\ buffers_with_vpu port <> 0) /\
  (status = 0 -> cmd (mmal buf) = 0 ->
   has_flag fl MMAL_BUFFER_HEADER_FLAG_EOS = true ->
   fh_events ctx' = fh_events ctx ++ [V4L2_EVENT_EOS] /\
   has_flag (vb2_flags vb') V4L2_BUF_FLAG_LAST = true /\
   exists st, In (act_vb2_buffer_done vb' st) acts /\
              (st = VB2_BUF_STATE_DONE \/ st = VB2_BUF_STATE_ERROR)).
Proof.
  unfold Callbacks.op_buffer_cb. cbv zeta.
  set (fl := mmal_flags (mmal buf)).
  set (completes := if negb (enabled port)
                       && negb (buffers_with_vpu port =? 0)
                    then [act_complete] else []).
  assert (Cp : (filter is_buffer_done completes = [] /\
                filter is_submit_buffer completes = []) /\
               (forall vb st, ~ In (act_vb2_buffer_done vb st) completes) /\
               (In act_complete completes ->
                enabled port = false /\ buffers_with_vpu port <> 0)).
  { subst completes. destruct (enabled port); cbn [negb andb].
    - repeat split; try reflexivity; intros; try intros []; contradiction.
    - destruct (Z.eqb_spec (buffers_with_vpu port) 0); cbn [negb].
      + repeat split; try reflexivity; intros; try intros []; contradiction.
      + repeat split; try reflexivity; try assumption.
        intros vb st [E | []]. discriminate E. }
  destruct Cp as ((Cd & Cs) & Cn & Cc).
  destruct (Z.eqb_spec status 0) as [S0 | S0]; cbn [negb].
  2:{ intros [= <- <- <-]. split; [cbn; lia|]. split; [|split].
      - intros vb st [[= <- <-] | []]. split; [reflexivity | exact I].
      - intros [E | []]. discriminate E.
      - intros S1. contradiction. }
  destruct (Z.eqb_spec (cmd (mmal buf)) 0) as [C0 | C0]; cbn [negb].
  2:{ destruct (cmd (mmal buf) =? MMAL_EVENT_FORMAT_CHANGED).
      - destruct (handle_fmt_changed il xf ye qd ctx format) as [c calls].
        intros [= <- <- <-].
        destruct (act_mmal_not_buffer calls) as (A & B & C & D).
        rewrite A, B. split; [cbn; lia|]. split; [|split].
        + intros vb st In0. destruct (D vb st In0).
        + intros In0. destruct (C In0).
        + intros _ C1. contradiction.
      - intros [= <- <- <-]. split; [cbn; lia|]. split; [|split].
        + intros vb st [].
        + intros [].
        + intros _ C1. contradiction. }
  destruct ((mmal_length (mmal buf) =? 0)
            && negb (has_flag fl MMAL_BUFFER_HEADER_FLAG_EOS)) eqn:Empty.
  - apply andb_true_iff in Empty. destruct Empty as [_ Ne].
    apply negb_true_iff in Ne.
    destruct (enabled port) eqn:En; cbn [negb].
    + destruct (component ctx); [|discriminate].
      intros [= <- <- <-]. split; [cbn; lia|]. split; [|split].
      * intros vb st [E | []]. discriminate E.
      * intros [E | []]. discriminate E.
      * intros _ _ E. rewrite Ne in E. discriminate E.
    + intros [= <- <- <-]. split; [|split; [|split]].
      * destruct (negb (buffers_with_vpu port =? 0)); cbn; lia.
      * intros vb st [[= <- <-] | In0].
        -- repeat split; reflexivity.
        -- destruct (negb (buffers_with_vpu port =? 0));
             [destruct In0 as [E | []]; discriminate E | destruct In0].
      * intros [E | In0]; [discriminate E|].
        split; [reflexivity|].
        destruct (Z.eqb_spec (buffers_with_vpu port) 0);
          cbn [negb] in In0; [destruct In0 | assumption].
      * intros _ _ E. rewrite Ne in E. discriminate E.
  - set (eos := has_flag fl MMAL_BUFFER_HEADER_FLAG_EOS) in *.
    set (flags1 := if eos then Z.lor (vb2_flags (m2m_vb buf))
                                 V4L2_BUF_FLAG_LAST
                   else vb2_flags (m2m_vb buf)).
    set (st0 := if has_flag fl MMAL_BUFFER_HEADER_FLAG_CORRUPTED
                then VB2_BUF_STATE_ERROR else VB2_BUF_STATE_DONE).
    set (vbK := if has_flag fl MMAL_BUFFER_HEADER_FLAG_KEYFRAME
                then _ else _).
    assert (L : eos = true ->
                has_flag (vb2_flags vbK) V4L2_BUF_FLAG_LAST = true).
    { intros E. subst vbK flags1. rewrite E.
      pose proof (has_flag_lor (vb2_flags (m2m_vb buf)) V4L2_BUF_FLAG_LAST
                    ltac:(vm_compute; congruence)) as Hl.
      destruct (has_flag fl MMAL_BUFFER_HEADER_FLAG_KEYFRAME);
        cbn [vb2_flags vb2_set_plane_payload];
        [apply has_flag_lor_l|]; exact Hl. }
    intros [= <- <- <-]. split; [|split; [|split]].
    + cbn [filter is_buffer_done is_submit_buffer length].
      rewrite Cd, Cs. cbn. lia.
    + intros vb st [[= <- <-] | In0]; [|destruct (Cn vb st In0)].
      split; [reflexivity|]. subst st0.
      destruct (has_flag fl MMAL_BUFFER_HEADER_FLAG_CORRUPTED); [exact I|].
      split; [exact S0|]. split; [reflexivity|].
      apply andb_false_iff in Empty. destruct Empty as [E | E].
      * left. apply Z.eqb_neq. exact E.
      * right. apply L. apply negb_false_iff. exact E.
    + intros [E | In0]; [discriminate E | exact (Cc In0)].
    + intros _ _ E. rewrite E. split; [reflexivity|].
      split; [apply L; exact E|].
      exists st0. split; [left; reflexivity|].
      subst st0. destruct (has_flag fl MMAL_BUFFER_HEADER_FLAG_CORRUPTED);
        [right | left]; reflexivity.
Qed.

Lemma op_buffer_cb_dispositions_witness :
  exists ctx' vb' acts,
    Callbacks.op_buffer_cb example_interlace (fun _ => 0) (fun _ => 0)
      (fun _ _ _ => 0) example_ctx_streaming (example_port true 1 3) 0
      (mk_m2m_mmal_buffer (mk_vb2_v4l2_buffer 0 0 0 0) eos_buffer_header)
      example_format_changed = Some (ctx', vb', acts) /\
    fh_events ctx' = fh_events example_ctx_streaming ++ [V4L2_EVENT_EOS] /\
    has_flag (vb2_flags vb') V4L2_BUF_FLAG_LAST = true.
Proof.
  destruct (Callbacks.op_buffer_cb example_interlace (fun _ => 0)
              (fun _ => 0) (fun _ _ _ => 0) example_ctx_streaming
              (example_port true 1 3) 0
              (mk_m2m_mmal_buffer (mk_vb2_v4l2_buffer 0 0 0 0)
                 eos_buffer_header) example_format_changed)
    as [[[c v] a]|] eqn:E; [|vm_compute in E; discriminate E].
  exists c, v, a. split; [reflexivity|].
  destruct (op_buffer_cb_dispositions _ _ _ _ _ _ _ _ _ _ _ _ E)
    as (_ & _ & _ & D).
  destruct (D eq_refl eq_refl ltac:(vm_compute; reflexivity))
    as (Ev & L & _).
  split; [exact Ev | exact L].
Defined.

(** ** End of stream and restart *)

(** X13.  The stop command and the input callback shake hands over the
    session's EOS buffer.  [V4L2_DEC_CMD_STOP] on a decoder (without the
    unsupported stop-to-black flag) and [V4L2_ENC_CMD_STOP] return 0, mark
    the EOS buffer in use and, if the component exists, submit exactly one
    header on the input port: empty, with the end-of-stream flag.  When
    that buffer comes back, [ip_buffer_cb] returns nothing to videobuf2
    and only clears the mark, so a session whose EOS buffer was free is
    exactly as before the command.  A client buffer, by contrast, is
    always returned, exactly once and as it was.  On any role but the
    decoder the decoder command is refused without effect. *)
Theorem stop_command_handshake (ctx : bcm2835_codec_ctx)
  (port : vchiq_mmal_port) (status : Z) (c : v4l2_decoder_cmd) :
  eos_buffer_in_use (q_data ctx V4L2_M2M_SRC) = false ->
  let ctx1 := fst (cmd_stop ctx) in
  let acts := snd (cmd_stop ctx) in
  (role (dev ctx) = DECODE -> dec_cmd c = V4L2_DEC_CMD_STOP ->
   has_flag (dec_flags c) V4L2_DEC_CMD_STOP_TO_BLACK = false ->
   vidioc_decoder_cmd ctx c = (0, ctx1, acts)) /\
  (role (dev ctx) <> DECODE ->
   vidioc_decoder_cmd ctx c = (- EINVAL, ctx, [])) /\
  vidioc_encoder_cmd ctx V4L2_ENC_CMD_STOP = (0, ctx1, acts) /\
  eos_buffer_in_use (q_data ctx1 V4L2_M2M_SRC) = true /\
  acts = match component ctx with
         | Some _ => [act_submit_buffer INPUT_0 eos_buffer_header]
         | None => []
         end /\
  mmal_length eos_buffer_header = 0 /\
  has_flag (mmal_flags eos_buffer_header) MMAL_BUFFER_HEADER_FLAG_EOS
    = true /\
  Callbacks.ip_buffer_cb ctx1 port status EOS_BUFFER = (ctx, []) /\
  forall b, exists st,
    snd (Callbacks.ip_buffer_cb ctx1 port status (CLIENT_BUFFER b)) =
      act_vb2_buffer_done (m2m_vb b) st
      :: filter (fun a => negb (is_buffer_done a))
           (snd (Callbacks.ip_buffer_cb ctx1 port status
                   (CLIENT_BUFFER b))) /\
    (st = VB2_BUF_STATE_DONE -> status = 0 /\ enabled port = true).
Proof.
  intros Free. cbv zeta.
  assert (S : cmd_stop ctx =
              (set_q_data ctx V4L2_M2M_SRC
                 (set_q_eos_buffer_in_use (q_data ctx V4L2_M2M_SRC) true),
               match component ctx with
               | Some _ => [act_submit_buffer INPUT_0 eos_buffer_header]
               | None => []
               end)).
  { unfold cmd_stop. cbn [component set_q_data].
    destruct (component ctx); reflexivity. }
  split; [|split; [|split; [|split; [|split; [|split; [|split; [|split]]]]]]].
  - intros R Cs Nb. unfold vidioc_decoder_cmd, vidioc_try_decoder_cmd.
    rewrite R, Cs, Nb. cbn [role_eqb negb Z.eqb V4L2_DEC_CMD_STOP].
    destruct (cmd_stop ctx). reflexivity.
  - intros R. unfold vidioc_decoder_cmd, vidioc_try_decoder_cmd.
    destruct (role (dev ctx)); try contradiction; reflexivity.
  - unfold vidioc_encoder_cmd, vidioc_try_encoder_cmd.
    cbn [Z.eqb V4L2_ENC_CMD_STOP orb negb]. destruct (cmd_stop ctx).
    reflexivity.
  - rewrite S. reflexivity.
  - rewrite S. reflexivity.
  - reflexivity.
  - vm_compute. reflexivity.
  - rewrite S. cbn [fst Callbacks.ip_buffer_cb].
    destruct ctx as [d co ce cs ye xf qn hf vf qs qdst br fn fd ab ni no
                       oq cq ev].
    destruct qs as [bpl h cw ch ss ar fld sz sq fm inuse].
    cbn in Free. subst inuse. reflexivity.
  - intros b. rewrite S. cbn [fst Callbacks.ip_buffer_cb].
    destruct (Z.eqb_spec status 0) as [S0 | S0]; cbn [negb snd].
    + eexists. split.
      * cbn [filter is_buffer_done negb].
        destruct (negb (enabled port) && negb (buffers_with_vpu port =? 0));
          reflexivity.
      * destruct (enabled port); [intros _; split; [exact S0 | reflexivity]
                                 | discriminate].
    + eexists. split; [reflexivity | discriminate].
Qed.

Lemma stop_command_handshake_witness :
  vidioc_decoder_cmd example_ctx_streaming
    (mk_decoder_cmd V4L2_DEC_CMD_STOP 0) =
    (0, fst (cmd_stop example_ctx_streaming),
     [act_submit_buffer INPUT_0 eos_buffer_header]) /\
  Callbacks.ip_buffer_cb (fst (cmd_stop example_ctx_streaming))
    (example_port true 1 1) 0 EOS_BUFFER = (example_ctx_streaming, []).
Proof.
  destruct (stop_command_handshake example_ctx_streaming
              (example_port true 1 1) 0 (mk_decoder_cmd V4L2_DEC_CMD_STOP 0)
              eq_refl) as (D & _ & _ & _ & _ & _ & _ & I & _).
  split; [exact (D eq_refl eq_refl eq_refl) | exact I].
Defined.

(** X14.  Resuming after a resolution change.  A video format-changed
    event on a streaming capture queue marks the queue as having dequeued
    its last buffer; [V4L2_DEC_CMD_START] then returns 0, clears exactly
    that mark, and leaves the streaming state, the buffer count and
    everything the event negotiated as they are, without calling the
    accelerator. *)
Theorem decoder_cmd_start_after_fmt_changed (xf ye : Z -> Z)
  (qd : bool -> Z -> Z -> Z)
  (il : vchiq_mmal_port -> Z * mmal_interlace_type)
  (ctx : bcm2835_codec_ctx) (format : mmal_msg_event_format_changed)
  (c : v4l2_decoder_cmd) :
  role (dev ctx) = DECODE ->
  ev_format_type format = MMAL_ES_TYPE_VIDEO ->
  streaming (cap_q ctx) = true ->
  dec_cmd c = V4L2_DEC_CMD_START ->
  let ctx1 := fst (handle_fmt_changed il xf ye qd ctx format) in
  last_buffer_dequeued (cap_q ctx1) = true /\
  exists ctx2,
    vidioc_decoder_cmd ctx1 c = (0, ctx2, []) /\
    last_buffer_dequeued (cap_q ctx2) = false /\
    streaming (cap_q ctx2) = true /\
    num_buffers (cap_q ctx2) = num_buffers (cap_q ctx) /\
    negotiated_state ctx2 = negotiated_state ctx1 /\
    fh_events ctx2 = fh_events ctx1.
Proof.
  intros R V St Cs. cbv zeta.
  destruct (handle_fmt_changed_reported il xf ye qd ctx format V)
    as (D & _ & _ & S1 & N1 & L1).
  cbv zeta in D, S1, N1, L1.
  split; [exact (L1 St)|].
  unfold vidioc_decoder_cmd, vidioc_try_decoder_cmd.
  rewrite D, R, Cs. cbn [role_eqb negb Z.eqb V4L2_DEC_CMD_START
                         V4L2_DEC_CMD_STOP].
  eexists. split; [reflexivity|].
  cbn [set_cap_q cap_q last_buffer_dequeued streaming num_buffers].
  rewrite S1, St, N1. repeat split; reflexivity.
Qed.

Lemma decoder_cmd_start_after_fmt_changed_witness :
  let ctx0 := set_cap_q example_ctx_streaming (mk_vb2_queue 4 true false) in
  let ctx1 :=
    fst (handle_fmt_changed example_interlace (fun _ => 0) (fun _ => 0)
           (fun _ _ _ => 0) ctx0 example_format_changed) in
  last_buffer_dequeued (cap_q ctx1) = true /\
  exists ctx2,
    vidioc_decoder_cmd ctx1 (mk_decoder_cmd V4L2_DEC_CMD_START 0) =
      (0, ctx2, []) /\
    last_buffer_dequeued (cap_q ctx2) = false.
Proof.
  cbv zeta.
  destruct (decoder_cmd_start_after_fmt_changed (fun _ => 0) (fun _ => 0)
              (fun _ _ _ => 0) example_interlace
              (set_cap_q example_ctx_streaming (mk_vb2_queue 4 true false))
              example_format_changed (mk_decoder_cmd V4L2_DEC_CMD_START 0)
              eq_refl eq_refl eq_refl eq_refl)
    as (L & ctx2 & E & L2 & _).
  split; [exact L|]. exists ctx2. split; [exact E | exact L2].
Defined.

(** ** Scheduling a job *)

(** X15.  One run of [device_run] takes at most the oldest ready buffer
    of each queue, and only from a queue that is streaming; what it takes
    is exactly what it submits, converted by [vb2_to_mmal_buffer], the
    source buffer on the input port and the destination buffer on the
    output port; everything else stays queued in order; the job is always
    finished.  When [job_ready] says there is nothing to do, nothing is
    submitted. *)
Theorem device_run_takes_oldest (field_override : Z)
  (ctx : bcm2835_codec_ctx) (src_rdy dst_rdy src' dst' : list m2m_mmal_buffer)
  (acts : list driver_action) :
  device_run field_override ctx src_rdy dst_rdy = Some (src', dst', acts) ->
  let submit (p : port_id) (b : m2m_mmal_buffer) :=
    act_submit_buffer p
      (vb2_to_mmal_buffer field_override (mmal b) (m2m_vb b)) in
  exists taken_src taken_dst,
    src_rdy = taken_src ++ src' /\ dst_rdy = taken_dst ++ dst' /\
    (length taken_src <= 1)%nat /\ (length taken_dst <= 1)%nat /\
    (streaming (out_q ctx) = false -> taken_src = []) /\
    (streaming (cap_q ctx) = false -> taken_dst = []) /\
    acts = map (submit INPUT_0) taken_src ++ map (submit OUTPUT_0) taken_dst
           ++ [act_job_finish] /\
    (job_ready (Z.of_nat (length src_rdy)) (Z.of_nat (length dst_rdy)) = 0 ->
     acts = [act_job_finish]).
Proof.
  unfold device_run. cbv zeta.
  assert (T : forall (q : vb2_queue) (pid : port_id)
                     (rdy rdy' : list m2m_mmal_buffer) a,
    (if streaming q then
       match rdy with
       | [] => Some ([], [])
       | b :: rest =>
           match component ctx with
           | None => None
           | Some _ =>
               Some (rest,
                     [act_submit_buffer pid
                        (vb2_to_mmal_buffer field_override (mmal b)
                           (m2m_vb b))])
           end
       end
     else Some (rdy, [])) = Some (rdy', a) ->
    exists taken,
      rdy = taken ++ rdy' /\ (length taken <= 1)%nat /\
      (streaming q = false -> taken = []) /\
      (rdy = [] -> taken = []) /\
      a = map (fun b => act_submit_buffer pid
                 (vb2_to_mmal_buffer field_override (mmal b) (m2m_vb b)))
            taken).
  { intros q pid rdy rdy' a. destruct (streaming q).
    - destruct rdy as [|b rest].
      + intros [= <- <-]. exists []. cbn. repeat split; auto.
      + destruct (component ctx); [|discriminate].
        intros [= <- <-]. exists [b]. cbn.
        repeat split; auto; discriminate.
    - intros [= <- <-]. exists []. cbn. repeat split; auto. }
  set (t1 := if streaming (out_q ctx) then _ else _).
  destruct t1 as [[s1 a1]|] eqn:E1; [|discriminate].
  set (t2 := if streaming (cap_q ctx) then _ else _).
  destruct t2 as [[s2 a2]|] eqn:E2; [|discriminate].
  intros [= <- <- <-].
  destruct (T _ _ _ _ _ E1) as (ts & A1 & L1 & N1 & Z1 & M1).
  destruct (T _ _ _ _ _ E2) as (td & A2 & L2 & N2 & Z2 & M2).
  exists ts, td. subst a1 a2.
  repeat split; try assumption.
  unfold job_ready. intros J.
  destruct src_rdy; [|cbn in J; discriminate J].
  destruct dst_rdy; [|cbn in J; discriminate J].
  rewrite (Z1 eq_refl), (Z2 eq_refl). reflexivity.
Qed.

Lemma device_run_takes_oldest_witness :
  let b (n : Z) :=
    mk_m2m_mmal_buffer (mk_vb2_v4l2_buffer 0 V4L2_FIELD_NONE (n * 1000) n)
      (mk_mmal_buffer 0 0 0 0 0) in
  let ctx := set_cap_q example_ctx_streaming (mk_vb2_queue 4 true false) in
  exists acts,
    device_run 0 ctx [b 1; b 2] [b 3; b 4] = Some ([b 1; b 2], [b 4], acts) /\
    exists taken_dst, [b 3; b 4] = taken_dst ++ [b 4].
Proof.
  cbv zeta. eexists. split; [vm_compute; reflexivity|].
  destruct (device_run_takes_oldest 0 _ _ _ _ _ _
              (eq_refl : device_run 0
                 (set_cap_q example_ctx_streaming (mk_vb2_queue 4 true false))
                 [mk_m2m_mmal_buffer
                    (mk_vb2_v4l2_buffer 0 V4L2_FIELD_NONE (1 * 1000) 1)
                    (mk_mmal_buffer 0 0 0 0 0);
                  mk_m2m_mmal_buffer
                    (mk_vb2_v4l2_buffer 0 V4L2_FIELD_NONE (2 * 1000) 2)
                    (mk_mmal_buffer 0 0 0 0 0)]
                 [mk_m2m_mmal_buffer
                    (mk_vb2_v4l2_buffer 0 V4L2_FIELD_NONE (3 * 1000) 3)
                    (mk_mmal_buffer 0 0 0 0 0);
                  mk_m2m_mmal_buffer
                    (mk_vb2_v4l2_buffer 0 V4L2_FIELD_NONE (4 * 1000) 4)
                    (mk_mmal_buffer 0 0 0 0 0)] = Some (_, _, _)))
    as (ts & td & _ & A & _).
  exists td. exact A.
Defined.

(** ** Stopping a queue *)

Lemma returned_not_submitted (st : vb2_buffer_state)
  (l : list m2m_mmal_buffer) :
  filter is_submit_buffer
    (map (fun b => act_vb2_buffer_done (m2m_vb b) st) l) = [].
Proof. induction l as [|b l IH]; [reflexivity | exact IH]. Qed.

Section StopStreaming.

Variable vchiq_mmal_port_disable :
  port_id -> vchiq_mmal_port -> Z * vchiq_mmal_port.
Variable vchiq_mmal_port_enable :
  port_id -> buffer_cb -> vchiq_mmal_port -> Z * vchiq_mmal_port.
Variable HZ : Z.

Local Abbreviation stop_streaming :=
  (bcm2835_codec_stop_streaming vchiq_mmal_port_disable
     vchiq_mmal_port_enable HZ).

(** The shape every successful [bcm2835_codec_stop_streaming] has. *)
Lemma stop_streaming_shape (ctx ctx' : bcm2835_codec_ctx)
  (q_type : v4l2_buf_type) (src_rdy dst_rdy src' dst' : list m2m_mmal_buffer)
  (acts : list driver_action) :
  stop_streaming ctx q_type src_rdy dst_rdy = Some (ctx', src', dst', acts) ->
  exists pid c c' tail,
    get_port_data ctx q_type = Some pid /\
    component ctx = Some c /\
    component ctx' = Some c' /\
    (q_type = V4L2_BUF_TYPE_VIDEO_OUTPUT_MPLANE /\ pid = INPUT_0 \/
     q_type = V4L2_BUF_TYPE_VIDEO_CAPTURE_MPLANE /\ pid = OUTPUT_0) /\
    negotiated_state ctx' = negotiated_state ctx /\
    src' = (if V4L2_TYPE_IS_OUTPUT q_type then [] else src_rdy) /\
    dst' = (if V4L2_TYPE_IS_OUTPUT q_type then dst_rdy else []) /\
    acts =
      act_init_completion
      :: map (fun b => act_vb2_buffer_done (m2m_vb b) VB2_BUF_STATE_QUEUED)
           (if V4L2_TYPE_IS_OUTPUT q_type then src_rdy else dst_rdy)
      ++ act_mmal (call_port_disable pid)
      :: map act_mmal
           (bcm2835_codec_flush_buffers HZ
              (snd (vchiq_mmal_port_disable pid (port_of c pid))))
      ++ tail /\
    (let reenable :=
       role_eqb (role (dev ctx)) DECODE && is_capture_mplane q_type
       && enabled (input_0 c) in
     let off :=
       component_enabled ctx && negb (enabled (input_0 c'))
       && negb (enabled (output_0 c')) in
     tail =
       (if reenable
        then [act_mmal (call_port_enable OUTPUT_0 op_buffer_cb)] else [])
       ++ (if off then [act_component_disable] else [])
       ++ (if V4L2_TYPE_IS_OUTPUT q_type then [act_buffer_cleanup_eos]
           else []) /\
     component_enabled ctx' = component_enabled ctx && negb off) /\
    (pid = OUTPUT_0 -> input_0 c' = input_0 c) /\
    (pid = INPUT_0 -> output_0 c' = output_0 c).
Proof.
  unfold bcm2835_codec_stop_streaming.
  destruct (get_port_data ctx q_type) as [pid|] eqn:P; [|discriminate].
  destruct (component ctx) as [c|] eqn:C; [|discriminate].
  assert (Ty : q_type = V4L2_BUF_TYPE_VIDEO_OUTPUT_MPLANE /\ pid = INPUT_0 \/
               q_type = V4L2_BUF_TYPE_VIDEO_CAPTURE_MPLANE /\ pid = OUTPUT_0).
  { unfold get_port_data in P. rewrite C in P.
    destruct q_type; try discriminate P; injection P as <-;
      [right | left]; split; reflexivity. }
  cbv zeta.
  destruct (vchiq_mmal_port_disable pid (port_of c pid)) as [r port] eqn:Dis.
  set (acts0 := (act_init_completion :: map _ _) ++ _).
  set (c1 := set_port c pid port).
  assert (Shape : forall tail,
    acts0 ++ tail =
    act_init_completion
    :: map (fun b => act_vb2_buffer_done (m2m_vb b) VB2_BUF_STATE_QUEUED)
         (if V4L2_TYPE_IS_OUTPUT q_type then src_rdy else dst_rdy)
    ++ act_mmal (call_port_disable pid)
    :: map act_mmal
         (bcm2835_codec_flush_buffers HZ
            (snd (vchiq_mmal_port_disable pid (port_of c pid))))
    ++ tail).
  { intros tail. subst acts0. rewrite Dis. cbn [snd app].
    rewrite <- app_assoc. reflexivity. }
  destruct Ty as [[-> ->] | [-> ->]]; cbn [V4L2_TYPE_IS_OUTPUT
                                           is_capture_mplane] in *.
  - (* the output queue *)
    assert (R : (match role (dev ctx) with
                 | DECODE => (c1, acts0)
                 | _ => (c1, acts0)
                 end) = (c1, acts0)) by (destruct (role (dev ctx)); reflexivity).
    rewrite R. rewrite andb_false_r. cbn [andb app].
    destruct (component_enabled ctx && negb (enabled (input_0 c1))
              && negb (enabled (output_0 c1))) eqn:Off.
    + intros [= <- <- <- <-].
      exists INPUT_0, c, c1,
        ([act_component_disable] ++ [act_buffer_cleanup_eos]).
      split; [reflexivity|]. split; [reflexivity|].
      split; [reflexivity|]. split; [left; split; reflexivity|].
      split; [reflexivity|]. split; [reflexivity|].
      split; [reflexivity|].
      split; [rewrite <- Shape, app_assoc; reflexivity|].
      cbn [component_enabled set_component set_component_enabled].
      rewrite Off. cbn [negb]. rewrite andb_false_r.
      (split; [split; reflexivity|]);
        split; intros E; first [reflexivity | discriminate E].
    + intros [= <- <- <- <-].
      exists INPUT_0, c, c1, ([] ++ [act_buffer_cleanup_eos]).
      split; [reflexivity|]. split; [reflexivity|].
      split; [reflexivity|]. split; [left; split; reflexivity|].
      split; [reflexivity|]. split; [reflexivity|].
      split; [reflexivity|].
      split; [rewrite <- Shape; reflexivity|].
      cbn [component_enabled set_component].
      rewrite Off. cbn [negb]. rewrite andb_true_r.
      (split; [split; reflexivity|]);
        split; intros E; first [reflexivity | discriminate E].
  - (* the capture queue *)
    rewrite andb_true_r.
    destruct (role_eqb (role (dev ctx)) DECODE && enabled (input_0 c))
      eqn:Re.
    + apply andb_true_iff in Re. destruct Re as [Rd Ei].
      assert (Rd' : role (dev ctx) = DECODE)
        by (destruct (role (dev ctx)); try discriminate Rd; reflexivity).
      rewrite Rd'.
      assert (Ei1 : enabled (input_0 c1) = true) by exact Ei.
      rewrite Ei1.
      destruct (vchiq_mmal_port_enable OUTPUT_0 op_buffer_cb (output_0 c1))
        as [r2 p2].
      assert (Ei2 : enabled (input_0 (set_port c1 OUTPUT_0 p2)) = true)
        by exact Ei.
      rewrite Ei2. cbn [negb]. rewrite andb_false_r. cbn [andb].
      intros [= <- <- <- <-].
      exists OUTPUT_0, c, (set_port c1 OUTPUT_0 p2),
        ([act_mmal (call_port_enable OUTPUT_0 op_buffer_cb)] ++ [] ++ []).
      split; [reflexivity|]. split; [reflexivity|].
      split; [reflexivity|]. split; [right; split; reflexivity|].
      split; [reflexivity|]. split; [reflexivity|].
      split; [reflexivity|].
      split; [rewrite <- Shape; reflexivity|].
      cbn [component_enabled set_component].
      rewrite Ei, Ei2. cbn [role_eqb andb negb].
      rewrite andb_false_r. cbn [andb negb].
      rewrite andb_true_r. (split; [split; reflexivity|]);
        split; intros E; first [reflexivity | discriminate E].
    + assert (R : (match role (dev ctx) with
                   | DECODE =>
                       if enabled (input_0 c1)
                       then
                         let '(_, p) :=
                           vchiq_mmal_port_enable OUTPUT_0 op_buffer_cb
                             (output_0 c1) in
                         (set_port c1 OUTPUT_0 p,
                          acts0 ++ [act_mmal (call_port_enable OUTPUT_0
                                                op_buffer_cb)])
                       else (c1, acts0)
                   | _ => (c1, acts0)
                   end) = (c1, acts0)).
      { assert (Ei1 : enabled (input_0 c1) = enabled (input_0 c))
          by reflexivity.
        destruct (role (dev ctx)); try reflexivity.
        cbn [role_eqb andb] in Re. rewrite Ei1, Re. reflexivity. }
      rewrite R. clear R.
      destruct (component_enabled ctx && negb (enabled (input_0 c1))
                && negb (enabled (output_0 c1))) eqn:Off.
      * intros [= <- <- <- <-].
        exists OUTPUT_0, c, c1, ([] ++ [act_component_disable] ++ []).
        split; [reflexivity|]. split; [reflexivity|].
        split; [reflexivity|]. split; [right; split; reflexivity|].
        split; [reflexivity|]. split; [reflexivity|].
        split; [reflexivity|].
        split; [rewrite <- Shape; reflexivity|].
        cbn [component_enabled set_component set_component_enabled].
        rewrite Re, Off. cbn [negb]. rewrite andb_false_r.
        (split; [split; reflexivity|]);
        split; intros E; first [reflexivity | discriminate E].
      * intros [= <- <- <- <-].
        exists OUTPUT_0, c, c1, ([] ++ [] ++ []).
        split; [reflexivity|]. split; [reflexivity|].
        split; [reflexivity|]. split; [right; split; reflexivity|].
        split; [reflexivity|]. split; [reflexivity|].
        split; [reflexivity|].
        split; [rewrite <- Shape; cbn [app]; rewrite app_nil_r;
                reflexivity|].
        cbn [component_enabled set_component].
        rewrite Re, Off. cbn [negb]. rewrite andb_true_r.
        (split; [split; reflexivity|]);
        split; intros E; first [reflexivity | discriminate E].
Qed.

Lemma returned_all_done (st : vb2_buffer_state)
  (l : list m2m_mmal_buffer) :
  filter is_buffer_done
    (map (fun b => act_vb2_buffer_done (m2m_vb b) st) l) =
  map (fun b => act_vb2_buffer_done (m2m_vb b) st) l.
Proof.
  induction l as [|b l IH]; [reflexivity|].
  cbn [map filter is_buffer_done]. rewrite IH. reflexivity.
Qed.

(** X16.  Stopping a queue hands every buffer the m2m framework still
    holds for that queue back to videobuf2, each exactly once, in order
    and in the QUEUED state, and returns no other buffer; all of that
    happens before the port is disabled; nothing is submitted to the
    accelerator; the queue's ready list ends empty and the other
    direction's list is untouched, as is everything negotiated. *)
Theorem stop_streaming_returns_held_buffers (ctx ctx' : bcm2835_codec_ctx)
  (q_type : v4l2_buf_type) (src_rdy dst_rdy src' dst' : list m2m_mmal_buffer)
  (acts : list driver_action) :
  stop_streaming ctx q_type src_rdy dst_rdy = Some (ctx', src', dst', acts) ->
  let is_output := V4L2_TYPE_IS_OUTPUT q_type in
  let returned :=
    map (fun b => act_vb2_buffer_done (m2m_vb b) VB2_BUF_STATE_QUEUED)
      (if is_output then src_rdy else dst_rdy) in
  filter is_buffer_done acts = returned /\
  filter is_submit_buffer acts = [] /\
  (exists pid after,
     acts = act_init_completion :: returned
            ++ act_mmal (call_port_disable pid) :: after) /\
  src' = (if is_output then [] else src_rdy) /\
  dst' = (if is_output then dst_rdy else []) /\
  negotiated_state ctx' = negotiated_state ctx.
Proof.
  intros S. cbv zeta.
  destruct (stop_streaming_shape _ _ _ _ _ _ _ _ S)
    as (pid & c & c' & tail & _ & _ & _ & _ & N & Es & Ed & Ea & (Et & _)
        & _).
  cbv zeta in Et.
  assert (Tl : filter is_buffer_done tail = [] /\
               filter is_submit_buffer tail = []).
  { rewrite Et.
    destruct (role_eqb (role (dev ctx)) DECODE && is_capture_mplane q_type
              && enabled (input_0 c));
      destruct (component_enabled ctx && negb (enabled (input_0 c'))
                && negb (enabled (output_0 c')));
      destruct (V4L2_TYPE_IS_OUTPUT q_type); split; reflexivity. }
  destruct Tl as [Td Ts].
  destruct (act_mmal_not_buffer
              (bcm2835_codec_flush_buffers HZ
                 (snd (vchiq_mmal_port_disable pid (port_of c pid)))))
    as (Fd & Fs & _).
  split; [|split; [|split; [|split; [|split]]]]; try assumption.
  - rewrite Ea. cbn [filter is_buffer_done].
    rewrite filter_app. cbn [filter is_buffer_done].
    rewrite filter_app, Fd, Td, returned_all_done, app_nil_r.
    reflexivity.
  - rewrite Ea. cbn [filter is_submit_buffer].
    rewrite filter_app. cbn [filter is_submit_buffer].
    rewrite filter_app, Fs, Ts, returned_not_submitted. reflexivity.
  - exists pid. eexists. exact Ea.
Qed.

(** X17.  Stopping a queue never leaves the component enabled with both
    of its ports disabled, and disables it in no other case.  Afterwards
    the session counts the component as enabled exactly when it did
    before and one of the two ports is still enabled; the component is
    disabled exactly when it was enabled and both ports ended up
    disabled, and the session then no longer counts it as enabled.  The
    port of the other queue is left as it was.  On a decoder whose input
    port is enabled, stopping the capture queue re-enables the output
    port with the output callback and keeps the component as it was, so
    resolution changes keep arriving. *)
Theorem stop_streaming_component_invariant (ctx ctx' : bcm2835_codec_ctx)
  (q_type : v4l2_buf_type) (src_rdy dst_rdy src' dst' : list m2m_mmal_buffer)
  (acts : list driver_action) :
  stop_streaming ctx q_type src_rdy dst_rdy = Some (ctx', src', dst', acts) ->
  exists c c',
    component ctx = Some c /\ component ctx' = Some c' /\
    component_enabled ctx' =
      component_enabled ctx
      && (enabled (input_0 c') || enabled (output_0 c')) /\
    (component_enabled ctx' = true ->
     component_enabled ctx = true /\
     (enabled (input_0 c') = true \/ enabled (output_0 c') = true)) /\
    (In act_component_disable acts <->
     component_enabled ctx = true /\
     enabled (input_0 c') = false /\ enabled (output_0 c') = false) /\
    (In act_component_disable acts -> component_enabled ctx' = false) /\
    (q_type = V4L2_BUF_TYPE_VIDEO_OUTPUT_MPLANE /\ output_0 c' = output_0 c \/
     q_type = V4L2_BUF_TYPE_VIDEO_CAPTURE_MPLANE /\ input_0 c' = input_0 c) /\
    (role (dev ctx) = DECODE ->
     q_type = V4L2_BUF_TYPE_VIDEO_CAPTURE_MPLANE ->
     enabled (input_0 c) = true ->
     In (act_mmal (call_port_enable OUTPUT_0 op_buffer_cb)) acts /\
     component_enabled ctx' = component_enabled ctx).
Proof.
  intros S.
  destruct (stop_streaming_shape _ _ _ _ _ _ _ _ S)
    as (pid & c & c' & tail & _ & C & C' & Ty & _ & _ & _ & Ea & (Et & Ce)
        & Oi & Oo).
  cbv zeta in Et, Ce.
  exists c, c'. split; [exact C|]. split; [exact C'|].
  set (off := component_enabled ctx && negb (enabled (input_0 c'))
              && negb (enabled (output_0 c'))) in *.
  assert (Io : In act_component_disable acts <-> off = true).
  { rewrite Ea, Et. split.
    - intros [E | I]; [discriminate E|].
      apply in_app_or in I. destruct I as [I | I].
      { apply in_map_iff in I. destruct I as (b & E & _).
        discriminate E. }
      destruct I as [E | I]; [discriminate E|].
      apply in_app_or in I. destruct I as [I | I].
      { apply in_map_iff in I. destruct I as (b & E & _).
        discriminate E. }
      apply in_app_or in I. destruct I as [I | I].
      { destruct (role_eqb (role (dev ctx)) DECODE
                  && is_capture_mplane q_type && enabled (input_0 c));
          [destruct I as [E | []]; discriminate E | destruct I]. }
      apply in_app_or in I. destruct I as [I | I].
      { destruct off; [reflexivity | destruct I]. }
      destruct (V4L2_TYPE_IS_OUTPUT q_type);
        [destruct I as [E | []]; discriminate E | destruct I].
    - intros ->. right. apply in_or_app. right. right.
      apply in_or_app. right. apply in_or_app. right.
      apply in_or_app. left. left. reflexivity. }
  assert (Fl : component_enabled ctx' =
               component_enabled ctx
               && (enabled (input_0 c') || enabled (output_0 c'))).
  { rewrite Ce. subst off.
    destruct (component_enabled ctx), (enabled (input_0 c')),
      (enabled (output_0 c')); reflexivity. }
  assert (Off : off = true <->
                component_enabled ctx = true /\
                enabled (input_0 c') = false /\
                enabled (output_0 c') = false).
  { subst off.
    destruct (component_enabled ctx), (enabled (input_0 c')),
      (enabled (output_0 c')); cbn [andb negb];
      split; try (intros (? & ? & ?)); try discriminate; auto. }
  split; [exact Fl|]. split; [|split; [|split; [|split]]].
  - intros E. rewrite Fl in E. apply andb_true_iff in E.
    destruct E as [E1 E2]. split; [exact E1|].
    apply orb_true_iff in E2. exact E2.
  - rewrite Io. exact Off.
  - intros I. apply Io in I. apply Off in I.
    destruct I as (_ & I1 & I2). rewrite Fl, I1, I2.
    apply andb_false_r.
  - destruct Ty as [[T P] | [T P]].
    + left. split; [exact T | exact (Oo P)].
    + right. split; [exact T | exact (Oi P)].
  - intros R T Ei. subst q_type.
    destruct Ty as [[T _] | [_ ->]]; [discriminate T|].
    pose proof (Oi eq_refl) as Oi'.
    split.
    + rewrite Ea, Et, R, Ei. cbn [role_eqb is_capture_mplane andb].
      right. apply in_or_app. right. right.
      apply in_or_app. right. left. reflexivity.
    + rewrite Fl, Oi', Ei. cbn [orb]. apply andb_true_r.
Qed.

End StopStreaming.

Lemma stop_streaming_returns_held_buffers_witness :
  let b (n : Z) :=
    mk_m2m_mmal_buffer (mk_vb2_v4l2_buffer 0 V4L2_FIELD_NONE (n * 1000) n)
      (mk_mmal_buffer 0 0 0 0 0) in
  exists ctx' acts,
    bcm2835_codec_stop_streaming example_port_disable example_port_enable
      100 example_ctx_streaming V4L2_BUF_TYPE_VIDEO_CAPTURE_MPLANE
      [b 7] [b 1; b 2] = Some (ctx', [b 7], [], acts) /\
    filter is_buffer_done acts =
      [act_vb2_buffer_done (m2m_vb (b 1)) VB2_BUF_STATE_QUEUED;
       act_vb2_buffer_done (m2m_vb (b 2)) VB2_BUF_STATE_QUEUED].
Proof.
  cbv zeta.
  destruct (bcm2835_codec_stop_streaming example_port_disable
              example_port_enable 100 example_ctx_streaming
              V4L2_BUF_TYPE_VIDEO_CAPTURE_MPLANE
              [mk_m2m_mmal_buffer
                 (mk_vb2_v4l2_buffer 0 V4L2_FIELD_NONE (7 * 1000) 7)
                 (mk_mmal_buffer 0 0 0 0 0)]
              [mk_m2m_mmal_buffer
                 (mk_vb2_v4l2_buffer 0 V4L2_FIELD_NONE (1 * 1000) 1)
                 (mk_mmal_buffer 0 0 0 0 0);
               mk_m2m_mmal_buffer
                 (mk_vb2_v4l2_buffer 0 V4L2_FIELD_NONE (2 * 1000) 2)
                 (mk_mmal_buffer 0 0 0 0 0)])
    as [[[[c s] d] a]|] eqn:E; [|vm_compute in E; discriminate E].
  destruct (stop_streaming_returns_held_buffers _ _ _ _ _ _ _ _ _ _ _ E)
    as (F & _ & _ & Es & Ed & _).
  cbn [V4L2_TYPE_IS_OUTPUT] in F, Es, Ed. subst s d.
  exists c, a. split; [reflexivity | exact F].
Defined.

Lemma stop_streaming_component_invariant_witness :
  exists ctx' acts,
    bcm2835_codec_stop_streaming example_port_disable example_port_enable
      100 (set_component_enabled example_ctx_streaming true)
      V4L2_BUF_TYPE_VIDEO_CAPTURE_MPLANE [] [] = Some (ctx', [], [], acts) /\
    In act_component_disable acts /\ component_enabled ctx' = false.
Proof.
  destruct (bcm2835_codec_stop_streaming example_port_disable
              example_port_enable 100
              (set_component_enabled example_ctx_streaming true)
              V4L2_BUF_TYPE_VIDEO_CAPTURE_MPLANE [] [])
    as [[[[c s] d] a]|] eqn:E; [|vm_compute in E; discriminate E].
  destruct (stop_streaming_component_invariant _ _ _ _ _ _ _ _ _ _ _ E)
    as (c0 & c1 & _ & C1 & _ & _ & D & F & _).
  vm_compute in E. injection E as <- <- <- <-.
  vm_compute in C1. injection C1 as <-.
  assert (I : In act_component_disable
                [act_init_completion;
                 act_mmal (call_port_disable OUTPUT_0);
                 act_component_disable]).
  { apply D. repeat split; reflexivity. }
  do 2 eexists. split; [reflexivity|]. split; [exact I | exact (F I)].
Defined.

(** ** Setting up a queue *)

Lemma port_of_set_port (c : vchiq_mmal_component) (pid : port_id)
  (p : vchiq_mmal_port) : port_of (set_port c pid p) pid = p.
Proof. destruct pid; reflexivity. Qed.

(** X18.  [bcm2835_codec_queue_setup] against its neighbours.  When
    videobuf2 asks for the layout (no planes given) and the call returns
    0, it reports one plane of the negotiated [sizeimage], raises the
    buffer count to the port's minimum, and programs the port with that
    size and one buffer more than the count (the spare takes the EOS);
    starting to stream with any count up to the reported one then finds
    the port large enough, so the buffer-count step of start-streaming
    changes nothing and makes no call.  When planes are given (buffers
    added to an existing layout) and the session has its component, the
    call changes nothing and accepts a plane size exactly when it is at
    least the [sizeimage] that get-format reports. *)
Theorem queue_setup_then_start_streaming
  (create : bcm2835_codec_ctx -> Z * bcm2835_codec_ctx)
  (set_format : port_id -> vchiq_mmal_port -> Z * vchiq_mmal_port)
  (ctx ctx' : bcm2835_codec_ctx) (q_type : v4l2_buf_type)
  (nbuffers nplanes sizes_0 ret n' np' s' : Z) :
  0 <= nbuffers < 2 ^ 32 - 1 ->
  bcm2835_codec_queue_setup create ctx q_type nbuffers nplanes sizes_0
    = Some (ret, ctx', (n', np', s')) ->
  (nplanes = 0 -> ret = 0 ->
   exists qi pid c,
     get_q_data q_type = Some qi /\
     get_port_data ctx' q_type = Some pid /\
     component ctx' = Some c /\
     let port := port_of c pid in
     n' = Z.max nbuffers (minimum_buffer_num port) /\
     np' = 1 /\
     s' = sizeimage (q_data ctx' qi) /\
     current_buffer_size port = s' /\
     current_buffer_num port = add_uint n' 1 /\
     (0 <= minimum_buffer_num port < 2 ^ 32 - 1 ->
      current_buffer_num port = n' + 1 /\
      forall count r, 0 <= count <= n' ->
        start_streaming_buffer_count set_format pid port count r
          = (r, port, []))) /\
  (nplanes <> 0 -> component ctx <> None ->
   forall f f', fmt_type f = q_type ->
     vidioc_g_fmt ctx f = Some (0, f') ->
     ctx' = ctx /\ (n', np', s') = (nbuffers, nplanes, sizes_0) /\
     (ret = 0 \/ ret = - EINVAL) /\
     (ret = 0 <-> plane_fmt0_sizeimage f' <= sizes_0)).
Proof.
  intros Bn. unfold bcm2835_codec_queue_setup.
  destruct (get_q_data q_type) as [qi|] eqn:Q.
  2:{ intros [= <- <- <- <- <-]. split.
      - intros _ E. discriminate E.
      - intros _ _ f f' T G. unfold vidioc_g_fmt in G.
        rewrite T, Q in G. discriminate G. }
  set (cr := match component ctx with
             | Some _ => (0, ctx)
             | None => create ctx
             end).
  assert (Cr : component ctx <> None -> cr = (0, ctx)).
  { subst cr. destruct (component ctx); [reflexivity | contradiction]. }
  destruct cr as [created ctx1].
  destruct (Z.eqb_spec created 0) as [-> | Nc]; cbn [negb].
  2:{ intros [= <- <- <- <- <-]. split.
      - intros _ E. discriminate E.
      - intros _ Co. specialize (Cr Co). injection Cr as E _.
        contradiction. }
  destruct (Z.eqb_spec nplanes 0) as [-> | Np]; cbn [negb].
  - destruct (get_port_data ctx1 q_type) as [pid|] eqn:P; [|discriminate].
    destruct (component ctx1) as [c|] eqn:C; [|discriminate].
    set (port' := mk_port _ _ _ _ _ _ _ _ _ _ _ _ _ _ _ _).
    intros [= <- <- <- <- <-]. split; [|intros N; contradiction].
    intros _ _. exists qi, pid, (set_port c pid port').
    split; [reflexivity|].
    assert (Cp : component (put_port ctx1 pid port')
                 = Some (set_port c pid port')).
    { unfold put_port. rewrite C. reflexivity. }
    split.
    { unfold get_port_data in *. rewrite Cp. rewrite C in P. exact P. }
    split; [exact Cp|].
    cbv zeta. rewrite port_of_set_port. subst port'.
    cbn [minimum_buffer_num current_buffer_size current_buffer_num].
    rewrite start_streaming_count_max.
    set (m := minimum_buffer_num (port_of c pid)).
    split; [reflexivity|]. split; [reflexivity|].
    split.
    { unfold put_port. rewrite C. destruct qi; reflexivity. }
    split; [reflexivity|]. split; [reflexivity|].
    intros Bm. rewrite add_uint_exact by lia. split; [reflexivity|].
    intros count r Bc. unfold start_streaming_buffer_count.
    cbn [minimum_buffer_num current_buffer_num].
    fold m. rewrite start_streaming_count_max.
    rewrite add_uint_exact by lia.
    destruct (Z.ltb_spec (Z.max nbuffers m + 1) (Z.max count m + 1));
      [lia | reflexivity].
  - intros [= <- <- <- <- <-]. split; [intros N; contradiction|].
    intros _ Co f f' T G. specialize (Cr Co). injection Cr as ->.
    unfold vidioc_g_fmt in G. rewrite T, Q in G.
    injection G as <-. cbn [plane_fmt0_sizeimage].
    split; [reflexivity|]. split; [reflexivity|].
    destruct (Z.ltb_spec sizes_0 (sizeimage (q_data ctx qi))).
    + split; [right; reflexivity|]. split; [discriminate | lia].
    + split; [left; reflexivity|]. split; [intros _; lia | reflexivity].
Qed.

Lemma queue_setup_then_start_streaming_witness :
  exists ctx' s',
    bcm2835_codec_queue_setup (fun c => (0, c)) example_ctx_streaming
      V4L2_BUF_TYPE_VIDEO_CAPTURE_MPLANE 4 0 0 = Some (0, ctx', (4, 1, s')) /\
    exists c,
      component ctx' = Some c /\
      current_buffer_num (port_of c OUTPUT_0) = 4 + 1 /\
      start_streaming_buffer_count example_port_set_format OUTPUT_0
        (port_of c OUTPUT_0) 3 0 = (0, port_of c OUTPUT_0, []).
Proof.
  destruct (bcm2835_codec_queue_setup (fun c => (0, c))
              example_ctx_streaming V4L2_BUF_TYPE_VIDEO_CAPTURE_MPLANE 4 0 0)
    as [[[r c] [[n np] s]]|] eqn:E; [|vm_compute in E; discriminate E].
  destruct (queue_setup_then_start_streaming (fun c => (0, c))
              example_port_set_format example_ctx_streaming c
              V4L2_BUF_TYPE_VIDEO_CAPTURE_MPLANE 4 0 0 r n np s
              ltac:(lia) E) as (K & _).
  vm_compute in E. injection E as <- <- <- <- <-.
  destruct (K eq_refl eq_refl) as (qi & pid & c & Q & P & C & W).
  cbv zeta in W. destruct W as (_ & _ & _ & _ & _ & W).
  injection P as <-. injection C as <-.
  do 2 eexists. split; [reflexivity|]. eexists. split; [reflexivity|].
  destruct W as (N & S); [vm_compute; split; congruence|].
  split; [exact N | apply S; lia].
Defined.

(** ** A fresh session *)

(** The minimum stride is already a multiple of the alignment, so the
    alignment step of try-format leaves it alone. *)
Lemma min_stride_aligned (fm : bcm2835_codec_fmt)
  (role : bcm2835_codec_role) (w h : Z) :
  fmt_wf fm = true ->
  (fourcc fm =? V4L2_PIX_FMT_NV12_COL128) = false ->
  0 <= w <= MAX_W_ISP ->
  ALIGN_uint (get_bytesperline w h fm role) (bytesperline_align_at fm role)
  = get_bytesperline w h fm role.
Proof.
  intros W N Bw. destruct (is_compressed fm) eqn:C.
  - destruct (fmt_wf_compressed fm role W C) as (_ & A).
    rewrite A, ALIGN_uint_zero. unfold get_bytesperline.
    rewrite N, A, ALIGN_int_zero. reflexivity.
  - destruct (raw_stride_value fm role w h W C N Bw) as (E & B).
    destruct (fmt_wf_raw fm role W C) as (D & _ & _ & A).
    assert (K : exists k, 5 <= k <= 6 /\
                          bytesperline_align_at fm role = 2 ^ k).
    { destruct A as [A | A]; [exists 5 | exists 6]; split; (lia || exact A). }
    destruct K as (k & Hk & Ek).
    rewrite E in B. rewrite E. rewrite Ek in B. rewrite Ek.
    assert (Pk : 0 < 2 ^ k <= 64).
    { assert (k = 5 \/ k = 6) as [-> | ->] by lia; lia. }
    rewrite ALIGN_uint_pow2 by lia.
    apply alignUp_fixed; [lia|]. apply alignUp_multiple. lia.
Qed.

(** X19.  The format of a session that was just opened is already a
    negotiated one.  With a default descriptor from the static table other
    than the column format, on a device whose limits allow the 32x32
    default, get-format reports 32x32 in the direction's first listed
    format, and try-format returns that very structure unchanged, on
    either queue. *)
Theorem open_format_is_negotiated (d : bcm2835_codec_dev)
  (ctx : bcm2835_codec_ctx) (capture : bool) (f : v4l2_format)
  (dflt : bcm2835_codec_fmt) :
  bcm2835_codec_open d = Some ctx ->
  get_default_format d capture = Some dflt ->
  fmt_wf dflt = true ->
  (fourcc dflt =? V4L2_PIX_FMT_NV12_COL128) = false ->
  MIN_W <= max_w d <= MAX_W_ISP ->
  MIN_H <= max_h d <= MAX_H_ISP ->
  fmt_type f = (if capture then V4L2_BUF_TYPE_VIDEO_CAPTURE_MPLANE
                else V4L2_BUF_TYPE_VIDEO_OUTPUT_MPLANE) ->
  exists f',
    vidioc_g_fmt ctx f = Some (0, f') /\
    pix_mp_width f' = DEFAULT_WIDTH /\
    pix_mp_height f' = DEFAULT_HEIGHT /\
    pix_mp_pixelformat f' = fourcc dflt /\
    (if capture then vidioc_try_fmt_vid_cap ctx f'
     else vidioc_try_fmt_vid_out ctx f') = Some (0, f').
Proof.
  intros O Df W N Mw Mh T.
  unfold MIN_W, MIN_H, MAX_W_ISP, MAX_H_ISP in *.
  (* try-format on the reported structure *)
  assert (Try : forall (ty : v4l2_buf_type) (n : nat),
    let bpl := get_bytesperline DEFAULT_WIDTH DEFAULT_HEIGHT dflt (role d) in
    let g :=
      mk_v4l2_format ty DEFAULT_WIDTH DEFAULT_HEIGHT (fourcc dflt)
        V4L2_FIELD_NONE V4L2_COLORSPACE_REC709
        (get_sizeimage (s32 bpl) (s32 DEFAULT_WIDTH) (s32 DEFAULT_HEIGHT)
           dflt)
        bpl (repeat 0 n) 1 0 0 0 in
    vidioc_try_fmt d g dflt = (0, g)).
  { intros ty n. cbv zeta. rewrite vidioc_try_fmt_fields. cbv zeta.
    cbn [fmt_type pix_mp_width pix_mp_height pix_mp_pixelformat pix_mp_field
         pix_mp_colorspace plane_fmt0_sizeimage plane_fmt0_bytesperline
         plane_fmt0_reserved pix_mp_ycbcr_enc pix_mp_quantization
         pix_mp_xfer_func].
    assert (Ew : try_fmt_width d dflt DEFAULT_WIDTH = DEFAULT_WIDTH).
    { unfold try_fmt_width, DEFAULT_WIDTH, MIN_W. cbv zeta.
      destruct (Z.gtb_spec 32 (max_w d)); [lia|].
      rewrite Z.ltb_irrefl, andb_false_r. reflexivity. }
    assert (Eh : try_fmt_height d dflt DEFAULT_HEIGHT = DEFAULT_HEIGHT).
    { unfold try_fmt_height, DEFAULT_HEIGHT, MIN_H. cbv zeta.
      destruct (Z.gtb_spec 32 (max_h d)); [lia|].
      rewrite Z.ltb_irrefl, andb_false_r.
      destruct (negb (is_compressed dflt)
                && (role_eqb (role d) DECODE
                    || role_eqb (role d) ENCODE_IMAGE)); reflexivity. }
    rewrite Ew, Eh.
    assert (Eb : try_fmt_bytesperline d dflt DEFAULT_WIDTH DEFAULT_HEIGHT
                   (get_bytesperline DEFAULT_WIDTH DEFAULT_HEIGHT dflt
                      (role d))
                 = get_bytesperline DEFAULT_WIDTH DEFAULT_HEIGHT dflt
                     (role d)).
    { unfold try_fmt_bytesperline. cbv zeta.
      change (s32 DEFAULT_WIDTH) with DEFAULT_WIDTH.
      change (s32 DEFAULT_HEIGHT) with DEFAULT_HEIGHT.
      rewrite Z.ltb_irrefl. apply min_stride_aligned; [exact W | exact N|].
      unfold DEFAULT_WIDTH, MAX_W_ISP. lia. }
    rewrite Eb.
    assert (Es : forall b, try_fmt_sizeimage dflt DEFAULT_WIDTH
                             DEFAULT_HEIGHT b
                             (get_sizeimage (s32 b) (s32 DEFAULT_WIDTH)
                                (s32 DEFAULT_HEIGHT) dflt)
                           = get_sizeimage (s32 b) (s32 DEFAULT_WIDTH)
                               (s32 DEFAULT_HEIGHT) dflt).
    { intros b. unfold try_fmt_sizeimage. cbv zeta.
      rewrite Z.ltb_irrefl. destruct (negb (is_compressed dflt)); reflexivity. }
    rewrite Es, repeat_length.
    destruct (role_eqb (role d) DECODE || role_eqb (role d) DEINTERLACE);
      reflexivity. }
  unfold bcm2835_codec_open in O.
  destruct (get_default_format d false) as [fs|] eqn:D0; [|discriminate].
  destruct (get_default_format d true) as [fd|] eqn:D1; [|discriminate].
  injection O as <-.
  assert (Fd : find_format_pix_fmt (fourcc dflt) d capture = Some dflt).
  { unfold find_format_pix_fmt. unfold get_default_format in Df.
    destruct (get_format_list d capture) as [|e rest]; [discriminate|].
    injection Df as ->. apply find_format_scan_head. }
  unfold vidioc_g_fmt. rewrite T.
  destruct capture.
  - rewrite D1 in Df. injection Df as ->.
    cbn [get_q_data q_data q_data_DST crop_width height fmt field colorspace
         sizeimage bytesperline ycbcr_enc quant xfer_func].
    eexists. split; [reflexivity|].
    split; [reflexivity|]. split; [reflexivity|]. split; [reflexivity|].
    unfold vidioc_try_fmt_vid_cap, find_format.
    cbn [pix_mp_pixelformat dev]. rewrite Fd.
    f_equal. apply (Try V4L2_BUF_TYPE_VIDEO_CAPTURE_MPLANE).
  - rewrite D0 in Df. injection Df as ->.
    cbn [get_q_data q_data q_data_SRC crop_width height fmt field colorspace
         sizeimage bytesperline ycbcr_enc quant xfer_func].
    eexists. split; [reflexivity|].
    split; [reflexivity|]. split; [reflexivity|]. split; [reflexivity|].
    unfold vidioc_try_fmt_vid_out, find_format.
    cbn [pix_mp_pixelformat pix_mp_colorspace dev Z.eqb
         V4L2_COLORSPACE_REC709]. rewrite Fd.
    f_equal. apply (Try V4L2_BUF_TYPE_VIDEO_OUTPUT_MPLANE).
Qed.

Lemma open_format_is_negotiated_witness :
  exists ctx f',
    bcm2835_codec_open example_decoder = Some ctx /\
    vidioc_g_fmt ctx
      (example_format V4L2_BUF_TYPE_VIDEO_CAPTURE_MPLANE 0 0 0 0) =
      Some (0, f') /\
    vidioc_try_fmt_vid_cap ctx f' = Some (0, f').
Proof.
  destruct (bcm2835_codec_open example_decoder) as [ctx|] eqn:O;
    [|vm_compute in O; discriminate O].
  destruct (open_format_is_negotiated example_decoder ctx true
              (example_format V4L2_BUF_TYPE_VIDEO_CAPTURE_MPLANE 0 0 0 0)
              fmt_YUV420 O eq_refl)
    as (f' & G & _ & _ & _ & Tr);
    [vm_compute; reflexivity | vm_compute; reflexivity
    | vm_compute; split; congruence | vm_compute; split; congruence
    | reflexivity |].
  exists ctx, f'. split; [reflexivity|]. split; [exact G | exact Tr].
Defined.

(** The limits [bcm2835_codec_create] stores satisfy what the theorems on
    negotiation ask of a device. *)
Lemma bcm2835_codec_create_max_bounds (r : bcm2835_codec_role) :
  let (mw, mh) := bcm2835_codec_create_max r in
  MIN_W <= mw <= MAX_W_ISP /\ MIN_H <= mh <= MAX_H_ISP /\ mh mod 16 = 0.
Proof. destruct r; vm_compute; repeat split; congruence. Qed.

(** ** The geometry holds the image *)

(** X20.  Within the device bounds, the stride and size computed for a
    raw row-major format of the static table hold the image: the stride is
    a multiple of the role's alignment and exceeds the packed row by less
    than one alignment step; a row whose bit length is a whole number of
    bytes fits in the stride; and the buffer size is at least stride times
    height, so every row has its place. *)
Theorem stride_and_size_hold_the_image (fm : bcm2835_codec_fmt)
  (role : bcm2835_codec_role) (w h : Z) :
  fmt_wf fm = true -> is_compressed fm = false ->
  (fourcc fm =? V4L2_PIX_FMT_NV12_COL128) = false ->
  0 <= w <= MAX_W_ISP -> 0 <= h <= MAX_H_ISP ->
  let a := bytesperline_align_at fm role in
  let bpl := get_bytesperline w h fm role in
  let size := get_sizeimage (s32 bpl) w h fm in
  bpl mod a = 0 /\
  w * depth fm / 8 <= bpl < w * depth fm / 8 + a /\
  ((w * depth fm) mod 8 = 0 -> w * depth fm <= 8 * bpl) /\
  bpl * h <= size.
Proof.
  intros W C N Bw Bh. cbv zeta.
  destruct (raw_stride_value fm role w h W C N Bw) as (E & B).
  destruct (fmt_wf_raw fm role W C) as (D & M & _ & A).
  assert (Pa : 0 < bytesperline_align_at fm role)
    by (destruct A as [-> | ->]; lia).
  pose proof (alignUp_bounds (w * depth fm / 8)
                (bytesperline_align_at fm role) Pa) as Ba.
  destruct (raw_size_value fm (get_bytesperline w h fm role) w h W C N B Bh)
    as (Es & Bp).
  rewrite Es. rewrite E in *.
  split; [apply alignUp_multiple; lia|]. split; [exact Ba|]. split.
  - intros Dv.
    pose proof (Z.div_mod (w * depth fm) 8 ltac:(lia)). lia.
  - set (b := alignUp (w * depth fm / 8) (bytesperline_align_at fm role))
      in *.
    unfold MAX_H_ISP in Bh.
    assert (P0 : 0 <= b * h) by nia.
    unfold half_of_int_product.
    destruct (Z.ltb_spec (b * h * size_multiplier_x2 fm) (2 ^ 31)).
    + apply Z.div_le_lower_bound; [lia|].
      destruct M as [M | M]; rewrite M in *; lia.
    + destruct M as [M | M]; rewrite M in *; lia.
Qed.

Lemma stride_and_size_hold_the_image_witness :
  let bpl := get_bytesperline 1921 1080 fmt_YUV420 ENCODE in
  bpl mod 64 = 0 /\ 1921 * 8 <= 8 * bpl /\
  bpl * 1080 <= get_sizeimage (s32 bpl) 1921 1080 fmt_YUV420.
Proof.
  cbv zeta.
  pose proof (stride_and_size_hold_the_image fmt_YUV420 ENCODE 1921 1080)
    as K.
  cbv zeta in K.
  destruct K as (A & _ & R & S);
    [vm_compute; reflexivity | reflexivity | reflexivity
    | vm_compute; split; congruence | vm_compute; split; congruence |].
  split; [exact A|]. split; [apply R; reflexivity | exact S].
Defined.

(** ** Intra refresh *)

(** X21.  How [helper_calculate_macroblocks] rounds.  For a frame within
    the device bounds and a positive period, it divides the number of
    16x16 macroblocks of the padded frame by the period and rounds down,
    except when the remainder is one short of the period, where it rounds
    up; so the result is exact when the period divides the count and never
    exceeds the quotient rounded up.  A zero period divides by zero. *)
Theorem helper_calculate_macroblocks_rounding (w h p : Z) :
  0 <= w <= MAX_W_ISP -> 0 <= h <= MAX_H_ISP -> 0 <= p < 2 ^ 31 ->
  let mbs := ((w + 15) / 16) * ((h + 15) / 16) in
  (p = 0 -> helper_calculate_macroblocks w h p = None) /\
  (0 < p ->
   exists n,
     helper_calculate_macroblocks w h p = Some n /\
     n = (if (mbs mod p =? p - 1) && negb (p =? 1)
          then mbs / p + 1 else mbs / p) /\
     mbs / p <= n <= (mbs + p - 1) / p /\
     (mbs mod p = 0 -> n * p = mbs)).
Proof.
  intros Bw Bh Bp. cbv zeta. unfold MAX_W_ISP, MAX_H_ISP in *.
  unfold helper_calculate_macroblocks. cbv zeta.
  rewrite (u32_small p) by lia.
  split.
  - intros ->. reflexivity.
  - intros Pp. destruct (Z.eqb_spec p 0) as [|_]; [lia|].
    assert (Al : forall x, 0 <= x <= 16384 ->
              ALIGN_int x 16 = 16 * ((x + 15) / 16) /\
              0 <= (x + 15) / 16 <= 1024).
    { intros x Bx. change 16 with (2 ^ 4) at 1.
      rewrite ALIGN_int_pow2 by lia. unfold alignUp.
      change (2 ^ 4) with 16.
      replace (x + 16 - 1) with (x + 15) by lia.
      split; [reflexivity|].
      pose proof (Z.div_pos (x + 15) 16).
      pose proof (Z.div_lt_upper_bound (x + 15) 16 1025). lia. }
    destruct (Al w Bw) as (-> & Rw). destruct (Al h Bh) as (-> & Rh).
    set (a := (w + 15) / 16) in *. set (b := (h + 15) / 16) in *.
    assert (Pab : 0 <= a * b <= 1048576) by nia.
    rewrite mul_int_small by nia.
    rewrite (u32_small (16 * a * (16 * b))) by nia.
    replace (16 * a * (16 * b) / (16 * 16)) with (a * b)
      by (replace (16 * a * (16 * b)) with (a * b * (16 * 16)) by lia;
          rewrite Z.div_mul by lia; reflexivity).
    set (m := a * b) in *.
    pose proof (Z.div_mod m p ltac:(lia)) as Dm.
    pose proof (Z.mod_pos_bound m p Pp) as Rm.
    pose proof (Z.div_pos m p ltac:(lia) Pp) as Qm.
    assert (Qu : m / p <= m).
    { apply Z.div_le_upper_bound; [lia | nia]. }
    assert (Cl : (m + p - 1) / p =
                 if m mod p =? 0 then m / p else m / p + 1).
    { destruct (Z.eqb_spec (m mod p) 0) as [Z0 | Z0].
      - replace (m + p - 1) with ((p - 1) + (m / p) * p) by lia.
        rewrite Z.div_add by lia. rewrite Z.div_small by lia. lia.
      - replace (m + p - 1) with ((m mod p - 1) + (m / p + 1) * p) by lia.
        rewrite Z.div_add by lia. rewrite Z.div_small by lia. lia. }
    destruct (Z.eqb_spec (m mod p) 0) as [Z0 | Z0]; cbn [negb].
    + eexists. split; [reflexivity|].
      rewrite s32_small by lia.
      destruct (Z.eqb_spec (m mod p) (p - 1)) as [E1 | E1]; cbn [andb].
      * assert (p = 1) as -> by lia. cbn [Z.eqb negb].
        split; [reflexivity|]. split; [lia|]. intros _. lia.
      * split; [reflexivity|]. split; [lia|]. intros _. lia.
    + unfold add_uint. rewrite (u32_small (m + 1)) by lia.
      assert (Q1 : (m + 1) / p =
                   if m mod p =? p - 1 then m / p + 1 else m / p).
      { destruct (Z.eqb_spec (m mod p) (p - 1)) as [E1 | E1].
        - replace (m + 1) with (0 + (m / p + 1) * p) by lia.
          rewrite Z.div_add by lia. rewrite Z.div_small by lia. lia.
        - replace (m + 1) with ((m mod p + 1) + (m / p) * p) by lia.
          rewrite Z.div_add by lia. rewrite Z.div_small by lia. lia. }
      eexists. split; [reflexivity|].
      rewrite Q1.
      assert (P1 : p <> 1).
      { intros ->. rewrite Z.mod_1_r in Z0. contradiction. }
      destruct (Z.eqb_spec p 1) as [|_]; [contradiction|].
      cbn [negb]. rewrite andb_true_r.
      destruct (Z.eqb_spec (m mod p) (p - 1)) as [E1 | E1];
        rewrite s32_small by lia;
        (split; [reflexivity|]); (split; [lia|]); intros Z1; contradiction.
Qed.

Lemma helper_calculate_macroblocks_rounding_witness :
  helper_calculate_macroblocks 1920 1080 10 = Some 816.
Proof.
  destruct (helper_calculate_macroblocks_rounding 1920 1080 10)
    as (_ & K);
    [vm_compute; split; congruence | vm_compute; split; congruence
    | lia |].
  destruct (K ltac:(lia)) as (n & E & V & _).
  rewrite E, V. vm_compute. reflexivity.
Defined.

(** ** Selection, applied again *)

Lemma min_uint_idem (a : Z) : min_uint a a = a.
Proof. unfold min_uint. rewrite Z.ltb_irrefl. reflexivity. Qed.

Lemma min_uint_absorb (a b : Z) : min_uint (min_uint a b) b = min_uint a b.
Proof.
  unfold min_uint. destruct (a <? b) eqn:L.
  - rewrite L. reflexivity.
  - rewrite Z.ltb_irrefl. reflexivity.
Qed.

Lemma min_uint_le_r (a b : Z) : min_uint a b <= b.
Proof. unfold min_uint. destruct (Z.ltb_spec a b); lia. Qed.

Lemma accept_selection_again (s : v4l2_selection)
  (q : bcm2835_codec_q_data) :
  accept_selection (fst (accept_selection s q)) (snd (accept_selection s q))
  = accept_selection s q.
Proof.
  unfold accept_selection.
  cbn [fst snd sel_type target r_width r_height crop_width height
       bytesperline aspect_ratio field sizeimage sequence fmt
       eos_buffer_in_use].
  rewrite min_uint_idem, min_uint_absorb. reflexivity.
Qed.

Lemma setup_mmal_port_format_defined (c1 c2 : bcm2835_codec_ctx)
  (q1 q2 : bcm2835_codec_q_data) (p1 p2 p : vchiq_mmal_port) :
  fmt q2 = fmt q1 ->
  setup_mmal_port_format c1 q1 p1 = Some p ->
  setup_mmal_port_format c2 q2 p2 <> None.
Proof.
  unfold setup_mmal_port_format. cbv zeta. intros ->.
  destruct (is_compressed (fmt q1)); cbn [negb].
  - intros _. destruct (role (dev c2)); discriminate.
  - destruct (mmal_fmt (fmt q1)); try discriminate;
      destruct (u32 (depth (fmt q1)) =? 0); discriminate.
Qed.

Lemma q_data_put_port (ctx : bcm2835_codec_ctx) (pid : port_id)
  (p : vchiq_mmal_port) (i : m2m_index) :
  q_data (put_port ctx pid p) i = q_data ctx i /\
  dev (put_port ctx pid p) = dev ctx.
Proof. unfold put_port. destruct (component ctx), i; split; reflexivity. Qed.

Section SelectionAgain.

Variable vchiq_mmal_port_set_format :
  port_id -> vchiq_mmal_port -> Z * vchiq_mmal_port.

Local Abbreviation s_selection :=
  (vidioc_s_selection vchiq_mmal_port_set_format).

(** X22.  Set-selection is idempotent and only ever shrinks the crop
    width.  A call that returned 0 addressed the capture queue data for
    the capture buffer type and the output queue data otherwise; it
    handed back the request anchored at the origin, its width clipped to
    that queue's crop width and its height to that queue's padded height;
    afterwards that queue holds exactly the returned rectangle as its
    crop, is marked as having a selection and is otherwise as it was, and
    the other queue is untouched.  So the padded height of either queue
    is as before and the crop width is at most what it was.  A second
    call with the rectangle handed back is accepted again, hands back the
    same rectangle and leaves everything negotiated as it is. *)
Theorem vidioc_s_selection_idempotent (ctx ctx' : bcm2835_codec_ctx)
  (s s' : v4l2_selection) (calls : list mmal_call) :
  s_selection ctx s = Some (0, s', ctx', calls) ->
  let qi :=
    match sel_type s with
    | V4L2_BUF_TYPE_VIDEO_CAPTURE => V4L2_M2M_DST
    | _ => V4L2_M2M_SRC
    end in
  let q := q_data ctx qi in
  s' = mk_selection (sel_type s) (target s) 0 0
         (min_uint (r_width s) (crop_width q))
         (min_uint (r_height s) (height q)) /\
  q_data ctx' qi =
    mk_q_data (bytesperline q) (height q) (r_width s') (r_height s') true
      (aspect_ratio q) (field q) (sizeimage q) (sequence q) (fmt q)
      (eos_buffer_in_use q) /\
  (forall j, j <> qi -> q_data ctx' j = q_data ctx j) /\
  r_width s' <= r_width s /\ r_height s' <= r_height s /\
  r_height s' <= height q /\
  (forall i,
     height (q_data ctx' i) = height (q_data ctx i) /\
     crop_width (q_data ctx' i) <= crop_width (q_data ctx i)) /\
  exists ret ctx'' calls',
    s_selection ctx' s' = Some (ret, s', ctx'', calls') /\
    (ret = 0 \/ ret = - EINVAL) /\
    negotiated_state ctx'' = negotiated_state ctx' /\
    forall i, q_data ctx'' i = q_data ctx' i.
Proof.
  intros H. unfold vidioc_s_selection in H. cbv zeta in H.
  set (chosen := match sel_type s with
                 | V4L2_BUF_TYPE_VIDEO_CAPTURE => _
                 | V4L2_BUF_TYPE_VIDEO_OUTPUT => _
                 | _ => None
                 end) in H.
  destruct chosen as [[qi pid]|] eqn:Ch;
    [|injection H as E; discriminate E].
  set (wanted := match role (dev ctx) with DECODE => _ | _ => _ end) in H.
  destruct (Z.eqb_spec (target s) wanted) as [Tw|]; cbn [negb] in H;
    [|injection H as E; discriminate E].
  assert (Qi : match sel_type s with
               | V4L2_BUF_TYPE_VIDEO_CAPTURE => V4L2_M2M_DST
               | _ => V4L2_M2M_SRC
               end = qi).
  { subst chosen.
    destruct (sel_type s); try discriminate Ch;
      [destruct (role_eqb (role (dev ctx)) ENCODE
                 || role_eqb (role (dev ctx)) ENCODE_IMAGE)
      |destruct (role_eqb (role (dev ctx)) DECODE)];
      try discriminate Ch; injection Ch as <- _; reflexivity. }
  cbv zeta. rewrite Qi. clear Qi.
  destruct (accept_selection s (q_data ctx qi)) as [s1 q1] eqn:A.
  pose proof (accept_selection_again s (q_data ctx qi)) as AA.
  rewrite A in AA. cbn [fst snd] in AA.
  assert (S1 : s1 = mk_selection (sel_type s) (target s) 0 0
                      (min_uint (r_width s) (crop_width (q_data ctx qi)))
                      (min_uint (r_height s) (height (q_data ctx qi))))
    by (unfold accept_selection in A; injection A as <- _; reflexivity).
  assert (Q1 : q1 = mk_q_data (bytesperline (q_data ctx qi))
                      (height (q_data ctx qi)) (r_width s1) (r_height s1)
                      true (aspect_ratio (q_data ctx qi))
                      (field (q_data ctx qi)) (sizeimage (q_data ctx qi))
                      (sequence (q_data ctx qi)) (fmt (q_data ctx qi))
                      (eos_buffer_in_use (q_data ctx qi)))
    by (rewrite S1; unfold accept_selection in A; injection A as _ <-;
        reflexivity).
  assert (Bw : r_width s1 <= r_width s /\ r_height s1 <= r_height s /\
               r_width s1 <= crop_width (q_data ctx qi) /\
               r_height s1 <= height (q_data ctx qi)).
  { rewrite S1. cbn [r_width r_height]. unfold min_uint.
    destruct (Z.ltb_spec (r_width s) (crop_width (q_data ctx qi)));
      destruct (Z.ltb_spec (r_height s) (height (q_data ctx qi)));
      repeat split; lia. }
  assert (G : forall c,
             dev c = dev ctx -> q_data c qi = q1 ->
             (component c = None \/
              exists cc p,
                component c = Some cc /\
                setup_mmal_port_format (set_q_data c qi q1) q1
                  (port_of cc pid) = Some p) ->
             exists ret ctx'' calls',
               s_selection c s1 = Some (ret, s1, ctx'', calls') /\
               (ret = 0 \/ ret = - EINVAL) /\
               negotiated_state ctx'' = negotiated_state c /\
               forall i, q_data ctx'' i = q_data c i).
  { intros c D Q C. unfold vidioc_s_selection. cbv zeta. rewrite D.
    assert (T1 : sel_type s1 = sel_type s /\ target s1 = target s)
      by (rewrite S1; split; reflexivity).
    destruct T1 as [-> ->].
    subst chosen. rewrite Ch.
    subst wanted. rewrite <- Tw, Z.eqb_refl. cbn [negb].
    rewrite Q, AA.
    assert (K : component (set_q_data c qi q1) = component c)
      by (destruct qi; reflexivity).
    assert (N : negotiated_state (set_q_data c qi q1) = negotiated_state c)
      by (rewrite <- Q; destruct qi; reflexivity).
    assert (Qs : forall i, q_data (set_q_data c qi q1) i = q_data c i)
      by (intros i; rewrite <- Q; destruct qi, i; reflexivity).
    rewrite K.
    destruct C as [C|(cc & p & C & Su)]; rewrite C.
    - exists 0, (set_q_data c qi q1), []. repeat split; auto.
    - rewrite Su.
      destruct (vchiq_mmal_port_set_format pid p) as [r port'].
      do 3 eexists. split; [reflexivity|]. split; [|split].
      + destruct (r =? 0); auto.
      + rewrite put_port_negotiated_state. exact N.
      + intros i. rewrite (proj1 (q_data_put_port _ pid port' i)).
        apply Qs. }
  assert (QD : q_data (set_q_data ctx qi q1) qi = q1 /\
               forall j, j <> qi ->
                 q_data (set_q_data ctx qi q1) j = q_data ctx j)
    by (split; [destruct qi; reflexivity
               |intros j; destruct j, qi; intros J;
                first [reflexivity | contradiction J; reflexivity]]).
  assert (Fin : forall c,
             s1 = s' ->
             (forall i, q_data c i = q_data (set_q_data ctx qi q1) i) ->
             s' = mk_selection (sel_type s) (target s) 0 0
                    (min_uint (r_width s) (crop_width (q_data ctx qi)))
                    (min_uint (r_height s) (height (q_data ctx qi))) /\
             q_data c qi =
               mk_q_data (bytesperline (q_data ctx qi))
                 (height (q_data ctx qi)) (r_width s') (r_height s') true
                 (aspect_ratio (q_data ctx qi)) (field (q_data ctx qi))
                 (sizeimage (q_data ctx qi)) (sequence (q_data ctx qi))
                 (fmt (q_data ctx qi)) (eos_buffer_in_use (q_data ctx qi)) /\
             (forall j, j <> qi -> q_data c j = q_data ctx j) /\
             r_width s' <= r_width s /\ r_height s' <= r_height s /\
             r_height s' <= height (q_data ctx qi) /\
             (forall i,
                height (q_data c i) = height (q_data ctx i) /\
                crop_width (q_data c i) <= crop_width (q_data ctx i))).
  { intros c <- E. destruct QD as [Qq Qo].
    destruct Bw as (B1 & B2 & B3 & B4).
    split; [exact S1|].
    split; [rewrite E, Qq; exact Q1|].
    split; [intros j J; rewrite E; apply Qo; exact J|].
    split; [exact B1|]. split; [exact B2|]. split; [exact B4|].
    intros i. rewrite E.
    assert (Di : i = qi \/ i <> qi)
      by (destruct i, qi; (left; reflexivity) || (right; discriminate)).
    destruct Di as [-> | J].
    - rewrite Qq, Q1. cbn [height crop_width]. split; [reflexivity|exact B3].
    - rewrite (Qo i J). split; [reflexivity|lia]. }
  destruct (component (set_q_data ctx qi q1)) as [c|] eqn:C.
  - destruct (setup_mmal_port_format (set_q_data ctx qi q1) q1
                (port_of c pid)) as [port|] eqn:Su; [|discriminate H].
    destruct (vchiq_mmal_port_set_format pid port) as [r port'].
    injection H as _ E1 E2 _. subst ctx'.
    assert (F := Fin (put_port (set_q_data ctx qi q1) pid port') E1
                   (fun i => proj1 (q_data_put_port _ pid port' i))).
    destruct F as (F1 & F2 & F3 & F4 & F5 & F6 & F7).
    repeat (split; [assumption|]).
    rewrite <- E1. apply G.
    + rewrite (proj2 (q_data_put_port _ pid port' qi)).
      destruct qi; reflexivity.
    + rewrite (proj1 (q_data_put_port _ pid port' qi)).
      destruct qi; reflexivity.
    + right. unfold put_port. rewrite C.
      destruct (setup_mmal_port_format
                  (set_q_data
                     (set_component (set_q_data ctx qi q1)
                        (Some (set_port c pid port'))) qi q1) q1
                  (port_of (set_port c pid port') pid)) as [p|] eqn:Su2.
      * exists (set_port c pid port'), p. split; [reflexivity|exact Su2].
      * exfalso.
        exact (setup_mmal_port_format_defined _ _ _ _ _ _ _
                 eq_refl Su Su2).
  - injection H as E1 E2 _. subst ctx'.
    assert (F := Fin (set_q_data ctx qi q1) E1 (fun i => eq_refl)).
    destruct F as (F1 & F2 & F3 & F4 & F5 & F6 & F7).
    repeat (split; [assumption|]).
    rewrite <- E1. apply G.
    + destruct qi; reflexivity.
    + destruct qi; reflexivity.
    + left. exact C.
Qed.

End SelectionAgain.

Lemma vidioc_s_selection_idempotent_witness :
  exists s' ctx' calls,
    vidioc_s_selection example_port_set_format example_ctx_streaming
      (example_compose 4000 720) = Some (0, s', ctx', calls) /\
    r_width s' <= 4000 /\
    crop_height (q_data ctx' V4L2_M2M_DST) = 720 /\
    selection_set (q_data ctx' V4L2_M2M_DST) = true /\
    q_data ctx' V4L2_M2M_SRC = q_data example_ctx_streaming V4L2_M2M_SRC.
Proof.
  destruct (vidioc_s_selection example_port_set_format
              example_ctx_streaming (example_compose 4000 720))
    as [[[[r s'] ctx'] calls]|] eqn:E; [|vm_compute in E; discriminate E].
  assert (R : r = 0) by (vm_compute in E; injection E as <- _ _ _;
                         reflexivity).
  subst r.
  pose proof (vidioc_s_selection_idempotent example_port_set_format
                example_ctx_streaming ctx' (example_compose 4000 720) s'
                calls E) as K.
  cbv zeta in K. destruct K as (S & Q & O & W & _).
  exists s', ctx', calls. split; [reflexivity|]. split; [exact W|].
  cbn [sel_type example_compose] in Q, O.
  rewrite Q. cbn [crop_height selection_set].
  split; [rewrite S; vm_compute; reflexivity|]. split; [reflexivity|].
  apply O. discriminate.
Defined.

(** ** The geometry try-format hands out *)

Lemma raw_size_holds_rows (fm : bcm2835_codec_fmt) (bpl w h : Z) :
  fmt_wf fm = true -> is_compressed fm = false ->
  (fourcc fm =? V4L2_PIX_FMT_NV12_COL128) = false ->
  0 <= bpl <= 2048 * depth fm -> 0 <= h <= MAX_H_ISP ->
  bpl * h <= get_sizeimage (s32 bpl) w h fm.
Proof.
  intros W C N B Bh.
  destruct (fmt_wf_raw fm ISP W C) as (D & M & _ & _).
  destruct (raw_size_value fm bpl w h W C N B Bh) as (Es & Bp).
  rewrite Es. unfold MAX_H_ISP in Bh.
  assert (P0 : 0 <= bpl * h) by nia.
  unfold half_of_int_product.
  destruct (Z.ltb_spec (bpl * h * size_multiplier_x2 fm) (2 ^ 31)).
  - apply Z.div_le_lower_bound; [lia|].
    destruct M as [M | M]; rewrite M in *; lia.
  - destruct M as [M | M]; rewrite M in *; lia.
Qed.

(** X23.  The geometry try-format hands out for a raw row-major format is
    consistent in itself.  On a device with limits within 0..16384, for a
    well-formed descriptor and a requested stride of at most
    [2048 * depth] bytes: the stride handed out is a multiple of the
    role's alignment, is never below the requested one nor below the
    packed row of the width handed out; it is exactly the minimum stride
    when the request does not exceed that, and exactly the request when
    the request is aligned and at least the minimum; the size handed out
    is the one [get_sizeimage] computes from the stride, width and height
    handed out, whatever size was requested, and it holds height rows of
    that stride. *)
Theorem vidioc_try_fmt_geometry (d : bcm2835_codec_dev) (f : v4l2_format)
  (fm : bcm2835_codec_fmt) :
  fmt_wf fm = true -> is_compressed fm = false ->
  (fourcc fm =? V4L2_PIX_FMT_NV12_COL128) = false ->
  0 <= max_w d <= MAX_W_ISP -> 0 <= max_h d <= MAX_H_ISP ->
  0 <= pix_mp_width f -> 0 <= pix_mp_height f ->
  0 <= plane_fmt0_bytesperline f <= 2048 * depth fm ->
  let f' := snd (vidioc_try_fmt d f fm) in
  let a := bytesperline_align_at fm (role d) in
  let bpl := plane_fmt0_bytesperline f' in
  let min_bpl :=
    get_bytesperline (pix_mp_width f') (pix_mp_height f') fm (role d) in
  bpl mod a = 0 /\
  plane_fmt0_bytesperline f <= bpl /\
  pix_mp_width f' * depth fm / 8 <= min_bpl <= bpl /\
  (plane_fmt0_bytesperline f <= min_bpl -> bpl = min_bpl) /\
  (min_bpl <= plane_fmt0_bytesperline f ->
   plane_fmt0_bytesperline f mod a = 0 ->
   bpl = plane_fmt0_bytesperline f) /\
  plane_fmt0_sizeimage f' =
    get_sizeimage (s32 bpl) (pix_mp_width f') (pix_mp_height f') fm /\
  bpl * pix_mp_height f' <= plane_fmt0_sizeimage f'.
Proof.
  intros W C N Mw Mh Pw Ph Pb. cbv zeta.
  rewrite vidioc_try_fmt_fields.
  cbn [snd plane_fmt0_bytesperline pix_mp_width pix_mp_height
       plane_fmt0_sizeimage].
  pose proof (try_fmt_width_bounds d fm (pix_mp_width f) Pw Mw) as Bw.
  pose proof (try_fmt_height_bounds d fm (pix_mp_height f) Ph Mh) as Bh.
  set (w := try_fmt_width d fm (pix_mp_width f)) in *.
  set (h := try_fmt_height d fm (pix_mp_height f)) in *.
  assert (Sw : s32 w = w) by (apply s32_small; unfold MAX_W_ISP in Bw; lia).
  assert (Sh : s32 h = h) by (apply s32_small; unfold MAX_H_ISP in Bh; lia).
  unfold try_fmt_bytesperline, try_fmt_sizeimage. cbv zeta.
  rewrite Sw, Sh, C. cbn [negb orb].
  destruct (raw_stride_value fm (role d) w h W C N Bw) as (E & B).
  destruct (fmt_wf_raw fm (role d) W C) as (D & _ & _ & A).
  set (a := bytesperline_align_at fm (role d)) in *.
  set (m := get_bytesperline w h fm (role d)) in *.
  set (req := plane_fmt0_bytesperline f) in *.
  assert (Pa : 0 < a) by (destruct A as [-> | ->]; lia).
  assert (Da : (2048 * depth fm) mod a = 0).
  { destruct A as [-> | ->].
    - replace (2048 * depth fm) with (depth fm * 64 * 2 ^ 5) by lia.
      apply Z.mod_mul. lia.
    - replace (2048 * depth fm) with (depth fm * 32 * 2 ^ 6) by lia.
      apply Z.mod_mul. lia. }
  assert (Ma : m mod a = 0)
    by (rewrite E; apply alignUp_multiple; lia).
  assert (AL : forall x, 0 <= x <= 2048 * depth fm ->
                 ALIGN_uint x a = alignUp x a /\
                 x <= alignUp x a <= 2048 * depth fm).
  { intros x Bx. split.
    - destruct A as [-> | ->]; apply ALIGN_uint_pow2; lia.
    - pose proof (alignUp_bounds x a Pa).
      pose proof (alignUp_mono x (2048 * depth fm) a Pa ltac:(lia)) as Mo.
      rewrite (alignUp_fixed (2048 * depth fm) a Pa Da) in Mo. lia. }
  pose proof (alignUp_bounds (w * depth fm / 8) a Pa) as Bm.
  rewrite <- E in Bm.
  destruct (Z.ltb_spec req m) as [L|L].
  - destruct (AL m B) as (Em & Bmm). rewrite Em.
    rewrite (alignUp_fixed m a Pa Ma).
    split; [exact Ma|]. split; [lia|]. split; [lia|].
    split; [reflexivity|]. split; [intros G1 G2; lia|].
    split; [reflexivity|].
    apply raw_size_holds_rows; assumption.
  - destruct (AL req Pb) as (Er & Brr). rewrite Er.
    split; [apply alignUp_multiple; lia|]. split; [lia|]. split; [lia|].
    split.
    { intros G. assert (Q : req = m) by lia.
      rewrite Q. apply alignUp_fixed; assumption. }
    split; [intros _ G; apply alignUp_fixed; assumption|].
    split; [reflexivity|].
    apply raw_size_holds_rows; try assumption. lia.
Qed.

Lemma vidioc_try_fmt_geometry_witness :
  let f' := snd (vidioc_try_fmt example_isp
                   (example_format V4L2_BUF_TYPE_VIDEO_CAPTURE_MPLANE
                      V4L2_PIX_FMT_YUV420 1921 1080 4096)
                   fmt_YUV420) in
  plane_fmt0_bytesperline f' = 4096 /\
  4096 * pix_mp_height f' <= plane_fmt0_sizeimage f'.
Proof.
  cbv zeta.
  pose proof (vidioc_try_fmt_geometry example_isp
                (example_format V4L2_BUF_TYPE_VIDEO_CAPTURE_MPLANE
                   V4L2_PIX_FMT_YUV420 1921 1080 4096)
                fmt_YUV420) as K.
  cbv zeta in K.
  assert (Mw : 0 <= max_w example_isp <= MAX_W_ISP)
    by (vm_compute; split; discriminate).
  assert (Mh : 0 <= max_h example_isp <= MAX_H_ISP)
    by (vm_compute; split; discriminate).
  assert (Pb : 0 <= 4096 <= 2048 * depth fmt_YUV420)
    by (vm_compute; split; discriminate).
  destruct (K eq_refl eq_refl eq_refl Mw Mh ltac:(vm_compute; discriminate)
              ltac:(vm_compute; discriminate) Pb)
    as (_ & _ & _ & _ & Keep & _ & Rows).
  assert (E : plane_fmt0_bytesperline
                (snd (vidioc_try_fmt example_isp
                        (example_format V4L2_BUF_TYPE_VIDEO_CAPTURE_MPLANE
                           V4L2_PIX_FMT_YUV420 1921 1080 4096)
                        fmt_YUV420)) = 4096).
  { apply Keep; vm_compute; (reflexivity || discriminate). }
  split; [exact E|]. rewrite <- E at 1. exact Rows.
Defined.

(** ** The dma-buf a buffer holds *)

Lemma dma_buf_refs_app (x : Z) (a b : list dma_action) :
  dma_buf_refs x (a ++ b) = dma_buf_refs x a + dma_buf_refs x b.
Proof.
  unfold dma_buf_refs. induction a as [|c a IH]; cbn [app fold_right].
  - reflexivity.
  - rewrite IH. lia.
Qed.

Lemma mmal_buf_cleanup_refs (dma_buf x : Z) :
  x <> 0 ->
  fst (bcm2835_codec_mmal_buf_cleanup dma_buf) = 0 /\
  dma_buf_refs x (snd (bcm2835_codec_mmal_buf_cleanup dma_buf))
  = - holds dma_buf x.
Proof.
  intros X. unfold bcm2835_codec_mmal_buf_cleanup, holds.
  destruct (Z.eqb_spec dma_buf 0) as [->|N]; cbn [negb fst snd].
  - split; [reflexivity|].
    cbn [dma_buf_refs fold_right dma_buf_refs_of].
    destruct (Z.eqb_spec 0 x); [congruence|reflexivity].
  - split; [reflexivity|].
    cbn [dma_buf_refs fold_right dma_buf_refs_of].
    destruct (dma_buf =? x); reflexivity.
Qed.

Section BufferRefs.

Variable dma_buf_get : Z -> Z.
Variable vb2_core_expbuf_dmabuf : v4l2_buf_type -> Z -> Z * Z.

Local Abbreviation buf_prepare :=
  (bcm2835_codec_buf_prepare dma_buf_get vb2_core_expbuf_dmabuf).
Local Abbreviation run_ops :=
  (run_buffer_ops dma_buf_get vb2_core_expbuf_dmabuf).

Lemma buf_prepare_refs (ctx : bcm2835_codec_ctx) (q_type : v4l2_buf_type)
  (vbuf vbuf' : vb2_v4l2_buffer)
  (plane_size memory fd index dma_buf dma_buf' ret x : Z)
  (acts : list dma_action) :
  buf_prepare ctx q_type vbuf plane_size memory fd index dma_buf
    = Some (ret, vbuf', dma_buf', acts) ->
  x <> 0 ->
  dma_buf_refs x acts = holds dma_buf' x - holds dma_buf x.
Proof.
  unfold bcm2835_codec_buf_prepare. intros P X.
  destruct (get_q_data q_type) as [qi|]; [|discriminate P].
  cbv zeta in P.
  destruct (plane_size <? sizeimage (q_data ctx qi)).
  { injection P as _ _ <- <-. cbn. lia. }
  destruct (memory =? VB2_MEMORY_DMABUF).
  - destruct (Z.eqb_spec (dma_buf_get fd) dma_buf) as [E|N]; cbn [negb] in P.
    + injection P as _ _ <- <-.
      cbn [dma_buf_refs fold_right dma_buf_refs_of].
      destruct (dma_buf_get fd =? x); lia.
    + destruct (Z.eqb_spec dma_buf 0) as [Z0|NZ]; cbn [negb] in P.
      * injection P as _ _ <- <-. subst dma_buf.
        cbn [dma_buf_refs fold_right dma_buf_refs_of]. unfold holds.
        destruct (Z.eqb_spec 0 x); [congruence|].
        destruct (dma_buf_get fd =? x); lia.
      * destruct (bcm2835_codec_mmal_buf_cleanup dma_buf) as [h cl] eqn:C.
        injection P as _ _ <- <-.
        pose proof (mmal_buf_cleanup_refs dma_buf x X) as [_ R].
        rewrite C in R. cbn [snd] in R.
        change (dma_buf_refs x (act_dma_buf_get (dma_buf_get fd) :: cl))
          with (dma_buf_refs_of x (act_dma_buf_get (dma_buf_get fd))
                + dma_buf_refs x cl).
        rewrite R. cbn [dma_buf_refs_of]. unfold holds.
        destruct (dma_buf_get fd =? x); lia.
  - destruct (memory =? VB2_MEMORY_MMAP).
    + destruct (Z.eqb_spec dma_buf 0) as [Z0|NZ].
      * destruct (vb2_core_expbuf_dmabuf q_type index) as [r e].
        injection P as _ _ <- <-. subst dma_buf.
        cbn [dma_buf_refs fold_right dma_buf_refs_of]. unfold holds.
        destruct (Z.eqb_spec 0 x); [congruence|].
        destruct (r =? 0); cbn [andb].
        -- destruct (e =? x); lia.
        -- destruct (Z.eqb_spec 0 x); [congruence|lia].
      * injection P as _ _ <- <-. cbn. lia.
    + injection P as _ _ <- <-. cbn. lia.
Qed.

Lemma run_buffer_ops_app (q_type : v4l2_buf_type) (a b : list buffer_op)
  (dma_buf : Z) :
  run_ops q_type (a ++ b) dma_buf =
  match run_ops q_type a dma_buf with
  | None => None
  | Some (d1, acts1) =>
      match run_ops q_type b d1 with
      | None => None
      | Some (d2, acts2) => Some (d2, acts1 ++ acts2)
      end
  end.
Proof.
  revert dma_buf. induction a as [|op a IH]; intros dma_buf.
  - cbn [app run_buffer_ops].
    destruct (run_ops q_type b dma_buf) as [[d2 acts2]|]; reflexivity.
  - cbn [app run_buffer_ops].
    destruct (match op with
              | op_buf_prepare _ _ _ _ _ _ => _
              | op_buffer_cleanup => _
              end) as [[d1 acts1]|]; [|reflexivity].
    rewrite IH.
    destruct (run_ops q_type a d1) as [[d1' acts1']|]; [|reflexivity].
    destruct (run_ops q_type b d1') as [[d2 acts2]|]; [|reflexivity].
    rewrite app_assoc. reflexivity.
Qed.

(** X24.  Over any sequence of prepare and cleanup calls on one buffer,
    the references the driver has taken on a dma-buf, less those it has
    dropped, are exactly what the buffer's [mmal.dma_buf] accounts for:
    one for the dma-buf it ends up pointing at, less one for the dma-buf
    it pointed at before.  So no reference is leaked and none is dropped
    twice; and a sequence that starts on a fresh buffer and ends with the
    cleanup leaves the buffer without a dma-buf and the driver without
    any reference. *)
Theorem buffer_ops_reference_balance (q_type : v4l2_buf_type)
  (ops : list buffer_op) (dma_buf dma_buf' : Z) (acts : list dma_action) :
  run_ops q_type ops dma_buf = Some (dma_buf', acts) ->
  (forall x, x <> 0 ->
     dma_buf_refs x acts = holds dma_buf' x - holds dma_buf x) /\
  (forall before, ops = before ++ [op_buffer_cleanup] ->
     dma_buf' = 0 /\
     (dma_buf = 0 -> forall x, x <> 0 -> dma_buf_refs x acts = 0)).
Proof.
  intros R.
  assert (B : forall x, x <> 0 ->
                dma_buf_refs x acts = holds dma_buf' x - holds dma_buf x).
  { revert dma_buf dma_buf' acts R.
    induction ops as [|op ops IH]; intros dma_buf dma_buf' acts R x X.
    - cbn in R. injection R as <- <-. cbn. lia.
    - cbn [run_buffer_ops] in R.
      destruct op as [ctx vbuf plane_size memory fd index|].
      + destruct (buf_prepare ctx q_type vbuf plane_size memory fd index
                    dma_buf) as [[[[ret vbuf'] d1] acts1]|] eqn:P;
          [|discriminate R].
        destruct (run_ops q_type ops d1) as [[d2 acts2]|] eqn:R2;
          [|discriminate R].
        injection R as <- <-.
        rewrite dma_buf_refs_app.
        rewrite (buf_prepare_refs _ _ _ _ _ _ _ _ _ _ _ _ _ P X).
        rewrite (IH _ _ _ R2 x X). lia.
      + unfold bcm2835_codec_buffer_cleanup in R.
        pose proof (mmal_buf_cleanup_refs dma_buf x X) as [F C].
        destruct (bcm2835_codec_mmal_buf_cleanup dma_buf) as [d1 acts1].
        cbn [fst snd] in F, C. subst d1.
        destruct (run_ops q_type ops 0) as [[d2 acts2]|] eqn:R2;
          [|discriminate R].
        injection R as <- <-.
        rewrite dma_buf_refs_app, C.
        rewrite (IH _ _ _ R2 x X).
        assert (H0 : holds 0 x = 0)
          by (unfold holds; destruct (Z.eqb_spec 0 x); congruence).
        rewrite H0. lia. }
  split; [exact B|].
  intros before ->.
  rewrite run_buffer_ops_app in R.
  destruct (run_ops q_type before dma_buf) as [[d1 acts1]|];
    [|discriminate R].
  cbn [run_buffer_ops] in R. unfold bcm2835_codec_buffer_cleanup in R.
  pose proof (mmal_buf_cleanup_refs d1 1 ltac:(lia)) as [F _].
  destruct (bcm2835_codec_mmal_buf_cleanup d1) as [d2 acts2].
  cbn [fst] in F. subst d2.
  injection R as <- _.
  split; [reflexivity|].
  intros -> x X. rewrite (B x X). lia.
Qed.

End BufferRefs.

Lemma buffer_ops_reference_balance_witness :
  exists acts,
    run_buffer_ops (fun fd => 100 + fd) (fun _ i => (0, 200 + i))
      V4L2_BUF_TYPE_VIDEO_CAPTURE_MPLANE
      [op_buf_prepare example_ctx (mk_vb2_v4l2_buffer 0 0 0 0)
         (2 ^ 24) VB2_MEMORY_DMABUF 3 0;
       op_buf_prepare example_ctx (mk_vb2_v4l2_buffer 0 0 0 0)
         (2 ^ 24) VB2_MEMORY_DMABUF 4 0;
       op_buffer_cleanup] 0 = Some (0, acts) /\
    dma_buf_refs 103 acts = 0 /\ dma_buf_refs 104 acts = 0.
Proof.
  destruct (run_buffer_ops (fun fd => 100 + fd) (fun _ i => (0, 200 + i))
              V4L2_BUF_TYPE_VIDEO_CAPTURE_MPLANE
              [op_buf_prepare example_ctx (mk_vb2_v4l2_buffer 0 0 0 0)
                 (2 ^ 24) VB2_MEMORY_DMABUF 3 0;
               op_buf_prepare example_ctx (mk_vb2_v4l2_buffer 0 0 0 0)
                 (2 ^ 24) VB2_MEMORY_DMABUF 4 0;
               op_buffer_cleanup] 0) as [[d acts]|] eqn:R;
    [|vm_compute in R; discriminate R].
  destruct (buffer_ops_reference_balance _ _ _ _ _ _ _ R) as (_ & E).
  destruct (E [op_buf_prepare example_ctx (mk_vb2_v4l2_buffer 0 0 0 0)
                 (2 ^ 24) VB2_MEMORY_DMABUF 3 0;
               op_buf_prepare example_ctx (mk_vb2_v4l2_buffer 0 0 0 0)
                 (2 ^ 24) VB2_MEMORY_DMABUF 4 0] eq_refl) as (-> & Z0).
  exists acts. split; [reflexivity|].
  split; apply Z0; (reflexivity || discriminate).
Defined.

Section BufPrepareOutcomes.

Variable dma_buf_get : Z -> Z.
Variable vb2_core_expbuf_dmabuf : v4l2_buf_type -> Z -> Z * Z.

Local Abbreviation buf_prepare :=
  (bcm2835_codec_buf_prepare dma_buf_get vb2_core_expbuf_dmabuf).

(** X25.  What [bcm2835_codec_buf_prepare] decides.  A plane smaller than
    the negotiated [sizeimage] is refused with -EINVAL before any dma-buf
    is touched.  A call returns 0 only for a plane that holds [sizeimage]
    and for MMAP or DMABUF memory.  With DMABUF memory and a large enough
    plane the call returns 0 and the buffer points at whatever
    [dma_buf_get] returned, the result of that call not being examined;
    with MMAP memory a buffer that already has its dma-buf is left alone
    and nothing is exported again.  On the capture queue an accepted
    buffer has its payload set to [sizeimage]; on the output queue the
    payload is the client's and the field order is never left as ANY. *)
Theorem buf_prepare_outcomes (ctx : bcm2835_codec_ctx)
  (q_type : v4l2_buf_type) (qi : m2m_index) (vbuf vbuf' : vb2_v4l2_buffer)
  (plane_size memory fd index dma_buf dma_buf' ret : Z)
  (acts : list dma_action) :
  get_q_data q_type = Some qi ->
  buf_prepare ctx q_type vbuf plane_size memory fd index dma_buf
    = Some (ret, vbuf', dma_buf', acts) ->
  let size := sizeimage (q_data ctx qi) in
  (plane_size < size -> ret = - EINVAL /\ dma_buf' = dma_buf /\ acts = []) /\
  (ret = 0 ->
   size <= plane_size /\
   (memory = VB2_MEMORY_DMABUF \/ memory = VB2_MEMORY_MMAP)) /\
  (size <= plane_size -> memory = VB2_MEMORY_DMABUF ->
   ret = 0 /\ dma_buf' = dma_buf_get fd) /\
  (size <= plane_size -> memory = VB2_MEMORY_MMAP -> dma_buf <> 0 ->
   ret = 0 /\ dma_buf' = dma_buf /\ acts = []) /\
  (qi = V4L2_M2M_DST -> size <= plane_size ->
   planes0_bytesused vbuf' = u32 size /\ vb2_field vbuf' = vb2_field vbuf) /\
  (qi = V4L2_M2M_SRC ->
   planes0_bytesused vbuf' = planes0_bytesused vbuf /\
   vb2_field vbuf' <> V4L2_FIELD_ANY /\
   (vb2_field vbuf <> V4L2_FIELD_ANY -> vbuf' = vbuf)).
Proof.
  intros Q P. cbv zeta.
  unfold bcm2835_codec_buf_prepare in P. rewrite Q in P. cbv zeta in P.
  assert (T : V4L2_TYPE_IS_OUTPUT q_type =
              match qi with V4L2_M2M_SRC => true | V4L2_M2M_DST => false end)
    by (destruct q_type; cbn in Q; try discriminate Q;
        injection Q as <-; reflexivity).
  rewrite T in P.
  set (size := sizeimage (q_data ctx qi)) in *.
  set (v1 := if _ && (vb2_field vbuf =? V4L2_FIELD_ANY) then _ else vbuf)
    in P.
  assert (V1 : match qi with
               | V4L2_M2M_SRC =>
                   planes0_bytesused v1 = planes0_bytesused vbuf /\
                   vb2_field v1 <> V4L2_FIELD_ANY /\
                   (vb2_field vbuf <> V4L2_FIELD_ANY -> v1 = vbuf)
               | V4L2_M2M_DST => v1 = vbuf
               end).
  { subst v1. destruct qi; cbn [andb]; [|reflexivity].
    destruct (Z.eqb_spec (vb2_field vbuf) V4L2_FIELD_ANY) as [E|N].
    - cbn [planes0_bytesused vb2_field].
      split; [reflexivity|]. split; [discriminate|]. intros C. congruence.
    - split; [reflexivity|]. split; [exact N|]. reflexivity. }
  destruct (Z.ltb_spec plane_size size) as [L|L].
  { injection P as <- <- <- <-.
    split; [intros _; repeat split|].
    split; [intros C; discriminate C|].
    split; [intros C; lia|]. split; [intros C; lia|].
    split; [intros _ C; lia|].
    intros ->. exact V1. }
  set (v2 := if negb _ then vb2_set_plane_payload v1 size else v1) in P.
  assert (V2 : match qi with
               | V4L2_M2M_SRC => v2 = v1
               | V4L2_M2M_DST =>
                   planes0_bytesused v2 = u32 size /\
                   vb2_field v2 = vb2_field vbuf
               end).
  { subst v2. destruct qi; cbn [negb]; [reflexivity|].
    rewrite V1. split; reflexivity. }
  assert (Fin : vbuf' = v2 ->
                (qi = V4L2_M2M_DST -> size <= plane_size ->
                 planes0_bytesused vbuf' = u32 size /\
                 vb2_field vbuf' = vb2_field vbuf) /\
                (qi = V4L2_M2M_SRC ->
                 planes0_bytesused vbuf' = planes0_bytesused vbuf /\
                 vb2_field vbuf' <> V4L2_FIELD_ANY /\
                 (vb2_field vbuf <> V4L2_FIELD_ANY -> vbuf' = vbuf))).
  { intros ->. split.
    - intros -> _. exact V2.
    - intros ->. rewrite V2. exact V1. }
  split; [intros C; lia|].
  destruct (Z.eqb_spec memory VB2_MEMORY_DMABUF) as [Md|Md].
  - assert (R : ret = 0 /\ dma_buf' = dma_buf_get fd /\ vbuf' = v2).
    { destruct (Z.eqb_spec (dma_buf_get fd) dma_buf) as [E|N];
        cbn [negb] in P.
      - injection P as <- <- <- _. auto.
      - destruct (if negb (dma_buf =? 0)
                  then bcm2835_codec_mmal_buf_cleanup dma_buf
                  else (dma_buf, [])) as [h cl].
        injection P as <- <- <- _. auto. }
    destruct R as (-> & -> & V).
    split; [intros _; split; [exact L|left; exact Md]|].
    split; [intros _ _; split; reflexivity|].
    split; [intros _ Mm; rewrite Md in Mm; discriminate Mm|].
    apply Fin. exact V.
  - destruct (Z.eqb_spec memory VB2_MEMORY_MMAP) as [Mm|Mm].
    + destruct (Z.eqb_spec dma_buf 0) as [Z0|NZ].
      * destruct (vb2_core_expbuf_dmabuf q_type index) as [r e].
        injection P as <- V <- <-.
        split; [intros _; split; [exact L|right; exact Mm]|].
        split; [intros _ C; contradiction|].
        split; [intros _ _ C; contradiction|].
        apply Fin. symmetry. exact V.
      * injection P as <- V <- <-.
        split; [intros _; split; [exact L|right; exact Mm]|].
        split; [intros _ C; contradiction|].
        split; [intros _ _ _; repeat split|].
        apply Fin. symmetry. exact V.
    + injection P as <- V <- <-.
      split; [intros C; discriminate C|].
      split; [intros _ C; contradiction|].
      split; [intros _ C; contradiction|].
      apply Fin. symmetry. exact V.
Qed.

End BufPrepareOutcomes.

Lemma buf_prepare_outcomes_witness :
  exists vbuf' acts,
    bcm2835_codec_buf_prepare (fun fd => 100 + fd) (fun _ i => (0, 200 + i))
      example_ctx V4L2_BUF_TYPE_VIDEO_CAPTURE_MPLANE
      (mk_vb2_v4l2_buffer 0 0 0 0) (2 ^ 24) VB2_MEMORY_DMABUF 3 0 0
    = Some (0, vbuf', 103, acts) /\
    planes0_bytesused vbuf' =
      u32 (sizeimage (q_data example_ctx V4L2_M2M_DST)).
Proof.
  do 2 eexists. split; [vm_compute; reflexivity|].
  eapply (buf_prepare_outcomes (fun fd => 100 + fd)
            (fun _ i => (0, 200 + i)) example_ctx
            V4L2_BUF_TYPE_VIDEO_CAPTURE_MPLANE V4L2_M2M_DST
            (mk_vb2_v4l2_buffer 0 0 0 0) _ (2 ^ 24) VB2_MEMORY_DMABUF 3 0 0
            103 0 _ eq_refl eq_refl);
    [reflexivity | vm_compute; discriminate].
Defined.
